(** * Generation controller: store and job life cycle

    A shallow embedding of the client-side job orchestration of the
    sketch-to-image front end:

    - [store/app-store.ts]: the zustand store ([State] and its setters);
    - [hooks/use-generation-controller] (second half of
      [components/result-panel.tsx]): [executeGeneration],
      [requestCancellation], [submitGeneration], the socket [onmessage]
      handler, the polling effect, the replay effect and the action facade
      ([regenerate], [improve], [undo], [applyResultToCanvas]);
    - [lib/auth-redirect.ts]: [redirectIfUnauthorized].

    Modelling conventions.

    - The store is a record; every setter is a function [State -> State]
      that rebuilds the record the way zustand's [set] merges a partial
      state.
    - An [async] function is cut at its network [await]s: the part that runs
      up to the [fetch] is one function (it appends the request to the log
      [calls]), the part that runs once the response is there is another
      one, taking the response as an argument.  Awaits on promises that are
      already settled (micro-tasks) are not cut: no other event can run in
      between.
    - React closures are explicit: a callback takes the render that
      created it as an argument and reads from it what the source reads
      from captured variables; it reads the store or a ref where the
      source does ([useAppStore.getState()], [ref.current]).  The render is
      the last one ([rendered]) for the buttons and the effects; for the
      canvas, which calls [submitGeneration] from a timer, it can be an
      older one (event [SubmitFrom]).
    - JS numbers used as seeds are integers ([Z]); [!x] on a number is
      [x = 0] (or absent), on a string it is [x = ""] (or absent). *)

From Stdlib Require Import String Ascii List ZArith Bool Arith Lia.
Import ListNotations.
Open Scope string_scope.
Open Scope list_scope.

(** ** Data model ([store/app-store.ts]) *)

Inductive Quality : Type := fast | normal | high.

Inductive JobStatus : Type := idle | queued | running | done | error | cancelled.

Definition JobStatus_eqb (a b : JobStatus) : bool :=
  match a, b with
  | idle, idle | queued, queued | running, running
  | done, done | error, error | cancelled, cancelled => true
  | _, _ => false
  end.

Module BaseImage.
Record t : Type := mk
  { id : string;
    url : string;
    placeholderSlot : option string }.
End BaseImage.

Module ResultItem.
Record t : Type := mk
  { id : string;
    url : string;
    relativeUrl : option string;
    seed : option Z;
    quality : Quality;
    degraded : option bool;
    downloadToken : option string }.
End ResultItem.

(** JS truthiness of the values the controller tests with [!x]. *)
Definition truthy_string (s : string) : bool := negb (s =? "").

Definition truthy_ostring (o : option string) : bool :=
  match o with Some s => truthy_string s | None => false end.

Definition truthy_onumber (o : option Z) : bool :=
  match o with Some z => negb (z =? 0)%Z | None => false end.

Definition isSome {A} (o : option A) : bool :=
  match o with Some _ => true | None => false end.

Definition ostring_eqb (a b : option string) : bool :=
  match a, b with
  | Some x, Some y => x =? y
  | None, None => true
  | _, _ => false
  end.

(** [jobStatus === "queued" || jobStatus === "running"] *)
Definition busy (s : JobStatus) : bool :=
  match s with queued | running => true | _ => false end.

Record State : Type := mkState
  { prompt : string;
    baseImage : option BaseImage.t;
    results : list ResultItem.t;
    currentResult : option ResultItem.t;
    jobStatus : JobStatus;
    jobMessage : option string;
    activeJobId : option string;
    lastSketchDataUrl : option string;
    lastCanvasDataUrl : option string;
    clearSketchVersion : nat;
    sessionId : option string }.

Definition initialState : State :=
  {| prompt := ""; baseImage := None; results := []; currentResult := None;
     jobStatus := idle; jobMessage := None; activeJobId := None;
     lastSketchDataUrl := None; lastCanvasDataUrl := None;
     clearSketchVersion := 0; sessionId := None |}.

(** ** Store setters *)

Module Store.

Definition setPrompt (value : string) (s : State) : State :=
  {| prompt := value; baseImage := baseImage s; results := results s;
     currentResult := currentResult s; jobStatus := jobStatus s;
     jobMessage := jobMessage s; activeJobId := activeJobId s;
     lastSketchDataUrl := lastSketchDataUrl s;
     lastCanvasDataUrl := lastCanvasDataUrl s;
     clearSketchVersion := clearSketchVersion s; sessionId := sessionId s |}.

Definition setBaseImage (image : option BaseImage.t) (s : State) : State :=
  {| prompt := prompt s; baseImage := image; results := results s;
     currentResult := currentResult s; jobStatus := jobStatus s;
     jobMessage := jobMessage s; activeJobId := activeJobId s;
     lastSketchDataUrl := lastSketchDataUrl s;
     lastCanvasDataUrl := lastCanvasDataUrl s;
     clearSketchVersion := clearSketchVersion s; sessionId := sessionId s |}.

Definition setResults (rs : list ResultItem.t) (cur : option ResultItem.t)
    (s : State) : State :=
  {| prompt := prompt s; baseImage := baseImage s; results := rs;
     currentResult := cur; jobStatus := jobStatus s;
     jobMessage := jobMessage s; activeJobId := activeJobId s;
     lastSketchDataUrl := lastSketchDataUrl s;
     lastCanvasDataUrl := lastCanvasDataUrl s;
     clearSketchVersion := clearSketchVersion s; sessionId := sessionId s |}.

(** [history.slice(-5)]: the whole array when it has at most five
    elements, its last five otherwise. *)
Definition slice_last (n : nat) (l : list ResultItem.t) : list ResultItem.t :=
  skipn (length l - n) l.

(** [state.results.filter((item) => item.id !== result.id)] *)
Definition without_id (i : string) (l : list ResultItem.t) : list ResultItem.t :=
  filter (fun item => negb (ResultItem.id item =? i)) l.

Definition pushResult (result : ResultItem.t) (s : State) : State :=
  let filtered := without_id (ResultItem.id result) (results s) in
  let history := filtered ++ [result] in
  let trimmed := slice_last 5 history in
  setResults trimmed (Some result) s.

Definition setCurrentResult (result : option ResultItem.t) (s : State) : State :=
  setResults (results s) result s.

Definition setJobStatus (status : JobStatus) (message : option string)
    (s : State) : State :=
  {| prompt := prompt s; baseImage := baseImage s; results := results s;
     currentResult := currentResult s; jobStatus := status;
     jobMessage := message; activeJobId := activeJobId s;
     lastSketchDataUrl := lastSketchDataUrl s;
     lastCanvasDataUrl := lastCanvasDataUrl s;
     clearSketchVersion := clearSketchVersion s; sessionId := sessionId s |}.

Definition resetHistory (s : State) : State :=
  {| prompt := prompt s; baseImage := baseImage s; results := [];
     currentResult := None; jobStatus := idle;
     jobMessage := None; activeJobId := None;
     lastSketchDataUrl := None;
     lastCanvasDataUrl := None;
     clearSketchVersion := clearSketchVersion s; sessionId := sessionId s |}.

Definition setActiveJobId (jobId : option string) (s : State) : State :=
  {| prompt := prompt s; baseImage := baseImage s; results := results s;
     currentResult := currentResult s; jobStatus := jobStatus s;
     jobMessage := jobMessage s; activeJobId := jobId;
     lastSketchDataUrl := lastSketchDataUrl s;
     lastCanvasDataUrl := lastCanvasDataUrl s;
     clearSketchVersion := clearSketchVersion s; sessionId := sessionId s |}.

(** [state.results.slice(0, -1)] *)
Definition slice_init (l : list ResultItem.t) : list ResultItem.t :=
  firstn (length l - 1) l.

(** [updated[updated.length - 1] ?? null] *)
Definition lastItem (l : list ResultItem.t) : option ResultItem.t :=
  nth_error l (length l - 1).

Definition removeLatestResult (s : State) : State :=
  match results s with
  | [] => s
  | _ :: _ =>
      let updated := slice_init (results s) in
      setResults updated (lastItem updated) s
  end.

Definition setLastSketch (sketchDataUrl canvasDataUrl : option string)
    (s : State) : State :=
  {| prompt := prompt s; baseImage := baseImage s; results := results s;
     currentResult := currentResult s; jobStatus := jobStatus s;
     jobMessage := jobMessage s; activeJobId := activeJobId s;
     lastSketchDataUrl := sketchDataUrl;
     lastCanvasDataUrl := canvasDataUrl;
     clearSketchVersion := clearSketchVersion s; sessionId := sessionId s |}.

Definition requestClearSketch (s : State) : State :=
  {| prompt := prompt s; baseImage := baseImage s; results := results s;
     currentResult := currentResult s; jobStatus := jobStatus s;
     jobMessage := jobMessage s; activeJobId := activeJobId s;
     lastSketchDataUrl := lastSketchDataUrl s;
     lastCanvasDataUrl := lastCanvasDataUrl s;
     clearSketchVersion := clearSketchVersion s + 1; sessionId := sessionId s |}.

(** [state.sessionId === sessionId ? state : { sessionId }] *)
Definition setSessionId (sid : option string) (s : State) : State :=
  if ostring_eqb (sessionId s) sid then s
  else
    {| prompt := prompt s; baseImage := baseImage s; results := results s;
       currentResult := currentResult s; jobStatus := jobStatus s;
       jobMessage := jobMessage s; activeJobId := activeJobId s;
       lastSketchDataUrl := lastSketchDataUrl s;
       lastCanvasDataUrl := lastCanvasDataUrl s;
       clearSketchVersion := clearSketchVersion s; sessionId := sid |}.

End Store.

(** ** Result history as the specification words it

    "remove any existing entry with the same id, append, truncate to the
    most recent 5 (oldest evicted first), set as current". *)

Module HistorySpec.

Fixpoint remove_id (i : string) (l : list ResultItem.t) : list ResultItem.t :=
  match l with
  | [] => []
  | x :: tl =>
      if ResultItem.id x =? i then remove_id i tl else x :: remove_id i tl
  end.

(** Evict the oldest entry, at most [fuel] times, while more than [cap]
    entries remain. *)
Fixpoint evict_oldest (fuel cap : nat) (l : list ResultItem.t) : list ResultItem.t :=
  match fuel with
  | O => l
  | S fuel' =>
      if (length l <=? cap)%nat then l
      else match l with
           | [] => []
           | _ :: tl => evict_oldest fuel' cap tl
           end
  end.

Definition truncate_recent (cap : nat) (l : list ResultItem.t) : list ResultItem.t :=
  evict_oldest (length l) cap l.

Definition push (item : ResultItem.t) (history : list ResultItem.t)
  : list ResultItem.t * option ResultItem.t :=
  (truncate_recent 5 (remove_id (ResultItem.id item) history ++ [item]),
   Some item).

End HistorySpec.

(** ** Controller data ([use-generation-controller]) *)

Module PendingGeneration.
Record t : Type := mk
  { sketchDataUrl : string;
    canvasDataUrl : option string;
    quality : Quality;
    seed : option Z }.
End PendingGeneration.

(** *** [dataUrlToBlob]

    The function throws when the data URL has no comma and when [atob]
    rejects the payload; otherwise it yields a blob.  A blob is kept as the
    header and the base64 text it was built from: its bytes and its MIME
    type are functions of those two and no code of the controller reads
    them back. *)

Record Blob : Type := mkBlob { blob_header : string; blob_base64 : string }.

(** [s.split(",")] *)
Fixpoint split_comma (s : string) : list string :=
  match s with
  | EmptyString => [""]
  | String c tl =>
      if Ascii.eqb c ","%char then "" :: split_comma tl
      else match split_comma tl with
           | [] => [String c ""]
           | x :: xs => String c x :: xs
           end
  end.

Definition is_ascii_whitespace (c : ascii) : bool :=
  let n := nat_of_ascii c in
  ((n =? 9) || (n =? 10) || (n =? 12) || (n =? 13) || (n =? 32))%nat.

Definition is_base64_char (c : ascii) : bool :=
  let n := nat_of_ascii c in
  (((65 <=? n) && (n <=? 90)) || ((97 <=? n) && (n <=? 122))
   || ((48 <=? n) && (n <=? 57)) || (n =? 43) || (n =? 47))%nat.

(** [atob] accepts its argument (the platform's forgiving base64 decoding):
    white space is dropped, one or two trailing [=] are dropped when the
    length is a multiple of four, then the length must not be 1 modulo 4 and
    every character must be in the base64 alphabet. *)
Definition atob_accepts (payload : string) : bool :=
  let cs := filter (fun c => negb (is_ascii_whitespace c)) (list_ascii_of_string payload) in
  let cs :=
    if (length cs mod 4 =? 0)%nat then
      match rev cs with
      | "="%char :: "="%char :: r => rev r
      | "="%char :: r => rev r
      | _ => cs
      end
    else cs in
  negb (length cs mod 4 =? 1)%nat && forallb is_base64_char cs.

(** The message of the exception [atob] raises (platform text). *)
Definition atob_error_message : string :=
  "The string to be decoded is not correctly encoded.".

(** [inl message]: the promise rejects with [Error(message)]. *)
Definition dataUrlToBlob (dataUrl : string) : string + Blob :=
  match firstn 2 (split_comma dataUrl) with
  | [header; payload] =>
      if atob_accepts payload then inr (mkBlob header payload)
      else inl atob_error_message
  | _ => inl "Invalid data URL"
  end.

(** *** Remote calls and their responses *)

Inductive RemoteCall : Type :=
| CreateJob (base_image_id prompt ui_language : string) (q : Quality)
    (seed : option Z) (sketch_png : Blob) (canvas_png : option Blob)
| CancelJob (job_id : string)
| StatusQuery (job_id : string)
| UndoCall
| ApplyResult (result_url : string).

Set Implicit Arguments.

(** What [response.json()] gives: a rejection, JSON [null] (on which a
    property read throws), or an object, read through [error?.message] and
    through the fields of the end point. *)
Inductive Json (D : Type) : Type :=
| Unparseable (message : string)
| JsonNull
| Parsed (error_message : option string) (data : D).

Arguments Unparseable {D} message.
Arguments JsonNull {D}.

(** What [await fetch(...)] gives: a rejection or a response. *)
Inductive Fetched (D : Type) : Type :=
| Rejected (message : string)
| Response (status : nat) (body : Json D).

Arguments Rejected {D} message.

Unset Implicit Arguments.

(** [response.ok] *)
Definition ok (status : nat) : bool := ((200 <=? status) && (status <=? 299))%nat.

(** [errorData?.error?.message ?? fallback], with
    [errorData = await response.json().catch(() => null)] *)
Definition errorMessageOr {D} (body : Json D) (fallback : string) : string :=
  match body with
  | Parsed (Some m) _ => m
  | _ => fallback
  end.

(** The message of the [TypeError] of a property read on [null]
    (platform text). *)
Definition null_read_message (field : string) : string :=
  String.append "Cannot read properties of null (reading '"
    (String.append field "')").

Record GenerateData : Type := mkGenerateData
  { g_job_id : option string;
    g_status : option string;
    g_quality_degraded : bool }.

Record PollData : Type := mkPollData
  { p_job_id : option string;
    p_status : option string;
    p_result_url : option string;
    p_seed : option Z;
    p_quality_effective : option Quality;
    p_quality_degraded : bool;
    p_download_token : option string;
    p_error_message : option string }.

Record UndoData : Type := mkUndoData { u_result_id : option string }.

Record ApplyData : Type := mkApplyData { a_image_id : string; a_url : string }.

(** Messages of the push channel, after [JSON.parse(event.data)]. *)
Inductive WsMessage : Type :=
| WsStatus (value : string)
| WsResult (job_id : string) (result_url : option string) (seed : option Z)
    (quality_effective : option Quality) (quality_degraded : bool)
    (download_token : option string)
| WsError (message : option string)
| WsCancelled
| WsUnknown
| WsMalformed.

(** [{action: "subscribe", job_id, sid?}] *)
Record Subscribe : Type := mkSubscribe { sub_job_id : string; sub_sid : option string }.

(** *** The controller's world: store, last render, refs, timers, logs *)

Record Refs : Type := mkRefs
  { wsOpen : bool;
    pendingJobRef : option string;
    pendingGenerationRef : option PendingGeneration.t;
    cancellationRequestedRef : bool;
    lastJobStatusRef : JobStatus }.

(** Values the hooks obtain from their collaborators at render time. *)
Record Env : Type := mkEnv
  { language : string;
    base_required : string;
    apiOrigin : option string }.

Record World : Type := mkWorld
  { store : State;
    rendered : State;
    refs : Refs;
    pollTimer : option string;
    calls : list RemoteCall;
    wsSent : list Subscribe;
    redirects : nat;
    env : Env }.

Definition onStore (f : State -> State) (w : World) : World :=
  mkWorld (f (store w)) (rendered w) (refs w) (pollTimer w) (calls w)
    (wsSent w) (redirects w) (env w).

Definition onRefs (f : Refs -> Refs) (w : World) : World :=
  mkWorld (store w) (rendered w) (f (refs w)) (pollTimer w) (calls w)
    (wsSent w) (redirects w) (env w).

Definition setRendered (r : State) (w : World) : World :=
  mkWorld (store w) r (refs w) (pollTimer w) (calls w)
    (wsSent w) (redirects w) (env w).

Definition setPollTimer (t : option string) (w : World) : World :=
  mkWorld (store w) (rendered w) (refs w) t (calls w)
    (wsSent w) (redirects w) (env w).

(** [fetch(...)]: the request goes out; the log is in chronological order. *)
Definition fetch (c : RemoteCall) (w : World) : World :=
  mkWorld (store w) (rendered w) (refs w) (pollTimer w) (calls w ++ [c])
    (wsSent w) (redirects w) (env w).

(** [ws.send(JSON.stringify(payload))] *)
Definition wsSend (m : Subscribe) (w : World) : World :=
  mkWorld (store w) (rendered w) (refs w) (pollTimer w) (calls w)
    (wsSent w ++ [m]) (redirects w) (env w).

(** [redirectToLogin()] *)
Definition redirectToLogin (w : World) : World :=
  mkWorld (store w) (rendered w) (refs w) (pollTimer w) (calls w)
    (wsSent w) (S (redirects w)) (env w).

Definition set_wsOpen (b : bool) (r : Refs) : Refs :=
  mkRefs b (pendingJobRef r) (pendingGenerationRef r)
    (cancellationRequestedRef r) (lastJobStatusRef r).

Definition set_pendingJobRef (j : option string) (r : Refs) : Refs :=
  mkRefs (wsOpen r) j (pendingGenerationRef r)
    (cancellationRequestedRef r) (lastJobStatusRef r).

Definition set_pendingGenerationRef (p : option PendingGeneration.t) (r : Refs) : Refs :=
  mkRefs (wsOpen r) (pendingJobRef r) p
    (cancellationRequestedRef r) (lastJobStatusRef r).

Definition set_cancellationRequestedRef (b : bool) (r : Refs) : Refs :=
  mkRefs (wsOpen r) (pendingJobRef r) (pendingGenerationRef r)
    b (lastJobStatusRef r).

Definition set_lastJobStatusRef (s : JobStatus) (r : Refs) : Refs :=
  mkRefs (wsOpen r) (pendingJobRef r) (pendingGenerationRef r)
    (cancellationRequestedRef r) s.

(** Statements of a handler, left to right. *)
Notation "w |> f" := (f w) (at level 45, left associativity, only parsing).

Definition setJobStatus (s : JobStatus) (m : option string) : World -> World :=
  onStore (Store.setJobStatus s m).
Definition setActiveJobId (j : option string) : World -> World :=
  onStore (Store.setActiveJobId j).
Definition pushResult (r : ResultItem.t) : World -> World :=
  onStore (Store.pushResult r).
Definition setCurrentResult (r : option ResultItem.t) : World -> World :=
  onStore (Store.setCurrentResult r).
Definition removeLatestResult : World -> World :=
  onStore Store.removeLatestResult.
Definition setLastSketch (a b : option string) : World -> World :=
  onStore (Store.setLastSketch a b).
Definition setBaseImage (b : option BaseImage.t) : World -> World :=
  onStore (Store.setBaseImage b).
Definition requestClearSketch : World -> World :=
  onStore Store.requestClearSketch.
Definition setPrompt (value : string) : World -> World :=
  onStore (Store.setPrompt value).
Definition resetHistory : World -> World :=
  onStore Store.resetHistory.
Definition setSessionId (sid : option string) : World -> World :=
  onStore (Store.setSessionId sid).

(** ** [lib/auth-redirect.ts] *)

(** [redirects] counts the calls of [redirectToLogin]; what the collaborator
    then does with [window.location] is outside the controller. *)
Definition redirectIfUnauthorized (status : nat) (w : World) : bool * World :=
  if (status =? 401)%nat then (true, redirectToLogin w) else (false, w).

(** ** The hook's callbacks

    The first argument [r] of a callback is the render whose closure it is:
    [baseImage r], [jobStatus r], [activeJobId r], ... are the values the
    source reads from its captured variables. *)

(** [relativeUrl.startsWith("http") ? relativeUrl
     : apiOrigin ? `${apiOrigin}${relativeUrl}` : relativeUrl] *)
Definition absoluteUrl (origin : option string) (relativeUrl : string) : string :=
  if String.prefix "http" relativeUrl then relativeUrl
  else match origin with
       | Some o => if truthy_string o then String.append o relativeUrl else relativeUrl
       | None => relativeUrl
       end.

(** *** [ws.onmessage] *)
Definition onmessage (m : WsMessage) (w : World) : World :=
  match m with
  | WsStatus value =>
      if value =? "queued" then w |> setJobStatus queued None
      else if value =? "running" then w |> setJobStatus running None
      else w
  | WsResult job_id result_url seed quality_effective quality_degraded download_token =>
      let relativeUrl := match result_url with Some u => u | None => "" end in
      let absolute := absoluteUrl (apiOrigin (env w)) relativeUrl in
      w |> pushResult
             {| ResultItem.id := job_id;
                ResultItem.url := absolute;
                ResultItem.relativeUrl := Some relativeUrl;
                ResultItem.seed := seed;
                ResultItem.quality :=
                  match quality_effective with Some q => q | None => normal end;
                ResultItem.degraded := Some quality_degraded;
                ResultItem.downloadToken := download_token |}
        |> setJobStatus done None
        |> setActiveJobId None
        |> onRefs (set_pendingJobRef None)
  | WsError message =>
      w |> setJobStatus error message
        |> setActiveJobId None
        |> onRefs (set_pendingJobRef None)
  | WsCancelled =>
      w |> setJobStatus cancelled None
        |> setActiveJobId None
        |> onRefs (set_pendingJobRef None)
  | WsUnknown => w
  | WsMalformed => w
  end.

(** [ws.onopen] *)
Definition sidOf (s : State) : option string :=
  match sessionId s with
  | Some sid => if truthy_string sid then Some sid else None
  | None => None
  end.

Definition onopen (w : World) : World :=
  let w := w |> onRefs (set_wsOpen true) in
  match activeJobId (store w) with
  | Some jobId =>
      if truthy_string jobId
      then w |> wsSend (mkSubscribe jobId (sidOf (store w)))
      else w
  | None => w
  end.

(** [ws.onclose] seen from the controller: [wsRef.current = null]. *)
Definition onclose (w : World) : World := w |> onRefs (set_wsOpen false).

(** *** [executeGeneration]

    [executeGeneration_sync] is the part before the first [await];
    [executeGeneration_async] runs from there to the [fetch];
    [executeGeneration_resume] runs when the response is there. *)

Definition blobsOf (p : PendingGeneration.t) : string + (Blob * option Blob) :=
  match dataUrlToBlob (PendingGeneration.sketchDataUrl p) with
  | inl m => inl m
  | inr sketchBlob =>
      match PendingGeneration.canvasDataUrl p with
      | Some c =>
          if truthy_string c then
            match dataUrlToBlob c with
            | inl m => inl m
            | inr canvasBlob => inr (sketchBlob, Some canvasBlob)
            end
          else inr (sketchBlob, None)
      | None => inr (sketchBlob, None)
      end
  end.

Definition executeGeneration_sync (r : State) (w : World)
  : World * option BaseImage.t :=
  match baseImage r with
  | None => (w |> setJobStatus error (Some (base_required (env w))), None)
  | Some b => (w, Some b)
  end.

Definition executeGeneration_async (r : State) (b : BaseImage.t)
    (p : PendingGeneration.t) (w : World) : World :=
  match blobsOf p with
  | inl message =>
      w |> setJobStatus error (Some message)
        |> setActiveJobId None
        |> onRefs (set_pendingJobRef None)
  | inr (sketchBlob, canvasBlob) =>
      w |> setJobStatus queued None
        |> setLastSketch (Some (PendingGeneration.sketchDataUrl p))
             (PendingGeneration.canvasDataUrl p)
        |> fetch (CreateJob (BaseImage.id b) (prompt r) (language (env w))
                    (PendingGeneration.quality p) (PendingGeneration.seed p)
                    sketchBlob canvasBlob)
  end.

Definition executeGeneration_start (r : State) (p : PendingGeneration.t)
    (w : World) : World :=
  match executeGeneration_sync r w with
  | (w1, Some b) => executeGeneration_async r b p w1
  | (w1, None) => w1
  end.

Definition executeGeneration_resume (resp : Fetched GenerateData) (w : World)
  : World :=
  match resp with
  | Rejected message =>
      w |> setJobStatus error (Some message)
        |> setActiveJobId None
        |> onRefs (set_pendingJobRef None)
  | Response status body =>
      match redirectIfUnauthorized status w with
      | (true, w) =>
          w |> setJobStatus idle None
            |> setActiveJobId None
            |> onRefs (set_pendingJobRef None)
            |> onRefs (set_pendingGenerationRef None)
            |> onRefs (set_cancellationRequestedRef false)
      | (false, w) =>
          if negb (ok status) then
            w |> setJobStatus error (Some (errorMessageOr body "Generation failed"))
              |> setActiveJobId None
              |> onRefs (set_pendingJobRef None)
          else
            match body with
            | Unparseable message =>
                w |> setJobStatus error (Some message)
                  |> setActiveJobId None
                  |> onRefs (set_pendingJobRef None)
            | JsonNull =>
                w |> setJobStatus error (Some (null_read_message "job_id"))
                  |> setActiveJobId None
                  |> onRefs (set_pendingJobRef None)
            | Parsed _ data =>
                if match g_status data with Some s => s =? "skipped" | None => false end
                then
                  w |> setJobStatus idle None
                    |> setActiveJobId None
                    |> onRefs (set_pendingJobRef None)
                else
                  let w := w |> setActiveJobId (g_job_id data) in
                  if g_quality_degraded data then w |> setJobStatus queued None
                  else w
            end
      end
  end.

(** *** [requestCancellation] *)

Definition requestCancellation_start (r : State) (w : World) : World :=
  match activeJobId r with
  | Some jobId =>
      if negb (truthy_string jobId) || cancellationRequestedRef (refs w) then w
      else
        w |> onRefs (set_cancellationRequestedRef true)
          |> fetch (CancelJob jobId)
  | None => w
  end.

Definition requestCancellation_resume (resp : Fetched unit) (w : World) : World :=
  match resp with
  | Rejected message =>
      w |> setJobStatus error (Some message)
        |> onRefs (set_pendingGenerationRef None)
        |> onRefs (set_cancellationRequestedRef false)
  | Response status body =>
      match redirectIfUnauthorized status w with
      | (true, w) =>
          w |> setJobStatus idle None
            |> setActiveJobId None
            |> onRefs (set_pendingJobRef None)
            |> onRefs (set_pendingGenerationRef None)
            |> onRefs (set_cancellationRequestedRef false)
      | (false, w) =>
          if negb (ok status) then
            w |> setJobStatus error (Some (errorMessageOr body "Cancel failed"))
              |> onRefs (set_pendingGenerationRef None)
              |> onRefs (set_cancellationRequestedRef false)
          else w
      end
  end.

(** *** [submitGeneration] *)

Definition submitGeneration (r : State) (sketchDataUrl : string)
    (canvasDataUrl : option string) (quality : Quality) (seed : option Z)
    (w : World) : World :=
  if negb (truthy_string sketchDataUrl) then w
  else
    match baseImage r with
    | None => w |> setJobStatus error (Some (base_required (env w)))
    | Some _ =>
        let payload := PendingGeneration.mk sketchDataUrl canvasDataUrl quality seed in
        if busy (jobStatus r) then
          w |> onRefs (set_pendingGenerationRef (Some payload))
            |> requestCancellation_start r
        else
          w |> onRefs (set_pendingGenerationRef None)
            |> executeGeneration_start r payload
    end.

(** *** The polling callback [poll] of the polling effect

    [polled] is the [activeJobId] captured by the effect run that created
    the callback. *)

Definition poll_start (polled : string) (w : World) : World :=
  if wsOpen (refs w) then w
  else w |> fetch (StatusQuery polled).

Definition poll_resume (polled : string) (resp : Fetched PollData) (w : World)
  : World :=
  match resp with
  | Rejected _ => w
  | Response status body =>
      match redirectIfUnauthorized status w with
      | (true, w) =>
          w |> setJobStatus idle None
            |> setActiveJobId None
            |> onRefs (set_pendingJobRef None)
            |> onRefs (set_pendingGenerationRef None)
            |> onRefs (set_cancellationRequestedRef false)
      | (false, w) =>
          if negb (ok status) then w
          else
            match body with
            | Unparseable _ => w
            | JsonNull => w
            | Parsed _ data =>
                if negb (ostring_eqb (p_job_id data) (Some polled)) then w
                else
                  let status := match p_status data with Some s => s | None => "" end in
                  if (status =? "done") && isSome (p_result_url data) then
                    let relativeUrl :=
                      match p_result_url data with Some u => u | None => "" end in
                    let absolute := absoluteUrl (apiOrigin (env w)) relativeUrl in
                    w |> pushResult
                           {| ResultItem.id := polled;
                              ResultItem.url := absolute;
                              ResultItem.relativeUrl := Some relativeUrl;
                              ResultItem.seed := p_seed data;
                              ResultItem.quality :=
                                match p_quality_effective data with
                                | Some q => q
                                | None => normal
                                end;
                              ResultItem.degraded := Some (p_quality_degraded data);
                              ResultItem.downloadToken := p_download_token data |}
                      |> setJobStatus done None
                      |> setActiveJobId None
                      |> onRefs (set_pendingJobRef None)
                  else if status =? "error" then
                    let message :=
                      match p_error_message data with
                      | Some m => if truthy_string m then m else "Generation failed"
                      | None => "Generation failed"
                      end in
                    w |> setJobStatus error (Some message)
                      |> setActiveJobId None
                      |> onRefs (set_pendingJobRef None)
                  else if status =? "cancelled" then
                    w |> setJobStatus cancelled None
                      |> setActiveJobId None
                      |> onRefs (set_pendingJobRef None)
                  else if status =? "queued" then w |> setJobStatus queued None
                  else if status =? "running" then w |> setJobStatus running None
                  else w
            end
      end
  end.

(** *** Action facade *)

Definition regenerate (r : State) (w : World) : World :=
  match lastSketchDataUrl r with
  | Some sketch =>
      if negb (truthy_string sketch) then w
      else submitGeneration r sketch (lastCanvasDataUrl r) normal None w
  | None => w
  end.

(** [currentResult?.seed] *)
Definition currentSeed (r : State) : option Z :=
  match currentResult r with
  | Some c => ResultItem.seed c
  | None => None
  end.

Definition improve (r : State) (w : World) : World :=
  if negb (truthy_ostring (lastSketchDataUrl r)) || negb (truthy_onumber (currentSeed r))
  then w
  else
    match lastSketchDataUrl r with
    | Some sketch =>
        submitGeneration r sketch (lastCanvasDataUrl r) high (currentSeed r) w
    | None => w
    end.

Definition undo_start (w : World) : World := w |> fetch UndoCall.

(** [updatedResults.find((item) => item.id === data.result_id)
     ?? updatedResults[updatedResults.length - 1] ?? null] *)
Definition undoNext (updatedResults : list ResultItem.t) (result_id : option string)
  : option ResultItem.t :=
  match
    match result_id with
    | Some i => find (fun item => ResultItem.id item =? i) updatedResults
    | None => None
    end
  with
  | Some item => Some item
  | None => Store.lastItem updatedResults
  end.

Definition undo_resume (resp : Fetched UndoData) (w : World) : World :=
  match resp with
  | Rejected message => w |> setJobStatus error (Some message)
  | Response status body =>
      match redirectIfUnauthorized status w with
      | (true, w) => w |> setJobStatus idle None
      | (false, w) =>
          if negb (ok status) then
            w |> setJobStatus error (Some (errorMessageOr body "Undo failed"))
          else
            match body with
            | Unparseable message => w |> setJobStatus error (Some message)
            | JsonNull =>
                (* [find] reads [data.result_id] once per remaining entry *)
                let w := w |> removeLatestResult in
                match results (store w) with
                | [] => w |> setCurrentResult None |> setJobStatus done None
                | _ :: _ =>
                    w |> setJobStatus error (Some (null_read_message "result_id"))
                end
            | Parsed _ data =>
                let w := w |> removeLatestResult in
                let updatedResults := results (store w) in
                let next := undoNext updatedResults (u_result_id data) in
                w |> setCurrentResult next
                  |> setJobStatus done None
            end
      end
  end.

Definition applyResultToCanvas_start (r : State) (w : World) : World :=
  match currentResult r with
  | Some c => w |> fetch (ApplyResult (ResultItem.url c))
  | None => w
  end.

Definition applyResultToCanvas_resume (resp : Fetched ApplyData) (w : World)
  : World :=
  match resp with
  | Rejected message => w |> setJobStatus error (Some message)
  | Response status body =>
      match redirectIfUnauthorized status w with
      | (true, w) => w |> setJobStatus idle None
      | (false, w) =>
          if negb (ok status) then
            w |> setJobStatus error (Some (errorMessageOr body "Apply failed"))
          else
            match body with
            | Unparseable message => w |> setJobStatus error (Some message)
            | JsonNull => w |> setJobStatus error (Some (null_read_message "image_id"))
            | Parsed _ data =>
                w |> setBaseImage (Some (BaseImage.mk (a_image_id data) (a_url data) None))
                  |> requestClearSketch
                  |> setJobStatus idle None
            end
      end
  end.

(** ** Effects

    After a store update React renders again and runs the effects whose
    dependencies changed, in the order of their declaration, cleanups
    first.  [commit] is one such round: it compares the previous render
    ([rendered]) with the store.  Dependencies are compared by value; the
    callbacks among them change with the values they close over
    ([executeGeneration] with [baseImage] and [prompt],
    [requestCancellation] with [activeJobId]). *)

(** The effect on [[..., wsUrl]] that owns the socket: when the session id
    in the address changes, the socket is closed and, if there is an
    address, a new one starts connecting; it is open again at [onopen]. *)
Definition socketEffect (w : World) : World := w |> onRefs (set_wsOpen false).

(** [baseImage] of two renders, compared field by field. *)
Definition obaseImage_eqb (a b : option BaseImage.t) : bool :=
  match a, b with
  | Some x, Some y =>
      (BaseImage.id x =? BaseImage.id y) && (BaseImage.url x =? BaseImage.url y)
      && ostring_eqb (BaseImage.placeholderSlot x) (BaseImage.placeholderSlot y)
  | None, None => true
  | _, _ => false
  end.

(** The effect on [[activeJobId]] that subscribes the open socket. *)
Definition subscribeEffect (r : State) (w : World) : World :=
  if negb (wsOpen (refs w)) then w
  else
    match activeJobId r with
    | Some jobId =>
        if truthy_string jobId && negb (ostring_eqb (pendingJobRef (refs w)) (Some jobId))
        then
          w |> wsSend (mkSubscribe jobId (sidOf (store w)))
            |> onRefs (set_pendingJobRef (Some jobId))
        else w
    | None => w
    end.

(** The effect on [[executeGeneration, jobStatus]]: reset of the
    cancellation flag and replay of the pending generation.  The call
    [executeGeneration(pending)] runs to its first [await] inside the
    effect; the rest is returned, to run after the effects of the round. *)
Definition replayEffect (r : State) (w : World)
  : World * option (BaseImage.t * PendingGeneration.t) :=
  let previous := lastJobStatusRef (refs w) in
  let w := w |> onRefs (set_lastJobStatusRef (jobStatus r)) in
  let wasGenerating := busy previous in
  let isGenerating := busy (jobStatus r) in
  let w := if negb isGenerating
           then w |> onRefs (set_cancellationRequestedRef false) else w in
  if wasGenerating && negb isGenerating then
    match pendingGenerationRef (refs w) with
    | Some pending =>
        let w := w |> onRefs (set_pendingGenerationRef None) in
        match executeGeneration_sync r w with
        | (w, Some b) => (w, Some (b, pending))
        | (w, None) => (w, None)
        end
    | None => (w, None)
    end
  else (w, None).

(** The effect on [[activeJobId, jobStatus, requestCancellation]]. *)
Definition cancelEffect (r : State) (w : World) : World :=
  if negb (isSome (pendingGenerationRef (refs w))) then w
  else if negb (truthy_ostring (activeJobId r)) then w
  else if negb (busy (jobStatus r)) then w
  else requestCancellation_start r w.

(** The polling effect: the first [poll()] and the interval.  [pollTimer]
    holds the job id captured by the interval's callback. *)
Definition pollEffect (r : State) (w : World) : World :=
  match activeJobId r with
  | Some jobId =>
      if negb (truthy_string jobId) then w
      else if negb (busy (jobStatus r)) then w
      else w |> poll_start jobId |> setPollTimer (Some jobId)
  | None => w
  end.

(** One render and its effects: the cleanup of the polling effect
    ([clearInterval]), then the bodies of the effects whose dependencies
    changed, then the continuation of a replayed [executeGeneration]. *)
Definition commit (w : World) : World :=
  let old := rendered w in
  let r := store w in
  let jobChanged := negb (ostring_eqb (activeJobId old) (activeJobId r)) in
  let statusChanged := negb (JobStatus_eqb (jobStatus old) (jobStatus r)) in
  let executeChanged :=
    negb (obaseImage_eqb (baseImage old) (baseImage r))
    || negb (prompt old =? prompt r) in
  let urlChanged := negb (ostring_eqb (sidOf old) (sidOf r)) in
  let w := setRendered r w in
  let w := if jobChanged || statusChanged then setPollTimer None w else w in
  let w := if urlChanged then socketEffect w else w in
  let w := if jobChanged then subscribeEffect r w else w in
  let '(w, rest) :=
    if executeChanged || statusChanged then replayEffect r w else (w, None) in
  let w := if jobChanged || statusChanged then cancelEffect r w else w in
  let w := if jobChanged || statusChanged then pollEffect r w else w in
  match rest with
  | Some (b, pending) => executeGeneration_async r b pending w
  | None => w
  end.

(** Rounds of effects until the render has caught up with the store: the
    second round cannot replay (see [commit_commit_stable]). *)
Definition settle (w : World) : World := commit (commit w).

(** ** Events

    What the controller reacts to, one task of the event loop each: calls
    of its actions by the canvas and the result panel, responses to its
    requests, ticks of the polling interval, socket events, and updates of
    the store by other components (the canvas panel selects a base image
    and resets the history; the prompt panel edits the prompt; the session
    watcher sets the session id).

    [submitGeneration] is called in two ways.  [Submit] is a call of the
    callback of the last render.  [SubmitFrom closure] is a call of the
    callback that render [closure] created: the canvas panel calls
    [submitGeneration] from a timer, 120 ms after [scheduleGeneration]
    captured it, and the store may have moved on in between; the callback
    then still reads the [baseImage], [prompt], [jobStatus] and
    [activeJobId] of [closure]. *)

Inductive Event : Type :=
| Submit (sketchDataUrl : string) (canvasDataUrl : option string)
    (quality : Quality) (seed : option Z)
| Regenerate
| Improve
| Undo
| ApplyResultToCanvas
| GenerateResponse (resp : Fetched GenerateData)
| CancelResponse (resp : Fetched unit)
| UndoResponse (resp : Fetched UndoData)
| ApplyResponse (resp : Fetched ApplyData)
| PollTick
| PollResponse (polled : string) (resp : Fetched PollData)
| WsOpened
| WsClosed
| WsReceived (m : WsMessage)
| BaseImageSelected (image : BaseImage.t)
| PromptEdited (value : string)
| SessionChanged (sid : option string)
| SubmitFrom (closure : State) (sketchDataUrl : string)
    (canvasDataUrl : option string) (quality : Quality) (seed : option Z).

(** The handler of an event; but for [SubmitFrom], callbacks close over
    the last render. *)
Definition handle (e : Event) (w : World) : World :=
  match e with
  | Submit s c q sd => submitGeneration (rendered w) s c q sd w
  | Regenerate => regenerate (rendered w) w
  | Improve => improve (rendered w) w
  | Undo => undo_start w
  | ApplyResultToCanvas => applyResultToCanvas_start (rendered w) w
  | GenerateResponse resp => executeGeneration_resume resp w
  | CancelResponse resp => requestCancellation_resume resp w
  | UndoResponse resp => undo_resume resp w
  | ApplyResponse resp => applyResultToCanvas_resume resp w
  | PollTick =>
      match pollTimer w with
      | Some polled => poll_start polled w
      | None => w
      end
  | PollResponse polled resp => poll_resume polled resp w
  | WsOpened => onopen w
  | WsClosed => onclose w
  | WsReceived m => onmessage m w
  | BaseImageSelected image => w |> setBaseImage (Some image) |> resetHistory
  | PromptEdited value => w |> setPrompt value
  | SessionChanged sid => w |> setSessionId sid
  | SubmitFrom closure s c q sd => submitGeneration closure s c q sd w
  end.

(** An event is handled and the effects it triggers are flushed before
    the next event is taken. *)
Definition step (w : World) (e : Event) : World := settle (handle e w).

Definition run (es : list Event) (w : World) : World := fold_left step es w.

(** The world once the hook is mounted on the initial store. *)
Definition initialWorld (e : Env) : World :=
  {| store := initialState; rendered := initialState;
     refs := mkRefs false None None false idle;
     pollTimer := None; calls := []; wsSent := []; redirects := 0; env := e |}.

(** * The rest of the hook and the other components *)

(** ** [selectHistoryItem] and [downloadCurrent] ([use-generation-controller]) *)

(** [results.find((item) => item.id === resultId)], on the rendered
    history. *)
Definition selectHistoryItem (r : State) (resultId : string) (w : World) : World :=
  match find (fun item => ResultItem.id item =? resultId) (results r) with
  | Some next => w |> setCurrentResult (Some next)
  | None => w
  end.

(** [s.includes(sub)] *)
Fixpoint includes (sub s : string) : bool :=
  String.prefix sub s
  || match s with
     | EmptyString => false
     | String _ tl => includes sub tl
     end.

(** The address [downloadCurrent] opens with [window.open], if it opens
    one; the callback changes neither the store nor a ref. *)
Definition downloadCurrent (origin : option string) (r : State) : option string :=
  match currentResult r with
  | Some c =>
      if negb (truthy_ostring (ResultItem.downloadToken c)) || negb (truthy_ostring origin)
      then None
      else
        match ResultItem.downloadToken c, origin with
        | Some token, Some apiOrigin =>
            let baseUrl :=
              match ResultItem.relativeUrl c with
              | Some u => u
              | None => ResultItem.url c
              end in
            let absolute :=
              if String.prefix "http" baseUrl then baseUrl
              else String.append apiOrigin baseUrl in
            let separator := if includes "?" absolute then "&" else "?" in
            Some (String.append absolute
                    (String.append separator (String.append "t=" token)))
        | _, _ => None
        end
  | None => None
  end.

(** The [disabled] attribute of the download button. *)
Definition downloadDisabled (r : State) : bool :=
  negb (truthy_ostring
          (match currentResult r with
           | Some c => ResultItem.downloadToken c
           | None => None
           end)).

(** The events of the controller together with the selection of a history
    entry. *)
Inductive UiEvent : Type :=
| Controller (e : Event)
| SelectHistoryItem (resultId : string).

Definition handleUi (u : UiEvent) (w : World) : World :=
  match u with
  | Controller e => handle e w
  | SelectHistoryItem resultId => selectHistoryItem (rendered w) resultId w
  end.

Definition stepUi (w : World) (u : UiEvent) : World := settle (handleUi u w).

Definition runUi (us : list UiEvent) (w : World) : World := fold_left stepUi us w.

(** ** [lib/api-config] (end of [components/result-panel.tsx]) and
    [buildAuthUrl] ([components/auth-watcher.tsx])

    [API_BASE_RAW] is the argument [raw] of the functions below. *)

Module ApiConfig.

(** [s.replace(/\/$/, "")]: one trailing slash is removed. *)
Fixpoint stripTrailingSlash (s : string) : string :=
  match s with
  | EmptyString => EmptyString
  | String c tl =>
      match tl with
      | EmptyString => if Ascii.eqb c "/"%char then EmptyString else s
      | String _ _ => String c (stripTrailingSlash tl)
      end
  end.

Definition API_BASE (raw : string) : string := stripTrailingSlash raw.

Definition buildApiUrl (raw : string) (path : string) : string :=
  if negb (truthy_string (API_BASE raw)) then path
  else
    let normalized :=
      if String.prefix "/" path then path else String.append "/" path in
    String.append (API_BASE raw) normalized.

(** [`${API_BASE.replace(/\/$/, "")}${path}`] *)
Definition buildAuthUrl (raw : string) (path : string) : string :=
  String.append (stripTrailingSlash (API_BASE raw)) path.

End ApiConfig.

(** ** Image shown by the result panel and by the canvas *)

(** The four templates: [TEMPLATE_SLOTS] of the canvas panel and, with the
    same ids and previews, the own properties of [TEMPLATE_PREVIEWS] of the
    result panel. *)
Definition TEMPLATE_SLOTS : list (string * string) :=
  [("template-mountains", "/assets/pattern1.png");
   ("template-city", "/assets/pattern2.png");
   ("template-lab", "/assets/pattern3.png");
   ("template-forest", "/assets/pattern4.png")].

(** [TEMPLATE_SLOTS.find((item) => item.id === id)?.preview] *)
Definition templatePreview (id : string) : option string :=
  match find (fun item => fst item =? id) TEMPLATE_SLOTS with
  | Some item => Some (snd item)
  | None => None
  end.

Module CanvasView.

(** [baseImageUrl] of the canvas panel; [apiOrigin] is the origin of
    [API_BASE_RAW], or [""]. *)
Definition baseImageUrl (apiOrigin : string) (baseImage : option BaseImage.t)
  : option string :=
  match baseImage with
  | None => None
  | Some b =>
      if truthy_string (BaseImage.url b) then
        if String.prefix "http" (BaseImage.url b) then Some (BaseImage.url b)
        else if truthy_string apiOrigin
             then Some (String.append apiOrigin (BaseImage.url b))
             else Some (BaseImage.url b)
      else
        match BaseImage.placeholderSlot b with
        | Some slot =>
            if truthy_string slot then
              match templatePreview slot with
              | Some preview => if truthy_string preview then Some preview else None
              | None => None
              end
            else None
        | None => None
        end
  end.

End CanvasView.

Module ResultView.

(** The names [TEMPLATE_PREVIEWS] inherits from [Object.prototype]: the
    lookup [TEMPLATE_PREVIEWS[key]] yields a function or object for them. *)
Definition inheritedKeys : list string :=
  ["constructor"; "hasOwnProperty"; "isPrototypeOf"; "propertyIsEnumerable";
   "toLocaleString"; "toString"; "valueOf"; "__proto__";
   "__defineGetter__"; "__defineSetter__"; "__lookupGetter__"; "__lookupSetter__"].

(** What the panel hands to the image: an address, or the inherited member
    the lookup found. *)
Inductive ImageSrc : Type :=
| Address (url : string)
| Inherited (key : string).

Definition DEFAULT_TEMPLATE_PREVIEW : string := "/assets/pattern1.png".

(** [TEMPLATE_PREVIEWS[key]], when it is truthy. *)
Definition lookupPreview (key : string) : option ImageSrc :=
  match templatePreview key with
  | Some preview => if truthy_string preview then Some (Address preview) else None
  | None =>
      if existsb (fun k => k =? key) inheritedKeys then Some (Inherited key) else None
  end.

Definition fallbackImageUrl (apiOrigin : string) (baseImage : option BaseImage.t)
  : ImageSrc :=
  match baseImage with
  | None => Address DEFAULT_TEMPLATE_PREVIEW
  | Some b =>
      match
        match BaseImage.placeholderSlot b with
        | Some slot => if truthy_string slot then lookupPreview slot else None
        | None => None
        end
      with
      | Some preview => preview
      | None =>
          if negb (truthy_string (BaseImage.url b)) then Address DEFAULT_TEMPLATE_PREVIEW
          else if String.prefix "http" (BaseImage.url b) then Address (BaseImage.url b)
          else if truthy_string apiOrigin
               then Address (String.append apiOrigin (BaseImage.url b))
               else Address (BaseImage.url b)
      end
  end.

(** [currentResult?.url ?? fallbackImageUrl] *)
Definition displayImageUrl (apiOrigin : string) (r : State) : ImageSrc :=
  match currentResult r with
  | Some c => Address (ResultItem.url c)
  | None => fallbackImageUrl apiOrigin (baseImage r)
  end.

(** The [disabled] attributes of the undo and apply buttons. *)
Definition undoDisabled (r : State) : bool :=
  busy (jobStatus r) || (length (results r) <=? 1)%nat.

Definition applyDisabled (r : State) : bool :=
  busy (jobStatus r) || negb (isSome (currentResult r)).

End ResultView.

(** ** [HeroCard] ([components/hero-section.tsx]) *)

Module Hero.

(** [s.slice(n)] *)
Fixpoint drop (n : nat) (s : string) : string :=
  match n, s with
  | O, _ => s
  | S n', String _ tl => drop n' tl
  | S _, EmptyString => EmptyString
  end.

(** The text before and after the first occurrence of [sep]. *)
Fixpoint splitFirst (sep s : string) : option (string * string) :=
  if String.prefix sep s then Some (EmptyString, drop (String.length sep) s)
  else
    match s with
    | EmptyString => None
    | String c tl =>
        match splitFirst sep tl with
        | Some (a, b) => Some (String c a, b)
        | None => None
        end
    end.

(** [s.split(sep)] for a non-empty separator; [fuel] bounds the number of
    pieces after the first. *)
Fixpoint splitFuel (fuel : nat) (sep s : string) : list string :=
  match fuel with
  | O => [s]
  | S fuel' =>
      match splitFirst sep s with
      | Some (a, b) => a :: splitFuel fuel' sep b
      | None => [s]
      end
  end.

Definition split (sep s : string) : list string :=
  splitFuel (String.length s) sep s.

(** [[before, after]] of [HeroCard]. *)
Definition parts (text highlight : string) : string * string :=
  if negb (truthy_string highlight) || negb (includes highlight text)
  then (text, EmptyString)
  else
    match split highlight text with
    | prefix :: suffix :: _ => (prefix, suffix)
    | [prefix] => (prefix, EmptyString)
    | [] => (EmptyString, EmptyString)
    end.

(** The text of the paragraph:
    [{before}{highlight ? <span>{highlight}</span> : null}{after}]. *)
Definition paragraph (text highlight : string) : string :=
  let '(before, after) := parts text highlight in
  String.append before
    (String.append (if truthy_string highlight then highlight else EmptyString) after).

End Hero.

(** ** [AuthWatcher] ([components/auth-watcher.tsx]) and [redirectToLogin]
    ([lib/auth-redirect.ts]) *)

Module AuthWatcher.

Definition REFRESH_THROTTLE_MS : Z := 15000.

(** [lastRefresh] and the times ([Date.now()], in milliseconds) at which
    the refresh request was sent. *)
Record Refresher : Type := mkRefresher
  { lastRefresh : Z;
    sentAt : list Z }.

Definition initialRefresher : Refresher := mkRefresher 0 [].

(** The request goes out before the [await]; its outcome changes nothing. *)
Definition sendRefresh (now : Z) (s : Refresher) : Refresher :=
  if (now - lastRefresh s <? REFRESH_THROTTLE_MS)%Z then s
  else mkRefresher now (sentAt s ++ [now]).

(** The target of a [pointerdown] event. *)
Inductive Target : Type :=
| NotElement
| Element (insideButton : bool).

Definition handleInteraction (target : Target) (now : Z) (s : Refresher) : Refresher :=
  match target with
  | NotElement => s
  | Element isButton => if negb isButton then s else sendRefresh now s
  end.

Definition interactions (evs : list (Target * Z)) (s : Refresher) : Refresher :=
  fold_left (fun s ev => handleInteraction (fst ev) (snd ev) s) evs s.

(** [window.location.pathname], or nothing where there is no [window];
    assigning [href] leaves the page at ["/login"]. *)
Definition redirectToLogin (location : option string) : option string :=
  match location with
  | None => None
  | Some pathname => if pathname =? "/login" then Some pathname else Some "/login"
  end.

(** What [check] reads from [/auth/me]: [data.sid] when it is a string. *)
Record AuthData : Type := mkAuthData { sid : option string }.

(** [check] once the response is there: the session id of the store and
    the location. *)
Definition check (cancelled : bool) (resp : Fetched AuthData)
    (s : State) (location : option string) : State * option string :=
  match resp with
  | Rejected _ => (s, location)
  | Response status body =>
      if cancelled then (s, location)
      else if (status =? 401)%nat
      then (Store.setSessionId None s, redirectToLogin location)
      else if ok status then
        match body with
        | Parsed _ data =>
            match sid data with
            | Some v => (Store.setSessionId (Some v) s, location)
            | None => (s, location)
            end
        | _ => (s, location)
        end
      else (s, location)
  end.

End AuthWatcher.

(** ** [LoginPage] *)

Module Login.

Record Form : Type := mkForm
  { error : option string;
    loading : bool;
    pushed : list string }.

(** The translations [handleSubmit] asks for. *)
Record Messages : Type := mkMessages
  { invalid_credentials : string;
    api_unreachable : string;
    generic : string;
    network : string }.

(** [data?.error?.code] *)
Record LoginData : Type := mkLoginData { code : option string }.

Definition handleSubmit_start (f : Form) : Form :=
  mkForm None true (pushed f).

(** [data?.error?.code === "INVALID_CREDENTIALS"] *)
Definition invalidCredentials (body : Json LoginData) : bool :=
  match body with
  | Parsed _ data =>
      match code data with
      | Some c => c =? "INVALID_CREDENTIALS"
      | None => false
      end
  | _ => false
  end.

Definition handleSubmit_resume (t : Messages) (resp : Fetched LoginData) (f : Form)
  : Form :=
  let f' :=
    match resp with
    | Rejected _ => mkForm (Some (network t)) (loading f) (pushed f)
    | Response status body =>
        if negb (ok status) then
          if invalidCredentials body
          then mkForm (Some (invalid_credentials t)) (loading f) (pushed f)
          else if (status =? 404)%nat
          then mkForm (Some (api_unreachable t)) (loading f) (pushed f)
          else mkForm (Some (errorMessageOr body (generic t))) (loading f) (pushed f)
        else mkForm (error f) (loading f) (pushed f ++ ["/app"])
    end in
  mkForm (error f') false (pushed f').

Definition handleSubmit (t : Messages) (resp : Fetched LoginData) (f : Form) : Form :=
  handleSubmit_resume t resp (handleSubmit_start f).

(** The alert of the page: [{error ? <p role="alert">{error}</p> : null}]. *)
Definition alert (f : Form) : option string :=
  match error f with
  | Some m => if truthy_string m then Some m else None
  | None => None
  end.

End Login.

(** ** The strokes of the canvas ([components/canvas-panel.tsx])

    [number] is the type of the coordinates and of the brush size, which
    the handlers store and never compute with; the position is what
    [getPointerPosition] returned for the event.  [isDrawing] is a state
    of the component: a handler reads the value of the render it was
    created in (its first argument below), while the strokes are updated
    through [setStrokes(prev => ...)] and [didDrawRef] is a ref.

    [scheduleGeneration] debounces through [generationTimerRef]: [timers]
    are the timeouts that have been set and have neither been cleared nor
    fired, [nextTimer] is the id the next [setTimeout] returns.  The
    callback of a timeout runs at [TimerFired]; its [finally] clause, which
    resets the ref, runs when the [submitGeneration] it awaits has returned,
    at [TimerSettled]. *)

Module Sketch.

Inductive Tool : Type := brush | eraser.

Section Strokes.

Context {number : Type}.

Record Stroke : Type := mkStroke
  { tool : Tool;
    points : list number;
    color : string;
    size : number }.

Record Canvas : Type := mkCanvas
  { strokes : list Stroke;
    isDrawing : bool;
    didDrawRef : bool;
    currentTool : Tool;
    currentColor : string;
    strokeWidth : number;
    scheduled : nat;
    generationTimerRef : option nat;
    timers : list nat;
    nextTimer : nat;
    fired : nat }.

Definition setStrokes (f : list Stroke -> list Stroke) (c : Canvas) : Canvas :=
  mkCanvas (f (strokes c)) (isDrawing c) (didDrawRef c) (currentTool c)
    (currentColor c) (strokeWidth c) (scheduled c)
    (generationTimerRef c) (timers c) (nextTimer c) (fired c).

Definition setIsDrawing (b : bool) (c : Canvas) : Canvas :=
  mkCanvas (strokes c) b (didDrawRef c) (currentTool c)
    (currentColor c) (strokeWidth c) (scheduled c)
    (generationTimerRef c) (timers c) (nextTimer c) (fired c).

Definition setDidDraw (b : bool) (c : Canvas) : Canvas :=
  mkCanvas (strokes c) (isDrawing c) b (currentTool c)
    (currentColor c) (strokeWidth c) (scheduled c)
    (generationTimerRef c) (timers c) (nextTimer c) (fired c).

(** [if (ref) { window.clearTimeout(ref); }]: a timer id is truthy unless
    it is 0. *)
Definition clearTimeout (ref : option nat) (live : list nat) : list nat :=
  match ref with
  | Some id => if (id =? 0)%nat then live else remove Nat.eq_dec id live
  | None => live
  end.

(** [scheduleGeneration()]: the timeout in the ref is cleared and a new
    one is set and kept in the ref; [scheduled] counts the calls. *)
Definition scheduleGeneration (c : Canvas) : Canvas :=
  mkCanvas (strokes c) (isDrawing c) (didDrawRef c) (currentTool c)
    (currentColor c) (strokeWidth c) (S (scheduled c))
    (Some (nextTimer c))
    (clearTimeout (generationTimerRef c) (timers c) ++ [nextTimer c])
    (S (nextTimer c)) (fired c).

(** The timeout [id] fires, if it is still set: its callback captures the
    canvas and calls [submitGeneration]; [fired] counts the callbacks. *)
Definition timerFired (id : nat) (c : Canvas) : Canvas :=
  if existsb (Nat.eqb id) (timers c) then
    mkCanvas (strokes c) (isDrawing c) (didDrawRef c) (currentTool c)
      (currentColor c) (strokeWidth c) (scheduled c)
      (generationTimerRef c) (remove Nat.eq_dec id (timers c)) (nextTimer c)
      (S (fired c))
  else c.

(** [finally { generationTimerRef.current = null; }] *)
Definition timerSettled (c : Canvas) : Canvas :=
  mkCanvas (strokes c) (isDrawing c) (didDrawRef c) (currentTool c)
    (currentColor c) (strokeWidth c) (scheduled c)
    None (timers c) (nextTimer c) (fired c).

Definition handlePointerDown (position : option (number * number)) (c : Canvas)
  : Canvas :=
  match position with
  | None => c
  | Some (x, y) =>
      let newStroke :=
        mkStroke (currentTool c) [x; y] (currentColor c) (strokeWidth c) in
      c |> setDidDraw false
        |> setStrokes (fun prev =>
             let next := prev ++ [newStroke] in
             if (50 <? length next)%nat then skipn (length next - 50) next else next)
        |> setIsDrawing true
  end.

Definition handlePointerMove (isDrawingR : bool)
    (position : option (number * number)) (c : Canvas) : Canvas :=
  if negb isDrawingR then c
  else
    match position with
    | None => c
    | Some (x, y) =>
        c |> setDidDraw true
          |> setStrokes (fun prev =>
               match rev prev with
               | [] => prev
               | lastStroke :: earlier =>
                   rev earlier
                   ++ [mkStroke (tool lastStroke) (points lastStroke ++ [x; y])
                         (color lastStroke) (size lastStroke)]
               end)
    end.

Definition finishStroke (isDrawingR : bool) (c : Canvas) : Canvas :=
  if negb isDrawingR then c
  else
    let c := c |> setIsDrawing false in
    if negb (didDrawRef c) then c |> setStrokes (fun prev => removelast prev)
    else c |> scheduleGeneration.

Definition clearSketch (c : Canvas) : Canvas := c |> setStrokes (fun _ => []).

Inductive PointerEvent : Type :=
| PointerDown (position : option (number * number))
| PointerMove (position : option (number * number))
| PointerUp
| ClearSketch
| TimerFired (id : nat)
| TimerSettled.

(** The handler of [e], from the render in which [isDrawing] was
    [isDrawingR]. *)
Definition onPointerIn (isDrawingR : bool) (c : Canvas) (e : PointerEvent) : Canvas :=
  match e with
  | PointerDown position => handlePointerDown position c
  | PointerMove position => handlePointerMove isDrawingR position c
  | PointerUp => finishStroke isDrawingR c
  | ClearSketch => clearSketch c
  | TimerFired id => timerFired id c
  | TimerSettled => timerSettled c
  end.

(** Events whose handlers come from whatever render each is paired with. *)
Definition pointerRunIn (es : list (bool * PointerEvent)) (c : Canvas) : Canvas :=
  fold_left (fun c e => onPointerIn (fst e) c (snd e)) es c.

(** The component has rendered again before the next event: the handler
    sees the current [isDrawing]. *)
Definition onPointer (c : Canvas) (e : PointerEvent) : Canvas :=
  onPointerIn (isDrawing c) c e.

Definition pointerRun (es : list PointerEvent) (c : Canvas) : Canvas :=
  fold_left onPointer es c.

End Strokes.

End Sketch.

(** * Definitions used by the statements *)

(** ** The request log *)

Definition isStatusQuery (c : RemoteCall) : bool :=
  match c with StatusQuery _ => true | _ => false end.

Definition isCancel (c : RemoteCall) : bool :=
  match c with CancelJob _ => true | _ => false end.

Definition isCreate (c : RemoteCall) : bool :=
  match c with CreateJob _ _ _ _ _ _ _ => true | _ => false end.

(** ** Kinds of responses and events *)

Definition isTerminalMessage (m : WsMessage) : bool :=
  match m with
  | WsResult _ _ _ _ _ _ | WsError _ | WsCancelled => true
  | _ => false
  end.

(** The poll response is one of the three terminal outcomes [poll] acts on. *)
Definition isTerminalPoll (data : PollData) : bool :=
  match p_status data with
  | Some s =>
      ((s =? "done") && isSome (p_result_url data))
      || (s =? "error") || (s =? "cancelled")
  | None => false
  end.

(** The create-job call was accepted but the body carries no [job_id]. *)
Definition acceptedWithoutId (resp : Fetched GenerateData) : bool :=
  match resp with
  | Response status (Parsed _ data) =>
      ok status
      && negb (match g_status data with Some s => s =? "skipped" | None => false end)
      && negb (isSome (g_job_id data))
  | _ => false
  end.

(** The poll response is a terminal event for the polled job: a 2xx
    response whose body names the polled job and carries one of the three
    terminal outcomes. *)
Definition isTerminalPollResponse (polled : string) (resp : Fetched PollData) : bool :=
  match resp with
  | Response status (Parsed _ data) =>
      ok status && ostring_eqb (p_job_id data) (Some polled) && isTerminalPoll data
  | _ => false
  end.

(** A poll response that leaves the job busy: every one but a terminal one
    and a 401. *)
Definition pollKeepsBusy (polled : string) (resp : Fetched PollData) : bool :=
  match resp with
  | Rejected _ => true
  | Response status _ =>
      negb (status =? 401)%nat && negb (isTerminalPollResponse polled resp)
  end.

(** The response that accepts the create-job call with job id [j]. *)
Definition acceptsAs (j : string) (e : Event) : bool :=
  match e with
  | GenerateResponse (Response status (Parsed _ data)) =>
      ok status
      && negb (match g_status data with Some s => s =? "skipped" | None => false end)
      && ostring_eqb (g_job_id data) (Some j)
  | _ => false
  end.

(** What can happen during a busy period without ending it: calls of
    [submitGeneration] from the last render, directly or through
    [regenerate] and [improve], the start of an undo or apply request,
    progress reports on either path, ticks of the polling interval, the
    acknowledgement of the cancel call, the socket opening or closing, an
    edit of the prompt, a change of the session id.

    Left out are the events after which the status is not busy although the
    job has not reported a terminal outcome (a response to the cancel call
    that is a failure or a 401, a 401 on the polling path, the responses to
    undo and apply, the selection of a base image), the terminal events, the
    calls of [submitGeneration] from an older render ([SubmitFrom]), and the
    responses to the create-job call: its acceptance with a job id is
    admitted by [busyPeriod], once, while the job id is not known; every
    other response leaves the period without a job to cancel. *)
Definition busyPeriodEvent (e : Event) : bool :=
  match e with
  | Submit _ _ _ _ => true
  | Regenerate => true
  | Improve => true
  | Undo => true
  | ApplyResultToCanvas => true
  | WsReceived (WsStatus _) => true
  | WsReceived WsUnknown => true
  | WsReceived WsMalformed => true
  | PollTick => true
  | PollResponse polled resp => pollKeepsBusy polled resp
  | CancelResponse (Response status _) => ok status
  | WsOpened => true
  | WsClosed => true
  | PromptEdited _ => true
  | SessionChanged _ => true
  | _ => false
  end.

(** A busy period of job [j]: events that keep the status busy and, while
    the job id is not known yet ([known] is false), the response that
    accepts the create-job call with id [j].  The result tells whether the
    id is known at the end; there is none when [es] is no such period. *)
Fixpoint busyPeriod (j : string) (known : bool) (es : list Event) : option bool :=
  match es with
  | [] => Some known
  | e :: es' =>
      if acceptsAs j e then (if known then None else busyPeriod j true es')
      else if busyPeriodEvent e then busyPeriod j known es'
      else None
  end.

(** The payload a call of [submitGeneration] leaves in the pending slot
    during a busy period; [s] is the render the call is made from.  A call
    with the empty sketch, and [regenerate] and [improve] when their guards
    fail, leave the slot as it is. *)
Definition submittedBy (s : State) (e : Event) (o : option PendingGeneration.t)
  : option PendingGeneration.t :=
  match e with
  | Submit sketch c q sd =>
      if truthy_string sketch then Some (PendingGeneration.mk sketch c q sd) else o
  | Regenerate =>
      match lastSketchDataUrl s with
      | Some sketch =>
          if truthy_string sketch
          then Some (PendingGeneration.mk sketch (lastCanvasDataUrl s) normal None)
          else o
      | None => o
      end
  | Improve =>
      match lastSketchDataUrl s with
      | Some sketch =>
          if truthy_string sketch && truthy_onumber (currentSeed s)
          then Some (PendingGeneration.mk sketch (lastCanvasDataUrl s) high
                       (currentSeed s))
          else o
      | None => o
      end
  | _ => o
  end.

(** The last sketch and the current result do not change during a busy
    period, so [s] may be the store at its start. *)
Definition lastSubmitted (s : State) (es : list Event) : option PendingGeneration.t :=
  fold_left (fun o e => submittedBy s e o) es None.

(** A terminal event, on either path.  On the push path the handler does
    not look at the job the message is for. *)
Definition isTerminalEvent (e : Event) : bool :=
  match e with
  | WsReceived m => isTerminalMessage m
  | PollResponse polled resp => isTerminalPollResponse polled resp
  | _ => false
  end.

(** ** Invariants and derived notions *)

(** "ActiveJob is non-null iff the status is busy." *)
Definition jobInvariant (s : State) : Prop :=
  activeJobId s <> None <-> busy (jobStatus s) = true.

(** The [disabled] attribute of the improve button. *)
Definition improveDisabled (r : State) : bool :=
  busy (jobStatus r) || negb (truthy_onumber (currentSeed r)).

(** The reset written out in the 401 branches of [executeGeneration],
    [requestCancellation] and [poll]. *)
Definition fullReset (w : World) : World :=
  redirectToLogin w
    |> setJobStatus idle None
    |> setActiveJobId None
    |> onRefs (set_pendingJobRef None)
    |> onRefs (set_pendingGenerationRef None)
    |> onRefs (set_cancellationRequestedRef false).

(** The job id the polling interval is installed for, if any. *)
Definition pollTimerOf (s : State) : option string :=
  match activeJobId s with
  | Some jobId => if truthy_string jobId && busy (jobStatus s) then Some jobId else None
  | None => None
  end.

(** The render is up to date, the interval is the one of the rendered job
    and the previous status seen by the replay effect is the rendered one. *)
Record settled (w : World) : Prop := mkSettled
  { settled_rendered : rendered w = store w;
    settled_timer : pollTimer w = pollTimerOf (rendered w);
    settled_last : lastJobStatusRef (refs w) = jobStatus (rendered w) }.

(** A busy period of job [j]: the status is busy, the job id is in the
    store once it is known, the base image is [b], the environment is [en],
    and the last sketch and the current result are those of [s0]. *)
Record BusyState (j : string) (known : bool) (b : BaseImage.t) (s0 : State)
    (en : Env) (w : World) : Prop := mkBusyState
  { bs_job : activeJobId (store w) = if known then Some j else None;
    bs_busy : busy (jobStatus (store w)) = true;
    bs_base : baseImage (store w) = Some b;
    bs_sketch : lastSketchDataUrl (store w) = lastSketchDataUrl s0;
    bs_canvas : lastCanvasDataUrl (store w) = lastCanvasDataUrl s0;
    bs_current : currentResult (store w) = currentResult s0;
    bs_env : env w = en }.

(** The state of the cancellation within a busy period: [o] is the pending
    generation; the flag is set and one cancel call has been added to
    [before] exactly when something is pending and the job id is known. *)
Record CancelState (j : string) (known : bool) (before : list RemoteCall)
    (o : option PendingGeneration.t) (w : World) : Prop := mkCancelState
  { cs_pending : pendingGenerationRef (refs w) = o;
    cs_flag : cancellationRequestedRef (refs w) = isSome o && known;
    cs_cancels :
      filter isCancel (calls w)
      = filter isCancel before ++ (if isSome o && known then [CancelJob j] else []);
    cs_creates : filter isCreate (calls w) = filter isCreate before }.

(** ** Rounds of effects, stage by stage *)

(** The replay fires: the previous status was busy, the rendered one is
    not, and a generation is pending. *)
Definition replayFires (r : State) (w : World) : bool :=
  busy (lastJobStatusRef (refs w)) && negb (busy (jobStatus r))
  && isSome (pendingGenerationRef (refs w)).

(** [commit] with its stages named. *)
Section Stages.

Variable w : World.

Let r := store w.
Let jobChanged := negb (ostring_eqb (activeJobId (rendered w)) (activeJobId r)).
Let statusChanged := negb (JobStatus_eqb (jobStatus (rendered w)) (jobStatus r)).
Let executeChanged :=
  negb (obaseImage_eqb (baseImage (rendered w)) (baseImage r))
  || negb (prompt (rendered w) =? prompt r).

Let urlChanged := negb (ostring_eqb (sidOf (rendered w)) (sidOf r)).

Definition stage1 : World :=
  let w1 := setRendered r w in
  let w1 := if jobChanged || statusChanged then setPollTimer None w1 else w1 in
  if urlChanged then socketEffect w1 else w1.
Definition stage2 : World :=
  if jobChanged then subscribeEffect r stage1 else stage1.
Definition stage3 : World * option (BaseImage.t * PendingGeneration.t) :=
  if executeChanged || statusChanged then replayEffect r stage2 else (stage2, None).
Definition stage4 : World :=
  if jobChanged || statusChanged then cancelEffect r (fst stage3) else fst stage3.
Definition stage5 : World :=
  if jobChanged || statusChanged then pollEffect r stage4 else stage4.

End Stages.

(** ** Concrete stores, worlds and runs *)

Definition item_of (i : string) : ResultItem.t :=
  ResultItem.mk i (String.append "http://origin/r/" i) None None normal None None.

Definition withResults (l : list ResultItem.t) : State :=
  Store.setResults l (Store.lastItem l) initialState.

Definition env0 : Env :=
  mkEnv "en" "Choose a base image first" (Some "http://localhost:8000").

Definition base0 : BaseImage.t :=
  BaseImage.mk "img-1" "/uploads/img-1.png" None.

Definition sketch1 : string := "data:image/png;base64,AAAA".
Definition sketch2 : string := "data:image/png;base64,BBBB".
Definition sketch3 : string := "data:image/png;base64,CCCC".

(** [POST /generate] answered with [{job_id}]. *)
Definition accepted (job_id : string) : Event :=
  GenerateResponse (Response 200 (Parsed None (mkGenerateData (Some job_id) None false))).

(** [{type: "result", job_id, result_url: "/r/<job_id>.png", seed}] *)
Definition resultOf (job_id : string) (seed : option Z) : Event :=
  WsReceived (WsResult job_id (Some (String.append "/r/" (String.append job_id ".png")))
                seed None false None).

(** One complete job: submitted from the canvas, accepted, finished. *)
Definition jobCycle (sketch job_id : string) (seed : option Z) : list Event :=
  [Submit sketch None normal None; accepted job_id; resultOf job_id seed].

Definition seedZeroState : State :=
  Store.setLastSketch (Some sketch1) None
    (Store.pushResult
       (ResultItem.mk "job-1" "http://localhost:8000/r/job-1.png"
          (Some "/r/job-1.png") (Some 0%Z) normal (Some false) None)
       (Store.setBaseImage (Some base0) initialState)).

(** A world whose render is up to date with the store [s]. *)
Definition worldOf (s : State) : World :=
  {| store := s; rendered := s;
     refs := mkRefs false None None false (jobStatus s);
     pollTimer := None; calls := []; wsSent := []; redirects := 0; env := env0 |}.

(** Two finished jobs, an undo request in flight, then a running job
    ["job-1"] with a pending replacement and its cancellation requested. *)
Definition undoInFlight : list Event :=
  BaseImageSelected base0
    :: jobCycle sketch1 "job-a" None ++ jobCycle sketch2 "job-b" None
    ++ [Undo; Submit sketch1 None normal None; accepted "job-1";
        WsReceived (WsStatus "running"); Submit sketch3 None normal None].

(** ["job-1"] has finished and ["job-2"] has been accepted. *)
Definition secondJobQueued : list Event :=
  BaseImageSelected base0
    :: jobCycle sketch1 "job-1" (Some 7%Z)
    ++ [Submit sketch2 None normal None; accepted "job-2"].

(** The first job has been submitted and the create-job call is not
    answered yet. *)
Definition awaitingAcceptance : World :=
  run [BaseImageSelected base0; Submit sketch1 None normal None] (initialWorld env0).

(** A busy period: a submission before the call is accepted, an edit of
    the prompt, the acceptance as ["job-1"], progress, [regenerate], another
    submission and the acknowledgement of the cancel call. *)
Definition busyPeriod_events : list Event :=
  [Submit sketch2 None normal None; PromptEdited "a cat"; accepted "job-1";
   WsReceived (WsStatus "running"); PollTick; Regenerate;
   Submit sketch3 None normal None; CancelResponse (Response 200 JsonNull)].

(** Scenario B: ["job-1"] is running, then two submissions follow. *)
Definition scenarioB_running : World :=
  run [BaseImageSelected base0; Submit sketch1 None normal None;
       accepted "job-1"; WsReceived (WsStatus "running")]
    (initialWorld env0).

Definition scenarioB_events : list Event :=
  [Submit sketch2 None normal None; PollTick; Submit sketch3 None normal None;
   CancelResponse (Response 200 JsonNull)].

(** ** The result history *)

(** At most five entries, no two with the same id, and the current result
    is one of them (or there is none). *)
Definition historyOk (s : State) : Prop :=
  (length (results s) <= 5)%nat
  /\ NoDup (map ResultItem.id (results s))
  /\ match currentResult s with
     | Some c => In c (results s)
     | None => True
     end.

(** How one handler changes the history: not at all, by a push, by dropping
    the newest entry and selecting among the rest, by a reset, or by
    selecting an entry. *)
Definition historyStep (s s' : State) : Prop :=
  (results s' = results s /\ currentResult s' = currentResult s)
  \/ (exists item,
        results s' = results (Store.pushResult item s)
        /\ currentResult s' = Some item)
  \/ (results s' = removelast (results s)
      /\ match currentResult s' with
         | Some c => In c (results s')
         | None => True
         end)
  \/ (results s' = [] /\ currentResult s' = None)
  \/ (results s' = results s
      /\ match currentResult s' with
         | Some c => In c (results s)
         | None => True
         end).

(** A subscribe message as the socket handlers build it: the job id is not
    empty and the session id, when sent, is not empty either. *)
Definition subscribeOk (m : Subscribe) : Prop :=
  sub_job_id m <> "" /\ sub_sid m <> Some "".

(** The strokes the canvas keeps: at most fifty, each with its points in
    pairs and at least one pair. *)
Definition strokesOk {number : Type} (c : Sketch.Canvas (number := number)) : Prop :=
  (length (Sketch.strokes c) <= 50)%nat
  /\ Forall (fun s => Nat.Even (length (Sketch.points s))
                      /\ (2 <= length (Sketch.points s))%nat)
       (Sketch.strokes c).

(** Consecutive entries are at least the refresh throttle apart. *)
Fixpoint spaced (l : list Z) : Prop :=
  match l with
  | a :: (b :: _) as tl => (AuthWatcher.REFRESH_THROTTLE_MS <= b - a)%Z /\ spaced tl
  | _ => True
  end.

(** The pointer-down events that start a stroke. *)
Definition startsStroke {number : Type} (e : Sketch.PointerEvent (number := number))
  : bool :=
  match e with
  | Sketch.PointerDown (Some _) => true
  | _ => false
  end.

(** * Properties *)

(** ** The scenarios of the specification, run on the model *)

(** Scenario A: submit while idle, [running], then the result. *)
Example scenario_A :
  let w1 := run [BaseImageSelected base0; Submit sketch1 None normal None;
                 accepted "job-1"] (initialWorld env0) in
  let w2 := step w1 (WsReceived (WsStatus "running")) in
  let w3 := step w2 (WsReceived (WsResult "job-1" (Some "/r/1.png") None None false None)) in
  (jobStatus (store w1), activeJobId (store w1)) = (queued, Some "job-1")
  /\ (jobStatus (store w2), activeJobId (store w2)) = (running, Some "job-1")
  /\ (jobStatus (store w3), activeJobId (store w3)) = (done, None)
  /\ map (fun r => (ResultItem.id r, ResultItem.url r)) (results (store w3))
     = [("job-1", "http://localhost:8000/r/1.png")]
  /\ currentResult (store w3) = nth_error (results (store w3)) 0
  /\ filter isCreate (calls w3) = filter isCreate (calls w1)
  /\ filter isCancel (calls w3) = [].
Proof. vm_compute. repeat split. Qed.

(** Scenario C: the socket is closed, the poll response ends ["job-3"] as
    the result message would, and the interval is gone. *)
Example scenario_C :
  let w1 := run [BaseImageSelected base0; Submit sketch1 None normal None;
                 accepted "job-3"] (initialWorld env0) in
  let w2 := step w1 (PollResponse "job-3"
                       (Response 200
                          (Parsed None
                             (mkPollData (Some "job-3") (Some "done") (Some "/r/3.png")
                                None None false (Some "tok") None)))) in
  pollTimer w1 = Some "job-3"
  /\ (jobStatus (store w2), activeJobId (store w2)) = (done, None)
  /\ map (fun r => (ResultItem.id r, ResultItem.url r, ResultItem.downloadToken r))
       (results (store w2))
     = [("job-3", "http://localhost:8000/r/3.png", Some "tok")]
  /\ pollTimer w2 = None.
Proof. vm_compute. repeat split. Qed.

(** Scenario D on the create-job call: 401 resets to [idle] and redirects
    once. *)
Example scenario_D :
  let w1 := run [BaseImageSelected base0; Submit sketch1 None normal None]
              (initialWorld env0) in
  let w2 := step w1 (GenerateResponse (Response 401 JsonNull)) in
  (jobStatus (store w2), activeJobId (store w2)) = (idle, None)
  /\ pendingGenerationRef (refs w2) = None
  /\ redirects w2 = 1.
Proof. vm_compute. repeat split. Qed.

(** ** Result history *)

Section History.

Local Open Scope nat_scope.

Lemma without_id_remove_id (i : string) (l : list ResultItem.t) :
  Store.without_id i l = HistorySpec.remove_id i l.
Proof.
  unfold Store.without_id.
  induction l as [|x tl IH]; simpl; [reflexivity|].
  destruct (String.eqb (ResultItem.id x) i); simpl; rewrite IH; reflexivity.
Qed.

Lemma evict_oldest_skipn (cap fuel : nat) :
  forall l, length l - cap <= fuel ->
    HistorySpec.evict_oldest fuel cap l = skipn (length l - cap) l.
Proof.
  induction fuel as [|fuel IH]; intros l Hfuel; simpl.
  - replace (length l - cap) with 0 by lia. reflexivity.
  - destruct (Nat.leb_spec (length l) cap) as [Hle|Hgt].
    + replace (length l - cap) with 0 by lia. reflexivity.
    + destruct l as [|x tl]; cbn [length] in *; [lia|].
      rewrite IH by lia.
      replace (S (length tl) - cap) with (S (length tl - cap)) by lia.
      reflexivity.
Qed.

Lemma slice_last_truncate_recent (cap : nat) (l : list ResultItem.t) :
  Store.slice_last cap l = HistorySpec.truncate_recent cap l.
Proof.
  unfold Store.slice_last, HistorySpec.truncate_recent.
  symmetry. apply evict_oldest_skipn. lia.
Qed.

Lemma slice_last_length (cap : nat) (l : list ResultItem.t) :
  length (Store.slice_last cap l) = Nat.min cap (length l).
Proof. unfold Store.slice_last. rewrite length_skipn. lia. Qed.

Lemma without_id_length (i : string) (l : list ResultItem.t) :
  length (Store.without_id i l) <= length l.
Proof.
  unfold Store.without_id.
  induction l as [|x tl IH]; simpl; [lia|].
  destruct (negb _); simpl; lia.
Qed.

Lemma without_id_shrinks (i : string) (l : list ResultItem.t) :
  existsb (fun item => ResultItem.id item =? i)%string l = true ->
  length (Store.without_id i l) < length l.
Proof.
  unfold Store.without_id.
  induction l as [|x tl IH]; simpl; [discriminate|].
  destruct (String.eqb (ResultItem.id x) i); simpl; intro H.
  - pose proof (without_id_length i tl) as Hle.
    unfold Store.without_id in Hle. lia.
  - apply IH in H. lia.
Qed.

Lemma pushResult_results (item : ResultItem.t) (s : State) :
  results (Store.pushResult item s)
  = Store.slice_last 5 (Store.without_id (ResultItem.id item) (results s) ++ [item]).
Proof. reflexivity. Qed.

End History.

(** C4. [pushResult] is the specification's [push]: entries with the pushed
    id are removed, the item is appended, the oldest entries are evicted
    down to five, the item becomes current and nothing else in the store
    changes.  Hence the history never has more than five entries, and a push
    of an id that is already present does not grow it. *)
Theorem pushResult_refines_push (item : ResultItem.t) (s : State) :
  let s' := Store.pushResult item s in
  (results s', currentResult s') = HistorySpec.push item (results s)
  /\ s' = Store.setResults (fst (HistorySpec.push item (results s))) (Some item) s
  /\ (length (results s') <= 5)%nat
  /\ (existsb (fun x => ResultItem.id x =? ResultItem.id item) (results s) = true ->
      (length (results s') <= length (results s))%nat).
Proof.
  cbv zeta. unfold HistorySpec.push. cbn [fst].
  rewrite <- without_id_remove_id, <- slice_last_truncate_recent.
  repeat split.
  - rewrite pushResult_results, slice_last_length. lia.
  - intro H. apply without_id_shrinks in H.
    rewrite pushResult_results, slice_last_length, length_app.
    cbn [length]. lia.
Qed.

(** A full history [r1..r5] in which [r3] is pushed again: [r3] moves to the
    end and the history keeps its five entries. *)
Lemma pushResult_refines_push_witness :
  let s := withResults (map item_of ["r1"; "r2"; "r3"; "r4"; "r5"]) in
  map ResultItem.id (results (Store.pushResult (item_of "r3") s))
  = ["r1"; "r2"; "r4"; "r5"; "r3"]
  /\ (length (results (Store.pushResult (item_of "r3") s)) <= length (results s))%nat.
Proof.
  split; [reflexivity|].
  apply (pushResult_refines_push (item_of "r3")
           (withResults (map item_of ["r1"; "r2"; "r3"; "r4"; "r5"]))).
  reflexivity.
Defined.

(** ** Guards of [submitGeneration] and [improve] *)

Lemma truthy_string_false (s : string) : truthy_string s = false <-> s = "".
Proof.
  unfold truthy_string. rewrite negb_false_iff. apply String.eqb_eq.
Qed.

Lemma truthy_string_true (s : string) : truthy_string s = true <-> s <> "".
Proof.
  unfold truthy_string. rewrite negb_true_iff. apply String.eqb_neq.
Qed.

(** C10. When the current result's seed is 0, [improve] returns the world it
    was given (no store change, no request), exactly as when there is no
    seed; the improve button is disabled by the same test. *)
Theorem improve_seed_zero_noop (r : State) (w : World) :
  currentSeed r = Some 0%Z ->
  improve r w = w /\ improveDisabled r = true.
Proof.
  intro H. unfold improve, improveDisabled. rewrite H. simpl.
  rewrite !orb_true_r. split; reflexivity.
Qed.

Lemma improve_seed_zero_noop_witness :
  currentSeed seedZeroState = Some 0%Z
  /\ improve seedZeroState (initialWorld env0) = initialWorld env0
  /\ improveDisabled seedZeroState = true.
Proof.
  split; [reflexivity|].
  apply (improve_seed_zero_noop seedZeroState (initialWorld env0)).
  reflexivity.
Defined.

(** C5 as stated fails: with no base image and the empty sketch payload the
    attempt ends without the error status. *)
Lemma submit_without_base_counterexample :
  baseImage initialState = None
  /\ jobStatus (store (submitGeneration initialState "" None normal None
                         (initialWorld env0))) <> error.
Proof. split; [reflexivity|]. simpl. discriminate. Qed.

(** C5, amended. With no base image in the render, no submission reaches the
    remote call; [submitGeneration] with a non-empty sketch payload, and
    [executeGeneration] with any payload, end with status [error] and the
    localized message, and [submitGeneration] with the empty payload changes
    nothing at all. *)
Theorem submit_without_base (r : State) (w : World) :
  baseImage r = None ->
  (forall sketch canvas quality seed,
      let w' := submitGeneration r sketch canvas quality seed w in
      calls w' = calls w
      /\ (sketch <> "" ->
          w' = setJobStatus error (Some (base_required (env w))) w)
      /\ (sketch = "" -> w' = w))
  /\ (forall p,
         executeGeneration_start r p w
         = setJobStatus error (Some (base_required (env w))) w).
Proof.
  intro Hb. split.
  - intros sketch canvas quality seed. cbv zeta.
    unfold submitGeneration. rewrite Hb.
    destruct (truthy_string sketch) eqn:Hs; simpl.
    + repeat split; try reflexivity.
      intro He. apply truthy_string_true in Hs. contradiction.
    + apply truthy_string_false in Hs.
      repeat split; try reflexivity.
      intro Hne. contradiction.
  - intro p. unfold executeGeneration_start, executeGeneration_sync.
    rewrite Hb. reflexivity.
Qed.

Lemma submit_without_base_witness :
  jobStatus (store (submitGeneration initialState sketch1 None normal None
                      (initialWorld env0))) = error
  /\ jobMessage (store (submitGeneration initialState sketch1 None normal None
                          (initialWorld env0))) = Some "Choose a base image first"
  /\ calls (submitGeneration initialState sketch1 None normal None
              (initialWorld env0)) = [].
Proof.
  destruct (submit_without_base initialState (initialWorld env0) eq_refl)
    as [Hsubmit _].
  destruct (Hsubmit sketch1 None normal None) as [Hcalls [Herr _]].
  rewrite Herr by discriminate.
  repeat split; reflexivity.
Defined.

(** ** Undo *)

Lemma slice_init_removelast (l : list ResultItem.t) :
  Store.slice_init l = removelast l.
Proof.
  unfold Store.slice_init. rewrite removelast_firstn_len.
  rewrite Nat.sub_1_r. reflexivity.
Qed.

Lemma removeLatestResult_results (s : State) :
  results (Store.removeLatestResult s) = removelast (results s).
Proof.
  unfold Store.removeLatestResult.
  destruct (results s) as [|x tl] eqn:E.
  - rewrite E. reflexivity.
  - cbn [results Store.setResults]. apply slice_init_removelast.
Qed.

Lemma ok_not_401 (status : nat) : ok status = true -> (status =? 401)%nat = false.
Proof.
  unfold ok. intro H. apply andb_true_iff in H as [_ H].
  apply Nat.leb_le in H. apply Nat.eqb_neq. lia.
Qed.

(** C8 as stated fails: the undo response names [r1], which is still in the
    history but is not its last entry, and [r1] becomes the current result. *)
Lemma undo_current_counterexample :
  let w := worldOf (withResults (map item_of ["r1"; "r2"; "r3"])) in
  let w' := undo_resume (Response 200 (Parsed None (mkUndoData (Some "r1")))) w in
  map ResultItem.id (results (store w')) = ["r1"; "r2"]
  /\ currentResult (store w') = Some (item_of "r1")
  /\ currentResult (store w') <> Store.lastItem (results (store w')).
Proof. repeat split; try reflexivity. vm_compute. discriminate. Qed.

(** C8, amended. On a 2xx response with an object body the newest history
    entry is removed, the current result becomes the remaining entry whose
    id is the response's [result_id] if there is one, else the remaining
    last entry (null when nothing remains), and the status is [done].  On a
    non-2xx response other than 401, on a rejected [fetch] and on an
    unreadable 2xx body the status is [error] and history and current
    result are unchanged; on 401 the status is [idle], history and current
    result are unchanged and the redirect is invoked. *)
Theorem undo_resume_outcomes (w : World) :
  (forall status em data, ok status = true ->
      let w' := undo_resume (Response status (Parsed em data)) w in
      results (store w') = removelast (results (store w))
      /\ currentResult (store w') = undoNext (results (store w')) (u_result_id data)
      /\ (u_result_id data = None ->
          currentResult (store w') = Store.lastItem (results (store w')))
      /\ jobStatus (store w') = done
      /\ calls w' = calls w)
  /\ (forall status body, ok status = false -> status <> 401 ->
      let w' := undo_resume (Response status body) w in
      jobStatus (store w') = error
      /\ jobMessage (store w') = Some (errorMessageOr body "Undo failed")
      /\ results (store w') = results (store w)
      /\ currentResult (store w') = currentResult (store w))
  /\ (forall message,
      let w' := undo_resume (Rejected message) w in
      jobStatus (store w') = error
      /\ results (store w') = results (store w)
      /\ currentResult (store w') = currentResult (store w))
  /\ (forall status message, ok status = true ->
      let w' := undo_resume (Response status (Unparseable message)) w in
      jobStatus (store w') = error
      /\ results (store w') = results (store w)
      /\ currentResult (store w') = currentResult (store w))
  /\ (forall body,
      let w' := undo_resume (Response 401 body) w in
      jobStatus (store w') = idle
      /\ redirects w' = S (redirects w)
      /\ results (store w') = results (store w)
      /\ currentResult (store w') = currentResult (store w)).
Proof.
  repeat apply conj.
  - intros status em data Hok. cbv zeta.
    unfold undo_resume, redirectIfUnauthorized.
    rewrite (ok_not_401 _ Hok), Hok. cbn [negb].
    cbn [setJobStatus setCurrentResult removeLatestResult onStore store calls
         results currentResult jobStatus Store.setJobStatus
         Store.setCurrentResult Store.setResults].
    rewrite removeLatestResult_results.
    repeat split.
    intro Hnone. rewrite Hnone. reflexivity.
  - intros status body Hok Hne. cbv zeta.
    unfold undo_resume, redirectIfUnauthorized.
    apply Nat.eqb_neq in Hne. rewrite Hne, Hok.
    repeat split.
  - intro message. repeat split.
  - intros status message Hok. cbv zeta.
    unfold undo_resume, redirectIfUnauthorized.
    rewrite (ok_not_401 _ Hok), Hok.
    repeat split.
  - intro body. repeat split.
Qed.

(** Scenario E: history [[r1; r2]] with [r2] current; after a successful
    undo the history is [[r1]], [r1] is current and the status is [done]. *)
Lemma undo_resume_outcomes_witness :
  let w := worldOf (withResults (map item_of ["r1"; "r2"])) in
  let w' := undo_resume (Response 200 (Parsed None (mkUndoData (Some "r1")))) w in
  ok 200 = true
  /\ results (store w') = [item_of "r1"]
  /\ currentResult (store w') = Some (item_of "r1")
  /\ jobStatus (store w') = done.
Proof.
  cbv zeta. split; [reflexivity|].
  destruct (undo_resume_outcomes (worldOf (withResults (map item_of ["r1"; "r2"]))))
    as [Hsuccess _].
  destruct (Hsuccess 200 None (mkUndoData (Some "r1")) eq_refl)
    as [Hres [Hcur [_ [Hst _]]]].
  rewrite Hres, Hcur, Hst. repeat split.
Defined.

(** ** Unauthorized responses *)

Lemma unauthorized_full_reset (w : World) :
  (forall body, executeGeneration_resume (Response 401 body) w = fullReset w)
  /\ (forall body, requestCancellation_resume (Response 401 body) w = fullReset w)
  /\ (forall polled body, poll_resume polled (Response 401 body) w = fullReset w).
Proof. repeat split. Qed.

Lemma unauthorized_status_only (w : World) :
  (forall body,
      undo_resume (Response 401 body) w = setJobStatus idle None (redirectToLogin w))
  /\ (forall body,
      applyResultToCanvas_resume (Response 401 body) w
      = setJobStatus idle None (redirectToLogin w)).
Proof. repeat split. Qed.

(** C6 at the failing input: the undo call returns 401 while ["job-1"] is
    running.  The status becomes [idle] and the redirect is invoked, but the
    active job id, the pending generation and the cancellation flag are left
    as they were, where the 401 branch of [executeGeneration] clears all
    three; the effects then replay the pending generation as a new
    create-job call and polling resumes for the old job id. *)
Theorem undo_unauthorized_keeps_job :
  let w := run undoInFlight (initialWorld env0) in
  let unauthorized := UndoResponse (Response 401 JsonNull) in
  let p3 := PendingGeneration.mk sketch3 None normal None in
  (jobStatus (store w) = running
   /\ activeJobId (store w) = Some "job-1"
   /\ pendingGenerationRef (refs w) = Some p3
   /\ cancellationRequestedRef (refs w) = true)
  /\ (jobStatus (store (handle unauthorized w)) = idle
      /\ redirects (handle unauthorized w) = 1
      /\ activeJobId (store (handle unauthorized w)) = Some "job-1"
      /\ pendingGenerationRef (refs (handle unauthorized w)) = Some p3
      /\ cancellationRequestedRef (refs (handle unauthorized w)) = true)
  /\ (activeJobId (store (handle (GenerateResponse (Response 401 JsonNull)) w)) = None
      /\ pendingGenerationRef (refs (handle (GenerateResponse (Response 401 JsonNull)) w)) = None
      /\ cancellationRequestedRef (refs (handle (GenerateResponse (Response 401 JsonNull)) w)) = false)
  /\ calls (step w unauthorized)
     = calls w ++ [CreateJob "img-1" "" "en" normal None
                     (mkBlob "data:image/png;base64" "CCCC") None;
                   StatusQuery "job-1"]
  /\ jobStatus (store (step w unauthorized)) = queued
  /\ activeJobId (store (step w unauthorized)) = Some "job-1".
Proof. vm_compute. repeat split. Qed.

(** ** Terminal events that arrive twice *)

(** The polling path drops a response whose [job_id] is not the polled one. *)
Lemma poll_resume_other_job (polled : string) (status : nat) (em : option string)
    (data : PollData) (w : World) :
  status <> 401 ->
  p_job_id data <> Some polled ->
  poll_resume polled (Response status (Parsed em data)) w = w.
Proof.
  intros Hs Hj. unfold poll_resume, redirectIfUnauthorized.
  apply Nat.eqb_neq in Hs. rewrite Hs.
  destruct (negb (ok status)); [reflexivity|].
  destruct (p_job_id data) as [j|] eqn:E; cbn [ostring_eqb negb].
  - destruct (String.eqb_spec j polled) as [->|Hne]; [congruence|reflexivity].
  - reflexivity.
Qed.

(** C3 at the failing inputs.  On the push channel a second [result] for
    the finished ["job-1"], received while ["job-2"] is the active job, sets
    the status to [done] and clears the active job id; received when no job
    is active, a second [error] changes the status from [done] to [error]
    and a second [result] without its optional fields replaces the entry in
    the history.  The polling path drops a response whose [job_id] is not
    the polled one, but a late [error] response to a poll of ["job-1"] that
    arrives when no job is active changes the status as well. *)
Theorem duplicate_terminal_on_push_channel :
  let w := run secondJobQueued (initialWorld env0) in
  let v := run (BaseImageSelected base0 :: jobCycle sketch1 "job-1" (Some 7%Z))
             (initialWorld env0) in
  (jobStatus (store w) = queued /\ activeJobId (store w) = Some "job-2")
  /\ (jobStatus (store (handle (resultOf "job-1" (Some 7%Z)) w)) = done
      /\ activeJobId (store (handle (resultOf "job-1" (Some 7%Z)) w)) = None)
  /\ (jobStatus (store v) = done /\ activeJobId (store v) = None)
  /\ jobStatus (store (handle (WsReceived (WsError (Some "late"))) v)) = error
  /\ results (store (handle (resultOf "job-1" None) v)) <> results (store v)
  /\ handle (PollResponse "job-2"
               (Response 200
                  (Parsed None
                     (mkPollData (Some "job-1") (Some "done") (Some "/r/job-1.png")
                        (Some 7%Z) None false None None)))) w = w
  /\ jobStatus
       (store (handle (PollResponse "job-1"
                         (Response 200
                            (Parsed None
                               (mkPollData (Some "job-1") (Some "error") None None
                                  None false None (Some "late"))))) v)) = error.
Proof. vm_compute. repeat split. discriminate. Qed.

(** ** Active job id and status *)

Lemma cleared_job_invariant (s : State) :
  activeJobId s = None -> busy (jobStatus s) = false -> jobInvariant s.
Proof.
  intros Hj Hb. unfold jobInvariant. rewrite Hj, Hb.
  split; [intro H; contradiction | discriminate].
Qed.

Lemma onmessage_terminal (m : WsMessage) (w : World) :
  isTerminalMessage m = true ->
  activeJobId (store (onmessage m w)) = None
  /\ busy (jobStatus (store (onmessage m w))) = false.
Proof. destruct m; simpl; intro H; try discriminate; split; reflexivity. Qed.

Lemma poll_resume_terminal (polled : string) (status : nat) (em : option string)
    (data : PollData) (w : World) :
  ok status = true -> p_job_id data = Some polled -> isTerminalPoll data = true ->
  activeJobId (store (poll_resume polled (Response status (Parsed em data)) w)) = None
  /\ busy (jobStatus (store (poll_resume polled (Response status (Parsed em data)) w)))
     = false.
Proof.
  intros Hok Hid Hterm. unfold poll_resume, redirectIfUnauthorized.
  rewrite (ok_not_401 _ Hok), Hok, Hid. cbn [negb ostring_eqb].
  rewrite String.eqb_refl. cbn [negb].
  unfold isTerminalPoll in Hterm.
  destruct (p_status data) as [s|]; [|discriminate].
  destruct ((s =? "done") && isSome (p_result_url data)); [split; reflexivity|].
  destruct (s =? "error"); [split; reflexivity|].
  destruct (s =? "cancelled"); [split; reflexivity|].
  discriminate.
Qed.

Lemma executeGeneration_start_queued (r : State) (b : BaseImage.t)
    (p : PendingGeneration.t) (sketchBlob : Blob) (canvasBlob : option Blob)
    (w : World) :
  baseImage r = Some b ->
  blobsOf p = inr (sketchBlob, canvasBlob) ->
  executeGeneration_start r p w
  = w |> setJobStatus queued None
      |> setLastSketch (Some (PendingGeneration.sketchDataUrl p))
           (PendingGeneration.canvasDataUrl p)
      |> fetch (CreateJob (BaseImage.id b) (prompt r) (language (env w))
                  (PendingGeneration.quality p) (PendingGeneration.seed p)
                  sketchBlob canvasBlob).
Proof.
  intros Hb Hp. unfold executeGeneration_start, executeGeneration_sync.
  rewrite Hb. unfold executeGeneration_async. rewrite Hp. reflexivity.
Qed.

Lemma executeGeneration_resume_invariant (resp : Fetched GenerateData) (w : World) :
  jobStatus (store w) = queued ->
  acceptedWithoutId resp = false ->
  jobInvariant (store (executeGeneration_resume resp w)).
Proof.
  intros Hq Hacc.
  destruct resp as [message|status body]; [apply cleared_job_invariant; reflexivity|].
  unfold executeGeneration_resume, redirectIfUnauthorized.
  destruct (status =? 401)%nat; [apply cleared_job_invariant; reflexivity|].
  unfold acceptedWithoutId in Hacc.
  destruct (ok status); cbn [negb]; [|apply cleared_job_invariant; reflexivity].
  destruct body as [message| |em data]; try (apply cleared_job_invariant; reflexivity).
  cbn [andb] in Hacc.
  destruct (match g_status data with Some s => s =? "skipped" | None => false end);
    [apply cleared_job_invariant; reflexivity|].
  cbn [negb andb] in Hacc.
  destruct (g_job_id data) as [j|] eqn:Hj; [|discriminate].
  unfold jobInvariant.
  destruct (g_quality_degraded data); simpl; rewrite ?Hq;
    split; intro; [reflexivity | discriminate | reflexivity | discriminate].
Qed.

(** C1 as stated fails: once [submitGeneration] has sent the create-job
    request and before its response, the status is [queued] and the active
    job id is still null. *)
Lemma job_invariant_counterexample :
  let w := run [BaseImageSelected base0; Submit sketch1 None normal None]
             (initialWorld env0) in
  jobStatus (store w) = queued
  /\ activeJobId (store w) = None
  /\ ~ jobInvariant (store w).
Proof.
  cbv zeta. split; [reflexivity|]. split; [reflexivity|].
  intros [_ H]. apply (H eq_refl). reflexivity.
Qed.

(** C1, amended.  After every terminal-event handler, on the push channel
    and on the polling path, the active job id is null and the status is not
    busy.  [executeGeneration] sets the status to [queued] when it sends the
    request and leaves the active job id as it was; the id is stored when the
    response is handled, and from then on (the status still being [queued])
    the id is non-null iff the status is busy, for every response except an
    accepted one that carries no job id. *)
Theorem job_invariant_after_handlers (w : World) :
  (forall m, isTerminalMessage m = true ->
      activeJobId (store (onmessage m w)) = None
      /\ busy (jobStatus (store (onmessage m w))) = false
      /\ jobInvariant (store (onmessage m w)))
  /\ (forall polled status em data,
      ok status = true -> p_job_id data = Some polled -> isTerminalPoll data = true ->
      let w' := poll_resume polled (Response status (Parsed em data)) w in
      activeJobId (store w') = None
      /\ busy (jobStatus (store w')) = false
      /\ jobInvariant (store w'))
  /\ (forall r b p sketchBlob canvasBlob,
      baseImage r = Some b -> blobsOf p = inr (sketchBlob, canvasBlob) ->
      let w' := executeGeneration_start r p w in
      jobStatus (store w') = queued
      /\ activeJobId (store w') = activeJobId (store w)
      /\ forall resp, acceptedWithoutId resp = false ->
           jobInvariant (store (executeGeneration_resume resp w'))).
Proof.
  repeat apply conj.
  - intros m Hm. destruct (onmessage_terminal m w Hm) as [Hj Hb].
    split; [assumption|]. split; [assumption|].
    apply cleared_job_invariant; assumption.
  - intros polled status em data Hok Hid Hterm. cbv zeta.
    destruct (poll_resume_terminal polled status em data w Hok Hid Hterm) as [Hj Hb].
    split; [assumption|]. split; [assumption|].
    apply cleared_job_invariant; assumption.
  - intros r b p sketchBlob canvasBlob Hb Hp. cbv zeta.
    rewrite (executeGeneration_start_queued r b p sketchBlob canvasBlob w Hb Hp).
    split; [reflexivity|]. split; [reflexivity|].
    intros resp Hacc. apply executeGeneration_resume_invariant; [reflexivity|assumption].
Qed.

(** Scenario A: the first submission is accepted as ["job-1"], and the
    result message then ends it. *)
Lemma job_invariant_after_handlers_witness :
  let w := handle (BaseImageSelected base0) (initialWorld env0) in
  let p := PendingGeneration.mk sketch1 None normal None in
  let w1 := executeGeneration_start (store w) p w in
  let w2 := executeGeneration_resume
              (Response 200 (Parsed None (mkGenerateData (Some "job-1") None false))) w1 in
  jobStatus (store w1) = queued
  /\ activeJobId (store w1) = None
  /\ jobInvariant (store w2)
  /\ jobInvariant (store (onmessage (WsResult "job-1" (Some "/r/1.png") None None false None) w2)).
Proof.
  cbv zeta.
  pose (w := handle (BaseImageSelected base0) (initialWorld env0)).
  pose (p := PendingGeneration.mk sketch1 None normal None).
  destruct (job_invariant_after_handlers w) as [_ [_ Hstart]].
  destruct (Hstart (store w) base0 p (mkBlob "data:image/png;base64" "AAAA") None
              eq_refl eq_refl) as [Hq [Hid Hresp]].
  split; [exact Hq|]. split; [exact Hid|]. split.
  - apply (Hresp (Response 200 (Parsed None (mkGenerateData (Some "job-1") None false)))).
    reflexivity.
  - apply (job_invariant_after_handlers
             (executeGeneration_resume
                (Response 200 (Parsed None (mkGenerateData (Some "job-1") None false)))
                (executeGeneration_start (store w) p w))).
    reflexivity.
Defined.

(** ** Rounds of effects *)

Lemma ostring_eqb_refl (a : option string) : ostring_eqb a a = true.
Proof. destruct a; simpl; [apply String.eqb_refl|reflexivity]. Qed.

Lemma ostring_eqb_eq (a b : option string) : ostring_eqb a b = true -> a = b.
Proof.
  destruct a, b; simpl; intro H; try discriminate; [|reflexivity].
  apply String.eqb_eq in H. congruence.
Qed.

Lemma JobStatus_eqb_eq (a b : JobStatus) : JobStatus_eqb a b = true <-> a = b.
Proof. destruct a, b; simpl; split; intro H; congruence. Qed.

Lemma JobStatus_eqb_refl (a : JobStatus) : JobStatus_eqb a a = true.
Proof. destruct a; reflexivity. Qed.

Lemma obaseImage_eqb_refl (a : option BaseImage.t) : obaseImage_eqb a a = true.
Proof.
  destruct a as [b|]; simpl; [|reflexivity].
  rewrite !String.eqb_refl, ostring_eqb_refl. reflexivity.
Qed.

(** Case analysis on the innermost scrutinee of the goal. *)
Ltac break_inner :=
  match goal with
  | |- context [match ?x with _ => _ end] =>
      lazymatch x with
      | context [match _ with _ => _ end] => fail
      | _ => destruct x eqn:?
      end
  end.

Ltac frame_cases := repeat (cbn -[String.eqb]; break_inner); cbn -[String.eqb].

(** What one effect leaves alone. *)
Section Frames.

Variables (r : State) (w : World).

Lemma subscribeEffect_frame :
  let w' := subscribeEffect r w in
  store w' = store w /\ rendered w' = rendered w /\ pollTimer w' = pollTimer w
  /\ calls w' = calls w
  /\ wsOpen (refs w') = wsOpen (refs w)
  /\ pendingGenerationRef (refs w') = pendingGenerationRef (refs w)
  /\ cancellationRequestedRef (refs w') = cancellationRequestedRef (refs w)
  /\ lastJobStatusRef (refs w') = lastJobStatusRef (refs w)
  /\ env w' = env w.
Proof. unfold subscribeEffect. frame_cases; repeat split. Qed.

Lemma replayEffect_frame :
  let w' := fst (replayEffect r w) in
  rendered w' = rendered w /\ pollTimer w' = pollTimer w
  /\ calls w' = calls w
  /\ wsOpen (refs w') = wsOpen (refs w)
  /\ lastJobStatusRef (refs w') = jobStatus r
  /\ activeJobId (store w') = activeJobId (store w)
  /\ env w' = env w.
Proof.
  unfold replayEffect, executeGeneration_sync. frame_cases; repeat split.
Qed.

Lemma replayEffect_idle :
  replayFires r w = false ->
  snd (replayEffect r w) = None
  /\ store (fst (replayEffect r w)) = store w
  /\ pendingGenerationRef (refs (fst (replayEffect r w)))
     = pendingGenerationRef (refs w)
  /\ cancellationRequestedRef (refs (fst (replayEffect r w)))
     = cancellationRequestedRef (refs w) && busy (jobStatus r).
Proof.
  unfold replayFires, replayEffect, executeGeneration_sync.
  destruct (busy (lastJobStatusRef (refs w))), (busy (jobStatus r));
    cbn -[String.eqb]; intro H;
    try (destruct (pendingGenerationRef (refs w)) eqn:Hp; try discriminate);
    cbn -[String.eqb]; rewrite ?andb_true_r, ?andb_false_r; repeat split;
    assumption.
Qed.

Lemma replayEffect_fires (p : PendingGeneration.t) (b : BaseImage.t) :
  busy (lastJobStatusRef (refs w)) = true ->
  busy (jobStatus r) = false ->
  pendingGenerationRef (refs w) = Some p ->
  baseImage r = Some b ->
  replayEffect r w
  = (w |> onRefs (set_lastJobStatusRef (jobStatus r))
       |> onRefs (set_cancellationRequestedRef false)
       |> onRefs (set_pendingGenerationRef None),
     Some (b, p)).
Proof.
  intros Hlast Hnow Hp Hb. unfold replayEffect, executeGeneration_sync.
  rewrite Hlast, Hnow. cbn -[String.eqb]. rewrite Hp, Hb. reflexivity.
Qed.

Lemma cancelEffect_frame :
  let w' := cancelEffect r w in
  store w' = store w /\ rendered w' = rendered w /\ pollTimer w' = pollTimer w
  /\ wsOpen (refs w') = wsOpen (refs w)
  /\ pendingGenerationRef (refs w') = pendingGenerationRef (refs w)
  /\ lastJobStatusRef (refs w') = lastJobStatusRef (refs w)
  /\ env w' = env w.
Proof.
  unfold cancelEffect, requestCancellation_start. frame_cases; repeat split.
Qed.

(** Nothing is pending, or the cancellation has been requested already:
    the effect does nothing. *)
Lemma cancelEffect_idle :
  pendingGenerationRef (refs w) = None
  \/ cancellationRequestedRef (refs w) = true
  \/ activeJobId r = None ->
  cancelEffect r w = w.
Proof.
  unfold cancelEffect, requestCancellation_start.
  intros [H|[H|H]]; rewrite H; frame_cases; try reflexivity.
  rewrite orb_true_r in *. discriminate.
Qed.

Lemma pollEffect_frame :
  let w' := pollEffect r w in
  store w' = store w /\ rendered w' = rendered w /\ refs w' = refs w
  /\ env w' = env w
  /\ filter (fun c => negb (isStatusQuery c)) (calls w')
     = filter (fun c => negb (isStatusQuery c)) (calls w).
Proof.
  unfold pollEffect, poll_start.
  frame_cases; rewrite ?filter_app, ?app_nil_r; repeat split.
Qed.

Lemma executeGeneration_async_frame (b : BaseImage.t) (p : PendingGeneration.t) :
  let w' := executeGeneration_async r b p w in
  rendered w' = rendered w /\ pollTimer w' = pollTimer w
  /\ wsOpen (refs w') = wsOpen (refs w)
  /\ pendingGenerationRef (refs w') = pendingGenerationRef (refs w)
  /\ cancellationRequestedRef (refs w') = cancellationRequestedRef (refs w)
  /\ lastJobStatusRef (refs w') = lastJobStatusRef (refs w)
  /\ env w' = env w.
Proof. unfold executeGeneration_async. frame_cases; repeat split. Qed.

End Frames.

Lemma commit_stages (w : World) :
  commit w
  = match snd (stage3 w) with
    | Some (b, pending) => executeGeneration_async (store w) b pending (stage5 w)
    | None => stage5 w
    end.
Proof.
  unfold commit, stage5, stage4, stage3, stage2, stage1. cbv zeta.
  destruct (if _ || negb (JobStatus_eqb _ _) then _ else _) as [w3 rest].
  reflexivity.
Qed.

Section CommitFacts.

Variable w : World.

Lemma stage1_frame :
  store (stage1 w) = store w /\ rendered (stage1 w) = store w
  /\ calls (stage1 w) = calls w
  /\ pendingGenerationRef (refs (stage1 w)) = pendingGenerationRef (refs w)
  /\ cancellationRequestedRef (refs (stage1 w)) = cancellationRequestedRef (refs w)
  /\ lastJobStatusRef (refs (stage1 w)) = lastJobStatusRef (refs w)
  /\ env (stage1 w) = env w
  /\ pollTimer (stage1 w)
     = if negb (ostring_eqb (activeJobId (rendered w)) (activeJobId (store w)))
          || negb (JobStatus_eqb (jobStatus (rendered w)) (jobStatus (store w)))
       then None else pollTimer w.
Proof.
  unfold stage1, socketEffect. cbv zeta.
  destruct (negb (ostring_eqb (activeJobId _) _) || _),
    (negb (ostring_eqb (sidOf _) _)); repeat split.
Qed.

Lemma stage2_frame :
  store (stage2 w) = store w /\ rendered (stage2 w) = store w
  /\ calls (stage2 w) = calls w
  /\ pollTimer (stage2 w) = pollTimer (stage1 w)
  /\ pendingGenerationRef (refs (stage2 w)) = pendingGenerationRef (refs w)
  /\ cancellationRequestedRef (refs (stage2 w)) = cancellationRequestedRef (refs w)
  /\ lastJobStatusRef (refs (stage2 w)) = lastJobStatusRef (refs w)
  /\ env (stage2 w) = env w.
Proof.
  destruct stage1_frame as (Hs & Hr & Hc & Hp & Hf & Hl & He & _).
  unfold stage2.
  destruct (negb (ostring_eqb _ _)).
  - destruct (subscribeEffect_frame (store w) (stage1 w))
      as (-> & -> & -> & -> & _ & -> & -> & -> & ->).
    repeat split; assumption.
  - repeat split; assumption.
Qed.

Lemma stage3_frame :
  rendered (fst (stage3 w)) = store w
  /\ pollTimer (fst (stage3 w)) = pollTimer (stage2 w)
  /\ calls (fst (stage3 w)) = calls w
  /\ activeJobId (store (fst (stage3 w))) = activeJobId (store w).
Proof.
  destruct stage2_frame as (Hs & Hr & Hc & _).
  unfold stage3.
  destruct (_ || negb (JobStatus_eqb _ _)); cbn [fst].
  - destruct (replayEffect_frame (store w) (stage2 w)) as (-> & -> & -> & _ & _ & -> & _).
    rewrite Hs. repeat split; assumption.
  - rewrite Hs. repeat split; assumption.
Qed.

Lemma stage5_frame :
  store (stage5 w) = store (fst (stage3 w))
  /\ rendered (stage5 w) = store w
  /\ pendingGenerationRef (refs (stage5 w))
     = pendingGenerationRef (refs (fst (stage3 w)))
  /\ lastJobStatusRef (refs (stage5 w)) = lastJobStatusRef (refs (fst (stage3 w))).
Proof.
  destruct stage3_frame as (Hr & _).
  unfold stage5, stage4.
  destruct (negb (ostring_eqb _ _) || negb (JobStatus_eqb _ _)).
  - destruct (pollEffect_frame (store w) (cancelEffect (store w) (fst (stage3 w))))
      as (-> & -> & -> & _).
    destruct (cancelEffect_frame (store w) (fst (stage3 w)))
      as (-> & -> & _ & _ & -> & -> & _).
    repeat split; assumption.
  - repeat split; assumption.
Qed.

Lemma commit_rendered : rendered (commit w) = store w.
Proof.
  rewrite commit_stages. destruct stage5_frame as (_ & Hr & _).
  destruct (snd (stage3 w)) as [[b p]|]; [|exact Hr].
  destruct (executeGeneration_async_frame (store w) (stage5 w) b p) as (-> & _).
  exact Hr.
Qed.

Lemma commit_lastJobStatusRef :
  lastJobStatusRef (refs (commit w)) = lastJobStatusRef (refs (fst (stage3 w))).
Proof.
  rewrite commit_stages. destruct stage5_frame as (_ & _ & _ & Hl).
  destruct (snd (stage3 w)) as [[b p]|]; [|exact Hl].
  destruct (executeGeneration_async_frame (store w) (stage5 w) b p)
    as (_ & _ & _ & _ & _ & -> & _).
  exact Hl.
Qed.

(** A round whose render is already the store does nothing. *)
Lemma commit_current : rendered w = store w -> commit w = w.
Proof.
  intro H. unfold commit. rewrite H.
  rewrite !ostring_eqb_refl, JobStatus_eqb_refl, obaseImage_eqb_refl, String.eqb_refl.
  cbn [negb orb]. destruct w; cbn in *; subst; reflexivity.
Qed.

(** Without a busy previous status nothing is replayed and the store is
    left as it is. *)
Lemma commit_store_not_busy :
  busy (lastJobStatusRef (refs w)) = false -> store (commit w) = store w.
Proof.
  intro Hlast. rewrite commit_stages.
  destruct stage5_frame as (Hs & _).
  destruct stage2_frame as (Hs2 & _ & _ & _ & _ & _ & Hl2 & _).
  assert (Hidle : snd (stage3 w) = None /\ store (fst (stage3 w)) = store w).
  { unfold stage3. destruct (_ || negb (JobStatus_eqb _ _)); cbn [fst snd].
    - destruct (replayEffect_idle (store w) (stage2 w)) as (-> & -> & _).
      + unfold replayFires. rewrite Hl2, Hlast. reflexivity.
      + split; [reflexivity|assumption].
    - split; [reflexivity|assumption]. }
  destruct Hidle as [-> Hs3]. congruence.
Qed.

(** A round either leaves the store as it is or ends with a previous
    status that is not busy. *)
Lemma commit_store_or_idle :
  store (commit w) = store w
  \/ busy (lastJobStatusRef (refs (commit w))) = false.
Proof.
  rewrite commit_lastJobStatusRef, commit_stages.
  destruct stage5_frame as (Hs & _).
  destruct stage2_frame as (Hs2 & _).
  unfold stage3 in *.
  destruct (_ || negb (JobStatus_eqb _ _)); cbn [fst snd] in *.
  - destruct (replayFires (store w) (stage2 w)) eqn:Hf.
    + right.
      destruct (replayEffect_frame (store w) (stage2 w)) as (_ & _ & _ & _ & -> & _).
      unfold replayFires in Hf.
      destruct (busy (jobStatus (store w))); [|reflexivity].
      rewrite andb_false_r in Hf. discriminate.
    + left.
      destruct (replayEffect_idle (store w) (stage2 w) Hf) as (Hn & Hst & _).
      rewrite Hn. congruence.
  - left. congruence.
Qed.

End CommitFacts.

(** Two rounds are enough: the render has caught up with the store. *)
Lemma settle_rendered (w : World) : rendered (settle w) = store (settle w).
Proof.
  unfold settle. rewrite commit_rendered. symmetry.
  destruct (commit_store_or_idle w) as [Hsame|Hidle].
  - rewrite (commit_current (commit w)); [reflexivity|].
    rewrite commit_rendered. symmetry. exact Hsame.
  - apply commit_store_not_busy. exact Hidle.
Qed.

Lemma commit_commit_stable (w : World) : commit (settle w) = settle w.
Proof. apply commit_current, settle_rendered. Qed.

Lemma settle_current (w : World) : rendered w = store w -> settle w = w.
Proof.
  intro H. unfold settle. rewrite (commit_current w H). apply commit_current, H.
Qed.

(** ** Invariants of the runs *)

Ltac unfold_handlers :=
  unfold handle, regenerate, improve, submitGeneration, undo_start, undo_resume,
    applyResultToCanvas_start, applyResultToCanvas_resume, executeGeneration_resume,
    requestCancellation_resume, poll_resume, poll_start, onopen, onclose, onmessage,
    executeGeneration_start, executeGeneration_sync, executeGeneration_async,
    requestCancellation_start, redirectIfUnauthorized.

(** No handler touches the render, the interval or the replay effect's
    previous status. *)
Lemma handle_frame (e : Event) (w : World) :
  rendered (handle e w) = rendered w
  /\ pollTimer (handle e w) = pollTimer w
  /\ lastJobStatusRef (refs (handle e w)) = lastJobStatusRef (refs w).
Proof.
  destruct e; unfold_handlers; frame_cases; repeat split; assumption.
Qed.

(** Only the tick of the interval makes a handler send a status query. *)
Lemma handle_status_queries (e : Event) (w : World) :
  e <> PollTick ->
  filter isStatusQuery (calls (handle e w)) = filter isStatusQuery (calls w).
Proof.
  intro Hne. destruct e; try contradiction;
    unfold_handlers; frame_cases; rewrite ?filter_app, ?app_nil_r; reflexivity.
Qed.

Lemma pollEffect_cases (r : State) (w : World) :
  pollEffect r w
  = match pollTimerOf r with
    | Some jobId => w |> poll_start jobId |> setPollTimer (Some jobId)
    | None => w
    end.
Proof.
  unfold pollEffect, pollTimerOf.
  destruct (activeJobId r) as [j|]; [|reflexivity].
  destruct (truthy_string j), (busy (jobStatus r)); reflexivity.
Qed.

Lemma pollTimerOf_ext (a b : State) :
  ostring_eqb (activeJobId a) (activeJobId b) = true ->
  JobStatus_eqb (jobStatus a) (jobStatus b) = true ->
  pollTimerOf a = pollTimerOf b.
Proof.
  intros Hj Hs. apply ostring_eqb_eq in Hj. apply JobStatus_eqb_eq in Hs.
  unfold pollTimerOf. rewrite Hj, Hs. reflexivity.
Qed.

Lemma commit_timer (w : World) :
  pollTimer w = pollTimerOf (rendered w) ->
  pollTimer (commit w) = pollTimerOf (store w).
Proof.
  intro Hinv. rewrite commit_stages.
  assert (Hstage : pollTimer (stage5 w) = pollTimerOf (store w)).
  { destruct (stage3_frame w) as (_ & Ht3 & _).
    destruct (stage2_frame w) as (_ & _ & _ & Ht2 & _).
    destruct (stage1_frame w) as (_ & _ & _ & _ & _ & _ & _ & Ht1).
    rewrite Ht2, Ht1 in Ht3. clear Ht2 Ht1.
    unfold stage5, stage4.
    destruct (negb (ostring_eqb _ _)) eqn:Hj, (negb (JobStatus_eqb _ _)) eqn:Hs;
      cbn [orb] in *.
    1-3: rewrite pollEffect_cases;
         destruct (pollTimerOf (store w)); [reflexivity|];
         destruct (cancelEffect_frame (store w) (fst (stage3 w))) as (_ & _ & -> & _);
         exact Ht3.
    rewrite Ht3, Hinv.
    apply negb_false_iff in Hj, Hs. apply pollTimerOf_ext; assumption. }
  destruct (snd (stage3 w)) as [[b p]|]; [|exact Hstage].
  destruct (executeGeneration_async_frame (store w) (stage5 w) b p) as (_ & -> & _).
  exact Hstage.
Qed.

Lemma commit_last (w : World) :
  lastJobStatusRef (refs w) = jobStatus (rendered w) ->
  lastJobStatusRef (refs (commit w)) = jobStatus (store w).
Proof.
  intro Hinv. rewrite commit_lastJobStatusRef.
  destruct (stage2_frame w) as (_ & _ & _ & _ & _ & _ & Hl2 & _).
  unfold stage3.
  destruct (negb (JobStatus_eqb _ _)) eqn:Hs; rewrite ?orb_true_r; cbn [fst].
  - destruct (replayEffect_frame (store w) (stage2 w)) as (_ & _ & _ & _ & -> & _).
    reflexivity.
  - rewrite orb_false_r.
    destruct (negb (obaseImage_eqb _ _) || negb (_ =? _)); cbn [fst].
    + destruct (replayEffect_frame (store w) (stage2 w)) as (_ & _ & _ & _ & -> & _).
      reflexivity.
    + rewrite Hl2, Hinv. apply negb_false_iff, JobStatus_eqb_eq in Hs. exact Hs.
Qed.

Lemma settle_settled (w : World) :
  pollTimer w = pollTimerOf (rendered w) ->
  lastJobStatusRef (refs w) = jobStatus (rendered w) ->
  settled (settle w).
Proof.
  intros Ht Hl. constructor.
  - apply settle_rendered.
  - unfold settle. rewrite commit_rendered. apply commit_timer.
    rewrite commit_rendered. apply commit_timer. exact Ht.
  - unfold settle. rewrite commit_rendered. apply commit_last.
    rewrite commit_rendered. apply commit_last. exact Hl.
Qed.

Lemma step_settled (w : World) (e : Event) : settled w -> settled (step w e).
Proof.
  intros [Hr Ht Hl]. unfold step.
  destruct (handle_frame e w) as (Hr' & Ht' & Hl').
  apply settle_settled; congruence.
Qed.

Lemma run_settled (es : list Event) : forall w, settled w -> settled (run es w).
Proof.
  induction es as [|e es IH]; intros w Hw; [exact Hw|].
  cbn [run fold_left]. apply IH, step_settled, Hw.
Qed.

Lemma initialWorld_settled (e : Env) : settled (initialWorld e).
Proof. constructor; reflexivity. Qed.

(** The tick of the polling interval in a settled world. *)
Lemma step_PollTick (w : World) :
  settled w ->
  step w PollTick
  = match pollTimerOf (store w) with
    | Some jobId => if wsOpen (refs w) then w else fetch (StatusQuery jobId) w
    | None => w
    end.
Proof.
  intros [Hr Ht Hl]. unfold step. cbn [handle]. rewrite Ht, Hr.
  destruct (pollTimerOf (store w)) as [j|]; [|apply settle_current, Hr].
  unfold poll_start. destruct (wsOpen (refs w)); apply settle_current; assumption.
Qed.

(** ** Polling *)

(** C7. In every world reached from the mounted hook, the polling interval
    is installed exactly when the store holds a (non-empty) active job id
    and a busy status, and its tick sends the status query for that id
    exactly when, in addition, the push channel is not open: with the
    channel open the tick changes nothing; with a status that is not busy or
    with no active job id there is no interval and the tick changes nothing.
    The first [poll()] of the polling effect sends a query under the same
    three conditions, and no other handler sends a status query. *)
Theorem poll_query_guard (e : Env) (es : list Event) :
  let w := run es (initialWorld e) in
  pollTimer w = pollTimerOf (store w)
  /\ step w PollTick
     = match pollTimerOf (store w) with
       | Some jobId => if wsOpen (refs w) then w else fetch (StatusQuery jobId) w
       | None => w
       end
  /\ (calls (step w PollTick) <> calls w ->
      exists jobId,
        activeJobId (store w) = Some jobId
        /\ busy (jobStatus (store w)) = true
        /\ wsOpen (refs w) = false
        /\ calls (step w PollTick) = calls w ++ [StatusQuery jobId])
  /\ (wsOpen (refs w) = true -> step w PollTick = w)
  /\ (busy (jobStatus (store w)) = false \/ activeJobId (store w) = None ->
      pollTimer w = None /\ step w PollTick = w)
  /\ (forall r v, calls (pollEffect r v) <> calls v ->
      exists jobId,
        activeJobId r = Some jobId
        /\ busy (jobStatus r) = true
        /\ wsOpen (refs v) = false
        /\ calls (pollEffect r v) = calls v ++ [StatusQuery jobId])
  /\ (forall ev, ev <> PollTick ->
      filter isStatusQuery (calls (handle ev w)) = filter isStatusQuery (calls w)).
Proof.
  cbv zeta.
  pose proof (run_settled es (initialWorld e) (initialWorld_settled e)) as Hw.
  pose proof (step_PollTick _ Hw) as Htick.
  set (w := run es (initialWorld e)) in *.
  assert (Hof : forall s jobId, pollTimerOf s = Some jobId ->
                  activeJobId s = Some jobId /\ busy (jobStatus s) = true).
  { intros s jobId. unfold pollTimerOf.
    destruct (activeJobId s) as [j|]; [|discriminate].
    destruct (truthy_string j), (busy (jobStatus s)); cbn [andb]; try discriminate.
    intro H. injection H as ->. split; reflexivity. }
  repeat apply conj.
  - destruct Hw as [Hr Ht _]. rewrite Ht, Hr. reflexivity.
  - exact Htick.
  - rewrite Htick. destruct (pollTimerOf (store w)) as [j|] eqn:Hj; [|congruence].
    destruct (wsOpen (refs w)) eqn:Hopen; [congruence|].
    intros _. exists j. destruct (Hof _ _ Hj) as [Ha Hb].
    repeat split; assumption.
  - intro Hopen. rewrite Htick, Hopen. destruct (pollTimerOf (store w)); reflexivity.
  - intro Hidle.
    assert (Hnone : pollTimerOf (store w) = None).
    { destruct (pollTimerOf (store w)) as [j|] eqn:Hj; [|reflexivity].
      destruct (Hof _ _ Hj) as [Ha Hb]. destruct Hidle; congruence. }
    split.
    + destruct Hw as [Hr Ht _]. rewrite Ht, Hr. exact Hnone.
    + rewrite Htick, Hnone. reflexivity.
  - intros r v. rewrite pollEffect_cases.
    destruct (pollTimerOf r) as [j|] eqn:Hj; [|congruence].
    unfold poll_start. destruct (wsOpen (refs v)) eqn:Hopen; cbn; [congruence|].
    intros _. exists j. destruct (Hof _ _ Hj) as [Ha Hb].
    repeat split; assumption.
  - intros ev Hev. apply handle_status_queries, Hev.
Qed.

(** Scenario C: the push channel is closed and ["job-3"] is queued, so the
    tick sends the status query; once the channel is open the tick sends
    nothing. *)
Lemma poll_query_guard_witness :
  let es := [BaseImageSelected base0; Submit sketch1 None normal None;
             accepted "job-3"] in
  step (run es (initialWorld env0)) PollTick
  = fetch (StatusQuery "job-3") (run es (initialWorld env0))
  /\ step (run (es ++ [WsOpened]) (initialWorld env0)) PollTick
     = run (es ++ [WsOpened]) (initialWorld env0).
Proof.
  cbv zeta. split.
  - destruct (poll_query_guard env0
                [BaseImageSelected base0; Submit sketch1 None normal None;
                 accepted "job-3"]) as (_ & Htick & _).
    rewrite Htick. reflexivity.
  - destruct (poll_query_guard env0
                ([BaseImageSelected base0; Submit sketch1 None normal None;
                  accepted "job-3"] ++ [WsOpened])) as (_ & _ & _ & Hopen & _).
    apply Hopen. reflexivity.
Defined.

(** ** Busy periods *)

(** A filter that rejects status queries does not see them. *)
Lemma filter_without_queries (f : RemoteCall -> bool) (l l' : list RemoteCall) :
  (forall c, f c = true -> isStatusQuery c = false) ->
  filter (fun c => negb (isStatusQuery c)) l'
  = filter (fun c => negb (isStatusQuery c)) l ->
  filter f l' = filter f l.
Proof.
  intros Hf Hl.
  assert (Hcomp : forall k, filter f k
                            = filter f (filter (fun c => negb (isStatusQuery c)) k)).
  { induction k as [|c k IH]; [reflexivity|]. cbn [filter].
    destruct (f c) eqn:Hfc.
    - rewrite (Hf c Hfc). cbn [negb filter]. rewrite Hfc, IH. reflexivity.
    - destruct (negb (isStatusQuery c)); cbn [filter]; rewrite ?Hfc; exact IH. }
  rewrite (Hcomp l'), Hl, <- Hcomp. reflexivity.
Qed.

Lemma isCancel_not_query (c : RemoteCall) : isCancel c = true -> isStatusQuery c = false.
Proof. destruct c; intro H; try discriminate; reflexivity. Qed.

Lemma isCreate_not_query (c : RemoteCall) : isCreate c = true -> isStatusQuery c = false.
Proof. destruct c; intro H; try discriminate; reflexivity. Qed.

(** A round of effects on a busy store replays nothing; when nothing is
    pending, or the cancellation has been requested, or no job is active, it
    sends at most a status query. *)
Lemma commit_busy_store (w : World) :
  busy (jobStatus (store w)) = true ->
  pendingGenerationRef (refs w) = None
  \/ cancellationRequestedRef (refs w) = true
  \/ activeJobId (store w) = None ->
  store (commit w) = store w
  /\ pendingGenerationRef (refs (commit w)) = pendingGenerationRef (refs w)
  /\ cancellationRequestedRef (refs (commit w)) = cancellationRequestedRef (refs w)
  /\ env (commit w) = env w
  /\ filter (fun c => negb (isStatusQuery c)) (calls (commit w))
     = filter (fun c => negb (isStatusQuery c)) (calls w).
Proof.
  intros Hb Hidle. rewrite commit_stages.
  destruct (stage2_frame w) as (Hs2 & _ & Hc2 & _ & Hp2 & Hf2 & Hl2 & He2).
  assert (H3 : snd (stage3 w) = None
               /\ store (fst (stage3 w)) = store w
               /\ pendingGenerationRef (refs (fst (stage3 w)))
                  = pendingGenerationRef (refs w)
               /\ cancellationRequestedRef (refs (fst (stage3 w)))
                  = cancellationRequestedRef (refs w)
               /\ calls (fst (stage3 w)) = calls w
               /\ env (fst (stage3 w)) = env w).
  { unfold stage3. destruct (_ || negb (JobStatus_eqb _ _)); cbn [fst snd].
    - destruct (replayEffect_idle (store w) (stage2 w)) as (-> & -> & -> & ->).
      + unfold replayFires. rewrite Hb, andb_false_r. reflexivity.
      + destruct (replayEffect_frame (store w) (stage2 w))
          as (_ & _ & -> & _ & _ & _ & ->).
        rewrite Hb, andb_true_r. repeat split; congruence.
    - repeat split; congruence. }
  destruct H3 as (-> & Hs3 & Hp3 & Hf3 & Hc3 & He3).
  assert (H4 : stage4 w = fst (stage3 w)).
  { unfold stage4. destruct (_ || _); [|reflexivity].
    apply cancelEffect_idle. rewrite Hp3, Hf3. exact Hidle. }
  unfold stage5. rewrite H4. destruct (_ || _).
  - destruct (pollEffect_frame (store w) (fst (stage3 w))) as (-> & _ & -> & -> & ->).
    repeat split; congruence.
  - repeat split; congruence.
Qed.

Section BusyRound.

Variables (j : string) (b : BaseImage.t) (s0 : State) (en : Env).
Variable before : list RemoteCall.

(** A round of effects in a busy state keeps the job and the state of the
    cancellation. *)
Lemma commit_busy (known : bool) (o : option PendingGeneration.t) (w : World) :
  BusyState j known b s0 en w -> CancelState j known before o w ->
  BusyState j known b s0 en (commit w) /\ CancelState j known before o (commit w).
Proof.
  intros [Hj Hb Hbase Hsk Hcv Hcur Hen] [Hp Hf Hcan Hcre].
  destruct (commit_busy_store w Hb) as (Hs & Hp' & Hf' & He' & Hc').
  { rewrite Hp, Hf, Hj. destruct o, known; cbn; auto. }
  split; constructor; rewrite ?Hs, ?Hp', ?Hf', ?He'; try assumption.
  - rewrite (filter_without_queries isCancel _ _ isCancel_not_query Hc'). assumption.
  - rewrite (filter_without_queries isCreate _ _ isCreate_not_query Hc'). assumption.
Qed.

Lemma settle_busy (known : bool) (o : option PendingGeneration.t) (w : World) :
  BusyState j known b s0 en w -> CancelState j known before o w ->
  BusyState j known b s0 en (settle w) /\ CancelState j known before o (settle w).
Proof.
  intros Hb Hc. unfold settle.
  destruct (commit_busy known o w Hb Hc) as [Hb1 Hc1].
  apply commit_busy; assumption.
Qed.

(** The round of effects that follows the acceptance of the create-job
    call while a generation is pending: the cancel effect runs with the new
    job id and sends the cancel call. *)
Lemma commit_cancel (p : PendingGeneration.t) (w : World) :
  truthy_string j = true ->
  activeJobId (rendered w) = None ->
  activeJobId (store w) = Some j ->
  busy (jobStatus (store w)) = true ->
  pendingGenerationRef (refs w) = Some p ->
  cancellationRequestedRef (refs w) = false ->
  store (commit w) = store w
  /\ pendingGenerationRef (refs (commit w)) = Some p
  /\ cancellationRequestedRef (refs (commit w)) = true
  /\ env (commit w) = env w
  /\ filter (fun c => negb (isStatusQuery c)) (calls (commit w))
     = filter (fun c => negb (isStatusQuery c)) (calls w) ++ [CancelJob j].
Proof.
  intros Ht Hren Hj Hb Hp Hf. rewrite commit_stages.
  destruct (stage2_frame w) as (Hs2 & _ & Hc2 & _ & Hp2 & Hf2 & Hl2 & He2).
  assert (H3 : snd (stage3 w) = None
               /\ store (fst (stage3 w)) = store w
               /\ pendingGenerationRef (refs (fst (stage3 w))) = Some p
               /\ cancellationRequestedRef (refs (fst (stage3 w))) = false
               /\ calls (fst (stage3 w)) = calls w
               /\ env (fst (stage3 w)) = env w).
  { unfold stage3. destruct (_ || negb (JobStatus_eqb _ _)); cbn [fst snd].
    - destruct (replayEffect_idle (store w) (stage2 w)) as (-> & -> & -> & ->).
      + unfold replayFires. rewrite Hb, andb_false_r. reflexivity.
      + destruct (replayEffect_frame (store w) (stage2 w))
          as (_ & _ & -> & _ & _ & _ & ->).
        rewrite Hf2, Hf. repeat split; congruence.
    - repeat split; congruence. }
  destruct H3 as (-> & Hs3 & Hp3 & Hf3 & Hc3 & He3).
  assert (H4 : stage4 w
               = fst (stage3 w) |> onRefs (set_cancellationRequestedRef true)
                                |> fetch (CancelJob j)).
  { unfold stage4. rewrite Hren, Hj. cbn [ostring_eqb negb orb].
    unfold cancelEffect, requestCancellation_start.
    rewrite Hp3, Hj, Hb, Hf3. cbn [isSome negb truthy_ostring].
    rewrite Ht. reflexivity. }
  unfold stage5. rewrite Hren, Hj. cbn [ostring_eqb negb orb].
  destruct (pollEffect_frame (store w) (stage4 w)) as (-> & _ & -> & -> & ->).
  rewrite H4. cbn -[String.eqb filter]. rewrite filter_app. cbn [filter isStatusQuery negb].
  rewrite Hs3, Hp3, He3, Hc3. repeat split.
Qed.

End BusyRound.

Section BusyPeriod.

Variables (j : string) (b : BaseImage.t) (s0 : State) (en : Env).
Variable before : list RemoteCall.
Hypothesis j_truthy : truthy_string j = true.

Ltac busy_fields :=
  split; constructor; cbn -[String.eqb];
  rewrite ?filter_app, ?app_nil_r; cbn -[String.eqb];
  rewrite ?app_nil_r; try assumption; try reflexivity.

(** A call of [submitGeneration] from the current render during a busy
    period: the payload becomes the pending generation, and the cancel call
    is sent if the job id is known and no cancel call has been sent. *)
Lemma submitGeneration_busy (known : bool) (o : option PendingGeneration.t)
    (sketch : string) (c : option string) (q : Quality) (sd : option Z) (w : World) :
  truthy_string sketch = true ->
  BusyState j known b s0 en w -> CancelState j known before o w ->
  BusyState j known b s0 en (submitGeneration (store w) sketch c q sd w)
  /\ CancelState j known before (Some (PendingGeneration.mk sketch c q sd))
       (submitGeneration (store w) sketch c q sd w).
Proof.
  intros Hsk [Hj Hb Hbase Hs Hcv Hcur Hen] [Hp Hf Hcan Hcre].
  unfold submitGeneration. rewrite Hsk, Hbase, Hb. cbn [negb].
  unfold requestCancellation_start. rewrite Hj.
  destruct known.
  - rewrite j_truthy. cbn -[String.eqb]. rewrite Hf.
    destruct o; busy_fields; rewrite ?Hcan; cbn [isSome andb];
      rewrite ?app_nil_r; reflexivity.
  - busy_fields; rewrite ?Hcan, ?Hf; cbn [isSome andb];
      rewrite ?andb_false_r, ?app_nil_r; reflexivity.
Qed.

(** A handler of a busy-period event keeps the job; a submission becomes
    the pending generation, and the first one made while the job id is
    known sends the cancel call. *)
Lemma handle_busy (known : bool) (o : option PendingGeneration.t) (e : Event)
    (w : World) :
  rendered w = store w ->
  BusyState j known b s0 en w -> CancelState j known before o w ->
  busyPeriodEvent e = true ->
  BusyState j known b s0 en (handle e w)
  /\ CancelState j known before (submittedBy s0 e o) (handle e w).
Proof.
  intros Hr HB HC He.
  pose proof HB as [Hj Hb Hbase Hsk Hcv Hcur Hen].
  pose proof HC as [Hp Hf Hcan Hcre].
  destruct e; cbn [busyPeriodEvent] in He; try discriminate;
    cbn [handle submittedBy]; rewrite ?Hr.
  - (* Submit *)
    destruct (truthy_string sketchDataUrl) eqn:Hs.
    + apply (submitGeneration_busy known o); assumption.
    + unfold submitGeneration. rewrite Hs. split; assumption.
  - (* Regenerate *)
    unfold regenerate. rewrite Hsk.
    destruct (lastSketchDataUrl s0) as [sketch|]; [|split; assumption].
    destruct (truthy_string sketch) eqn:Hs; cbn [negb]; [|split; assumption].
    rewrite Hcv. apply (submitGeneration_busy known o); assumption.
  - (* Improve *)
    unfold improve, currentSeed. rewrite Hsk, Hcur, Hcv.
    destruct (lastSketchDataUrl s0) as [sketch|]; cbn [truthy_ostring negb orb];
      [|split; assumption].
    fold (currentSeed s0).
    destruct (truthy_string sketch) eqn:Hs; cbn [negb orb andb]; [|split; assumption].
    destruct (truthy_onumber (currentSeed s0)); cbn [negb]; [|split; assumption].
    apply (submitGeneration_busy known o); assumption.
  - (* Undo *)
    unfold undo_start. busy_fields.
  - (* ApplyResultToCanvas *)
    unfold applyResultToCanvas_start.
    destruct (currentResult (store w)) eqn:E; busy_fields; rewrite E; assumption.
  - (* CancelResponse *)
    destruct resp as [|status body]; [discriminate|].
    unfold requestCancellation_resume, redirectIfUnauthorized.
    rewrite (ok_not_401 _ He), He. busy_fields.
  - (* PollTick *)
    destruct (pollTimer w); [unfold poll_start; destruct (wsOpen (refs w))|];
      busy_fields.
  - (* PollResponse *)
    unfold pollKeepsBusy in He. destruct resp as [|status body]; [busy_fields|].
    apply andb_true_iff in He as [H401 Hbody]. apply negb_true_iff in H401.
    apply negb_true_iff in Hbody.
    unfold poll_resume, redirectIfUnauthorized. rewrite H401.
    destruct (ok status) eqn:Hok; cbn [negb]; [|busy_fields].
    destruct body as [| |em data]; [busy_fields|busy_fields|].
    cbn [isTerminalPollResponse] in Hbody. rewrite Hok in Hbody. cbn [andb] in Hbody.
    destruct (ostring_eqb (p_job_id data) (Some polled)); cbn [negb andb] in *;
      [|busy_fields].
    unfold isTerminalPoll in Hbody.
    destruct (p_status data) as [s|]; [|busy_fields].
    apply orb_false_iff in Hbody as [Hbody Hc].
    apply orb_false_iff in Hbody as [Hd Herr].
    rewrite Hd, Herr, Hc.
    destruct (s =? "queued"); [busy_fields|].
    destruct (s =? "running"); busy_fields.
  - (* WsOpened *)
    unfold onopen. cbn -[String.eqb]. rewrite Hj.
    destruct known; [rewrite j_truthy|]; busy_fields.
  - (* WsClosed *)
    unfold onclose. busy_fields.
  - (* WsReceived *)
    destruct m; try discriminate; cbn [onmessage]; [|busy_fields|busy_fields].
    destruct (value =? "queued"); [busy_fields|].
    destruct (value =? "running"); busy_fields.
  - (* PromptEdited *)
    busy_fields.
  - (* SessionChanged *)
    unfold setSessionId, Store.setSessionId.
    busy_fields; destruct (ostring_eqb (sessionId (store w)) sid);
      cbn -[String.eqb]; assumption.
Qed.

Lemma step_busy (known : bool) (o : option PendingGeneration.t) (e : Event)
    (w : World) :
  settled w ->
  BusyState j known b s0 en w -> CancelState j known before o w ->
  busyPeriodEvent e = true ->
  settled (step w e)
  /\ BusyState j known b s0 en (step w e)
  /\ CancelState j known before (submittedBy s0 e o) (step w e).
Proof.
  intros Hs Hb Hc He. split; [apply step_settled, Hs|].
  destruct (handle_busy known o e w (settled_rendered w Hs) Hb Hc He) as [Hb1 Hc1].
  unfold step. apply settle_busy; assumption.
Qed.

(** The create-job call is accepted with job id [j].  If a generation is
    pending, the cancel effect sends the cancel call for [j]. *)
Lemma step_accept (o : option PendingGeneration.t) (e : Event) (w : World) :
  settled w ->
  BusyState j false b s0 en w -> CancelState j false before o w ->
  acceptsAs j e = true ->
  settled (step w e)
  /\ BusyState j true b s0 en (step w e)
  /\ CancelState j true before o (step w e).
Proof.
  intros Hs [Hj Hb Hbase Hsk Hcv Hcur Hen] [Hp Hf Hcan Hcre] He.
  split; [apply step_settled, Hs|].
  destruct e; try discriminate.
  destruct resp as [|status [| |em data]]; try discriminate.
  cbn [acceptsAs] in He.
  apply andb_true_iff in He as [He Hid]. apply andb_true_iff in He as [Hok Hskip].
  apply negb_true_iff in Hskip. apply ostring_eqb_eq in Hid.
  unfold step. cbn [handle executeGeneration_resume]. unfold redirectIfUnauthorized.
  rewrite (ok_not_401 _ Hok), Hok, Hskip, Hid. cbn [negb].
  match goal with |- context [settle ?x] => set (h := x) end.
  assert (HB : BusyState j true b s0 en h).
  { subst h. destruct (g_quality_degraded data); constructor; cbn; assumption || reflexivity. }
  assert (Hh : rendered h = rendered w /\ refs h = refs w /\ calls h = calls w).
  { subst h. destruct (g_quality_degraded data); repeat split. }
  destruct Hh as (Hhr & Hhrefs & Hhc).
  assert (HC1 : CancelState j true before o (commit h)).
  { destruct o as [p|].
    - destruct (commit_cancel j p h j_truthy) as (Hs1 & Hp1 & Hf1 & He1 & Hc1).
      + rewrite Hhr, (settled_rendered w Hs). exact Hj.
      + apply HB.
      + apply HB.
      + rewrite Hhrefs. exact Hp.
      + rewrite Hhrefs. exact Hf.
      + assert (Hcalls : forall f, (forall c, f c = true -> isStatusQuery c = false) ->
                  filter f (calls (commit h)) = filter f (calls h ++ [CancelJob j])).
        { intros f Hfq. apply filter_without_queries; [exact Hfq|].
          rewrite Hc1, filter_app. reflexivity. }
        constructor; rewrite ?Hp1, ?Hf1; try reflexivity.
        * rewrite (Hcalls isCancel isCancel_not_query), filter_app, Hhc, Hcan.
          cbn. rewrite app_nil_r. reflexivity.
        * rewrite (Hcalls isCreate isCreate_not_query), filter_app, Hhc, Hcre.
          cbn. rewrite app_nil_r. reflexivity.
    - destruct (commit_busy_store h) as (Hs1 & Hp1 & Hf1 & He1 & Hc1).
      + apply HB.
      + left. rewrite Hhrefs. exact Hp.
      + constructor; rewrite ?Hp1, ?Hf1, ?Hhrefs; try assumption.
        * rewrite (filter_without_queries isCancel _ _ isCancel_not_query Hc1), Hhc.
          exact Hcan.
        * rewrite (filter_without_queries isCreate _ _ isCreate_not_query Hc1), Hhc.
          exact Hcre. }
  assert (HB1 : BusyState j true b s0 en (commit h)).
  { destruct HB as [Bj Bb Bbase Bsk Bcv Bcur Ben].
    assert (Hst : store (commit h) = store h /\ env (commit h) = env h).
    { destruct o as [p|].
      - destruct (commit_cancel j p h j_truthy) as (Hs1 & _ & _ & He1 & _);
          try assumption; try (rewrite Hhrefs; assumption).
        + rewrite Hhr, (settled_rendered w Hs). exact Hj.
        + split; assumption.
      - destruct (commit_busy_store h Bb) as (Hs1 & _ & _ & He1 & _).
        + left. rewrite Hhrefs. exact Hp.
        + split; assumption. }
    destruct Hst as [Hst Hev]. constructor; rewrite ?Hst, ?Hev; assumption. }
  unfold settle. apply commit_busy; assumption.
Qed.

Lemma run_busy (es : list Event) :
  forall (known known' : bool) (o : option PendingGeneration.t) (w : World),
    settled w ->
    BusyState j known b s0 en w -> CancelState j known before o w ->
    busyPeriod j known es = Some known' ->
    settled (run es w)
    /\ BusyState j known' b s0 en (run es w)
    /\ CancelState j known' before (fold_left (fun o e => submittedBy s0 e o) es o)
         (run es w).
Proof.
  induction es as [|e es IH]; intros known known' o w Hs Hb Hc Hes.
  - cbn in Hes. injection Hes as <-. cbn [run fold_left]. split; [|split]; assumption.
  - cbn [busyPeriod] in Hes. cbn [run fold_left].
    destruct (acceptsAs j e) eqn:Hacc.
    + destruct known; [discriminate|].
      destruct (step_accept o e w Hs Hb Hc Hacc) as (Hs1 & Hb1 & Hc1).
      assert (Hsub : submittedBy s0 e o = o).
      { destruct e; try discriminate. reflexivity. }
      rewrite Hsub. apply (IH true); assumption.
    + destruct (busyPeriodEvent e) eqn:He; [|discriminate].
      destruct (step_busy known o e w Hs Hb Hc He) as (Hs1 & Hb1 & Hc1).
      apply (IH known); assumption.
Qed.

End BusyPeriod.

(** ** The replay at the end of a busy period *)

Lemma busy_status_changed (a c : JobStatus) :
  busy a = true -> busy c = false -> JobStatus_eqb a c = false.
Proof. destruct a, c; simpl; intros; congruence. Qed.

(** The round of effects that follows the terminal event: the previous
    status was busy, the store's is not, no job is active and [p] is
    pending.  The pending generation is dispatched as one create-job call. *)
Lemma commit_replay (b : BaseImage.t) (p : PendingGeneration.t)
    (sketchBlob : Blob) (canvasBlob : option Blob) (w : World) :
  busy (jobStatus (rendered w)) = true ->
  busy (lastJobStatusRef (refs w)) = true ->
  busy (jobStatus (store w)) = false ->
  activeJobId (store w) = None ->
  baseImage (store w) = Some b ->
  pendingGenerationRef (refs w) = Some p ->
  blobsOf p = inr (sketchBlob, canvasBlob) ->
  store (commit w)
  = Store.setLastSketch (Some (PendingGeneration.sketchDataUrl p))
      (PendingGeneration.canvasDataUrl p)
      (Store.setJobStatus queued None (store w))
  /\ calls (commit w)
     = calls w ++ [CreateJob (BaseImage.id b) (prompt (store w)) (language (env w))
                     (PendingGeneration.quality p) (PendingGeneration.seed p)
                     sketchBlob canvasBlob]
  /\ pendingGenerationRef (refs (commit w)) = None
  /\ cancellationRequestedRef (refs (commit w)) = false
  /\ env (commit w) = env w.
Proof.
  intros Hren Hlast Hnow Hjob Hbase Hp Hblobs.
  rewrite commit_stages.
  destruct (stage2_frame w) as (Hs2 & _ & Hc2 & _ & Hp2 & Hf2 & Hl2 & He2).
  pose proof (busy_status_changed _ _ Hren Hnow) as Hchanged.
  assert (H3 : stage3 w
               = (stage2 w |> onRefs (set_lastJobStatusRef (jobStatus (store w)))
                           |> onRefs (set_cancellationRequestedRef false)
                           |> onRefs (set_pendingGenerationRef None),
                  Some (b, p))).
  { unfold stage3. rewrite Hchanged. cbn [negb]. rewrite orb_true_r.
    apply replayEffect_fires; congruence. }
  assert (H5 : stage5 w = fst (stage3 w)).
  { unfold stage5, stage4. rewrite Hchanged. cbn [negb]. rewrite orb_true_r.
    rewrite (cancelEffect_idle (store w) (fst (stage3 w))).
    - rewrite pollEffect_cases. unfold pollTimerOf. rewrite Hjob. reflexivity.
    - left. rewrite H3. reflexivity. }
  rewrite H5, H3. cbn [fst snd].
  unfold executeGeneration_async. rewrite Hblobs.
  cbn -[String.eqb]. rewrite Hs2, Hc2, He2. repeat split.
Qed.

Section Terminal.

Variables (j : string) (b : BaseImage.t) (s0 : State) (en : Env).
Variable before : list RemoteCall.

(** The handler of a terminal event clears the job and leaves the pending
    generation where it is. *)
Lemma handle_terminal (p : PendingGeneration.t) (t : Event) (w : World) :
  BusyState j true b s0 en w -> CancelState j true before (Some p) w ->
  isTerminalEvent t = true ->
  let w1 := handle t w in
  activeJobId (store w1) = None
  /\ busy (jobStatus (store w1)) = false
  /\ baseImage (store w1) = Some b
  /\ prompt (store w1) = prompt (store w)
  /\ env w1 = en
  /\ pendingGenerationRef (refs w1) = Some p
  /\ calls w1 = calls w.
Proof.
  intros [Hj Hb Hbase Hsk Hcv Hcur Hen] [Hp Hf Hcan Hcre] Hterm. cbv zeta.
  destruct t; cbn [isTerminalEvent] in Hterm; try discriminate; cbn [handle].
  - destruct resp as [|status [| |em data]]; try discriminate.
    cbn [isTerminalPollResponse] in Hterm.
    apply andb_true_iff in Hterm as [Hterm Hdata].
    apply andb_true_iff in Hterm as [Hok Hid].
    unfold poll_resume, redirectIfUnauthorized.
    rewrite (ok_not_401 _ Hok), Hok, Hid. cbn [negb].
    unfold isTerminalPoll in Hdata. destruct (p_status data) as [s|]; [|discriminate].
    destruct ((s =? "done") && isSome (p_result_url data)); [repeat split; assumption|].
    destruct (s =? "error"); [repeat split; assumption|].
    destruct (s =? "cancelled"); [repeat split; assumption|].
    discriminate.
  - destruct m; try discriminate; cbn [onmessage]; repeat split; assumption.
Qed.

End Terminal.

(** C2 as stated fails, in four ways.

    In the first run the cancel call for ["job-1"] fails with status 500:
    the handler sets the status to [error] and discards the pending
    generation, so when the job's [cancelled] event arrives no create-job
    call is dispatched.

    In the second run the submission is repeated before the create-job call
    has been answered: no job id is known, no cancel call is issued, the
    failure of the first call ends the busy period and the pending
    generation is dispatched.

    In the third run the canvas calls the [submitGeneration] of the render
    that preceded the acceptance of the job: that callback knows no job id,
    so it stores the payload and sends no cancel call, and no effect runs
    again; the job finishes without any cancel call.  From a render that
    preceded the submission itself the callback sees the status [idle] and
    sends a second create-job call while the first job is busy.

    In the fourth run a response to an undo request arrives while
    ["job-1"] is running with a generation pending: the handler sets the
    status to [done], the replay effect takes this for the end of the busy
    period and dispatches the pending generation although ["job-1"] has not
    reported a terminal outcome; when it does, no create-job call follows. *)
Lemma busy_period_counterexample :
  let w0 := run [BaseImageSelected base0; Submit sketch1 None normal None;
                 accepted "job-1"; WsReceived (WsStatus "running")]
              (initialWorld env0) in
  let w1 := run [Submit sketch2 None normal None;
                 CancelResponse (Response 500 JsonNull)] w0 in
  let w2 := step w1 (WsReceived WsCancelled) in
  let v1 := run [BaseImageSelected base0; Submit sketch1 None normal None;
                 Submit sketch2 None normal None] (initialWorld env0) in
  let v2 := step v1 (GenerateResponse (Response 500 JsonNull)) in
  let s0 := step (initialWorld env0) (BaseImageSelected base0) in
  let s1 := step s0 (Submit sketch1 None normal None) in
  let s2 := step s1 (accepted "job-1") in
  let s3 := step s2 (SubmitFrom (store s1) sketch2 None normal None) in
  let s4 := step s3 (resultOf "job-1" None) in
  let s3' := step s2 (SubmitFrom (store s0) sketch2 None normal None) in
  let u1 := step w0 (Submit sketch2 None normal None) in
  let u2 := step u1 (UndoResponse (Response 200 (Parsed None (mkUndoData None)))) in
  let u3 := step u2 (WsReceived WsCancelled) in
  (busy (jobStatus (store w0)) = true
   /\ filter isCancel (calls w1) = [CancelJob "job-1"]
   /\ jobStatus (store w2) = cancelled
   /\ filter isCreate (calls w2) = filter isCreate (calls w0))
  /\ (busy (jobStatus (store v1)) = true
      /\ pendingGenerationRef (refs v1)
         = Some (PendingGeneration.mk sketch2 None normal None)
      /\ jobStatus (store (handle (GenerateResponse (Response 500 JsonNull)) v1))
         = error
      /\ filter isCancel (calls v2) = []
      /\ length (filter isCreate (calls v2)) = 2)
  /\ (activeJobId (store s2) = Some "job-1"
      /\ busy (jobStatus (store s2)) = true
      /\ pendingGenerationRef (refs s3)
         = Some (PendingGeneration.mk sketch2 None normal None)
      /\ filter isCancel (calls s3) = []
      /\ jobStatus (store (handle (resultOf "job-1" None) s3)) = done
      /\ filter isCancel (calls s4) = []
      /\ length (filter isCreate (calls s4)) = 2
      /\ busy (jobStatus (store s3')) = true
      /\ activeJobId (store s3') = Some "job-1"
      /\ filter isCancel (calls s3') = []
      /\ length (filter isCreate (calls s3')) = 2
      /\ pendingGenerationRef (refs s3') = None)
  /\ (filter isCancel (calls u1) = [CancelJob "job-1"]
      /\ activeJobId (store u2) = Some "job-1"
      /\ length (filter isCreate (calls u1)) = 1
      /\ length (filter isCreate (calls u2)) = 2
      /\ jobStatus (store u3) = cancelled
      /\ length (filter isCreate (calls u3)) = 2).
Proof. vm_compute. repeat split. Qed.

(** C2, amended.  Take a busy period of job [j] that starts with nothing
    pending and no cancellation requested, the job id known already
    ([known]) or the create-job call not answered yet.  During the period
    the status stays busy: [submitGeneration] is called from the last
    render, directly or through [regenerate] and [improve], any number of
    times; the prompt is edited; progress is reported on either path; the
    polling interval ticks; the cancel call is acknowledged; undo or apply
    requests are started; the socket opens or closes; the session id
    changes; and, if the job id was not known, the create-job call is
    accepted with id [j].  If [p] is the payload of the last call that got
    past the guards, then at the end of the period exactly one cancel call,
    for [j], has been issued, no create-job call, and [p] is the pending
    generation.  When a terminal event then arrives on either path, exactly
    one create-job call is dispatched, carrying the payload [p] (its images
    decode to [sketchBlob] and [canvasBlob]) and the prompt as it is then;
    no further cancel call is issued, the pending slot is empty again and
    the status is [queued]. *)
Theorem busy_period_cancel_and_replay (j : string) (known : bool)
    (b : BaseImage.t) (w : World) (es : list Event) (t : Event)
    (p : PendingGeneration.t) (sketchBlob : Blob) (canvasBlob : option Blob) :
  settled w ->
  busy (jobStatus (store w)) = true ->
  activeJobId (store w) = (if known then Some j else None) ->
  j <> "" ->
  baseImage (store w) = Some b ->
  pendingGenerationRef (refs w) = None ->
  cancellationRequestedRef (refs w) = false ->
  busyPeriod j known es = Some true ->
  lastSubmitted (store w) es = Some p ->
  blobsOf p = inr (sketchBlob, canvasBlob) ->
  isTerminalEvent t = true ->
  let w1 := run es w in
  let w2 := step w1 t in
  (activeJobId (store w1) = Some j
   /\ busy (jobStatus (store w1)) = true
   /\ filter isCancel (calls w1) = filter isCancel (calls w) ++ [CancelJob j]
   /\ filter isCreate (calls w1) = filter isCreate (calls w)
   /\ pendingGenerationRef (refs w1) = Some p)
  /\ (filter isCancel (calls w2) = filter isCancel (calls w1)
      /\ filter isCreate (calls w2)
         = filter isCreate (calls w)
           ++ [CreateJob (BaseImage.id b) (prompt (store w1)) (language (env w))
                 (PendingGeneration.quality p) (PendingGeneration.seed p)
                 sketchBlob canvasBlob]
      /\ pendingGenerationRef (refs w2) = None
      /\ cancellationRequestedRef (refs w2) = false
      /\ jobStatus (store w2) = queued
      /\ activeJobId (store w2) = None).
Proof.
  intros Hs Hb Hj Hne Hbase Hp Hf Hes Hlast Hblobs Hterm. cbv zeta.
  apply truthy_string_true in Hne.
  assert (HB : BusyState j known b (store w) (env w) w)
    by (constructor; auto).
  assert (HC : CancelState j known (calls w) None w)
    by (constructor; cbn [isSome andb]; rewrite ?app_nil_r; auto).
  destruct (run_busy j b _ _ _ Hne es known true None w Hs HB HC Hes)
    as (Hs1 & HB1 & HC1).
  unfold lastSubmitted in Hlast. rewrite Hlast in HC1.
  set (w1 := run es w) in *.
  destruct HC1 as [Hp1 Hf1 Hcan1 Hcre1]. cbn [isSome andb] in Hcan1.
  split.
  { destruct HB1. repeat split; assumption. }
  destruct (handle_terminal j b _ _ (calls w) p t w1 HB1
              (mkCancelState j true (calls w) (Some p) w1 Hp1 Hf1 Hcan1 Hcre1) Hterm)
    as (Hj2 & Hb2 & Hbase2 & Hpr2 & Hen2 & Hp2 & Hc2).
  destruct (handle_frame t w1) as (Hr2 & _ & Hl2).
  destruct Hs1 as [Hr1 _ Hl1]. destruct HB1 as [_ Hb1 _ _ _ _ _].
  set (h := handle t w1) in *.
  destruct (commit_replay b p sketchBlob canvasBlob h) as (Hst & Hcalls & Hp3 & Hf3 & He3);
    try assumption.
  { rewrite Hr2, Hr1. exact Hb1. }
  { rewrite Hl2, Hl1, Hr1. exact Hb1. }
  destruct (commit_busy_store (commit h)) as (Hst4 & Hp4 & Hf4 & He4 & Hc4).
  { rewrite Hst. reflexivity. }
  { left. exact Hp3. }
  unfold step, settle. fold h.
  rewrite (filter_without_queries isCancel _ _ isCancel_not_query Hc4).
  rewrite (filter_without_queries isCreate _ _ isCreate_not_query Hc4).
  rewrite Hst4, Hp4, Hf4, Hst, Hcalls, Hc2, !filter_app, Hcre1, Hpr2, Hen2.
  cbn [filter isCancel isCreate]. rewrite app_nil_r.
  repeat split; assumption.
Qed.

Lemma busy_period_cancel_and_replay_witness :
  let w := awaitingAcceptance in
  let w1 := run busyPeriod_events w in
  let w2 := step w1 (WsReceived WsCancelled) in
  filter isCancel (calls w1) = filter isCancel (calls w) ++ [CancelJob "job-1"]
  /\ filter isCreate (calls w2)
     = filter isCreate (calls w)
       ++ [CreateJob "img-1" "a cat" (language (env w)) normal None
             (mkBlob "data:image/png;base64" "CCCC") None]
  /\ jobStatus (store w2) = queued.
Proof.
  cbv zeta.
  assert (Hpr : prompt (store (run busyPeriod_events awaitingAcceptance)) = "a cat")
    by (vm_compute; reflexivity).
  assert (Hs : settled awaitingAcceptance) by (constructor; vm_compute; reflexivity).
  assert (Hb : busy (jobStatus (store awaitingAcceptance)) = true)
    by (vm_compute; reflexivity).
  assert (Hj : activeJobId (store awaitingAcceptance)
               = (if false then Some "job-1" else None))
    by (vm_compute; reflexivity).
  assert (Hbase : baseImage (store awaitingAcceptance) = Some base0)
    by (vm_compute; reflexivity).
  assert (Hp : pendingGenerationRef (refs awaitingAcceptance) = None)
    by (vm_compute; reflexivity).
  assert (Hf : cancellationRequestedRef (refs awaitingAcceptance) = false)
    by (vm_compute; reflexivity).
  assert (Hes : busyPeriod "job-1" false busyPeriod_events = Some true)
    by (vm_compute; reflexivity).
  assert (Hlast : lastSubmitted (store awaitingAcceptance) busyPeriod_events
                  = Some (PendingGeneration.mk sketch3 None normal None))
    by (vm_compute; reflexivity).
  assert (Hblobs : blobsOf (PendingGeneration.mk sketch3 None normal None)
                   = inr (mkBlob "data:image/png;base64" "CCCC", None))
    by (vm_compute; reflexivity).
  assert (Hne : "job-1" <> "") by discriminate.
  destruct (busy_period_cancel_and_replay "job-1" false base0 awaitingAcceptance
              busyPeriod_events (WsReceived WsCancelled)
              (PendingGeneration.mk sketch3 None normal None)
              (mkBlob "data:image/png;base64" "CCCC") None
              Hs Hb Hj Hne Hbase Hp Hf Hes Hlast Hblobs eq_refl)
    as [(_ & _ & Hcan & _) (_ & Hcre & _ & _ & Hq & _)].
  rewrite Hpr in Hcre.
  split; [exact Hcan|]. split; [exact Hcre|exact Hq].
Defined.

(** ** The empty sketch payload *)

(** C9. A call of [submitGeneration] with the empty sketch payload returns
    the world it was given: store, refs, request log and redirect count are
    all unchanged, whatever the render it closes over (in particular with no
    base image, where no error status is raised) and whatever the other
    arguments.  In every world reached from the mounted hook the whole event,
    handler and effects, changes nothing. *)
Theorem submitGeneration_empty_sketch (canvasDataUrl : option string)
    (quality : Quality) (seed : option Z) :
  (forall r w, submitGeneration r "" canvasDataUrl quality seed w = w)
  /\ (forall w, baseImage (rendered w) = None ->
      jobStatus (store (handle (Submit "" canvasDataUrl quality seed) w))
      = jobStatus (store w))
  /\ (forall e es,
      step (run es (initialWorld e)) (Submit "" canvasDataUrl quality seed)
      = run es (initialWorld e)).
Proof.
  split; [|split].
  - intros r w. unfold submitGeneration.
    replace (truthy_string "") with false by reflexivity. reflexivity.
  - intros w _. reflexivity.
  - intros e es. unfold step. cbn [handle].
    apply settle_current.
    apply (settled_rendered _ (run_settled es _ (initialWorld_settled e))).
Qed.

(** * Further properties of the code *)

(** ** The result history across handlers *)

Section HistoryLists.

Local Open Scope nat_scope.

Lemma without_id_absent (i : string) (l : list ResultItem.t) :
  ~ In i (map ResultItem.id (Store.without_id i l)).
Proof.
  unfold Store.without_id. induction l as [|x tl IH]; cbn [filter map]; [tauto|].
  destruct (String.eqb_spec (ResultItem.id x) i) as [He|Hne]; cbn [negb map].
  - exact IH.
  - intros [H|H]; [contradiction|]. exact (IH H).
Qed.

Lemma without_id_In (i : string) (l : list ResultItem.t) (j : string) :
  In j (map ResultItem.id (Store.without_id i l)) -> In j (map ResultItem.id l).
Proof.
  unfold Store.without_id. rewrite !in_map_iff.
  intros [x [Hx Hin]]. apply filter_In in Hin as [Hin _]. exists x. tauto.
Qed.

Lemma without_id_NoDup (i : string) (l : list ResultItem.t) :
  NoDup (map ResultItem.id l) -> NoDup (map ResultItem.id (Store.without_id i l)).
Proof.
  induction l as [|x tl IH]; intro H; [constructor|].
  cbn [map] in H. inversion H as [|? ? Hnotin Hnd]; subst.
  unfold Store.without_id in *. cbn [filter].
  destruct (negb (ResultItem.id x =? i)%string); [|exact (IH Hnd)].
  cbn [map]. constructor; [|exact (IH Hnd)].
  intro Hin. apply Hnotin. exact (without_id_In i tl _ Hin).
Qed.

Lemma without_id_same (i : string) (l : list ResultItem.t) :
  ~ In i (map ResultItem.id l) -> Store.without_id i l = l.
Proof.
  unfold Store.without_id. induction l as [|x tl IH]; intro H; [reflexivity|].
  cbn [map In] in H. cbn [filter].
  destruct (String.eqb_spec (ResultItem.id x) i) as [He|Hne]; [tauto|].
  cbn [negb]. f_equal. apply IH. tauto.
Qed.

Lemma NoDup_map_skipn {A B} (f : A -> B) (n : nat) (l : list A) :
  NoDup (map f l) -> NoDup (map f (skipn n l)).
Proof.
  intro H. rewrite <- (firstn_skipn n l), map_app in H.
  exact (NoDup_app_remove_l _ _ H).
Qed.

Lemma NoDup_map_removelast {A B} (f : A -> B) (l : list A) :
  NoDup (map f l) -> NoDup (map f (removelast l)).
Proof.
  intro H. destruct l as [|x tl] using rev_ind; [exact H|].
  rewrite removelast_last. rewrite map_app in H.
  exact (NoDup_app_remove_r _ _ H).
Qed.

Lemma In_skipn_In {A} (n : nat) (l : list A) (x : A) : In x (skipn n l) -> In x l.
Proof.
  intro H. rewrite <- (firstn_skipn n l). apply in_or_app. right. exact H.
Qed.

Lemma skipn_snoc {A} (n : nat) (l : list A) (x : A) :
  n <= length l -> skipn n (l ++ [x]) = skipn n l ++ [x].
Proof.
  intro H. rewrite skipn_app.
  replace (n - length l) with 0 by lia. reflexivity.
Qed.

Lemma slice_last_snoc (l : list ResultItem.t) (x : ResultItem.t) :
  Store.slice_last 5 (l ++ [x]) = Store.slice_last 4 l ++ [x].
Proof.
  unfold Store.slice_last. rewrite length_app. cbn [length].
  rewrite skipn_snoc by lia. f_equal. f_equal. lia.
Qed.

Lemma lastItem_In (l : list ResultItem.t) (c : ResultItem.t) :
  Store.lastItem l = Some c -> In c l.
Proof. unfold Store.lastItem. apply nth_error_In. Qed.

Lemma lastItem_snoc (l : list ResultItem.t) (x : ResultItem.t) :
  Store.lastItem (l ++ [x]) = Some x.
Proof.
  unfold Store.lastItem. rewrite length_app. cbn [length].
  replace (length l + 1 - 1) with (length l) by lia.
  rewrite nth_error_app2 by lia. rewrite Nat.sub_diag. reflexivity.
Qed.

Lemma undoNext_In (l : list ResultItem.t) (i : option string) (c : ResultItem.t) :
  undoNext l i = Some c -> In c l.
Proof.
  unfold undoNext. destruct i as [i|].
  - destruct (find _ l) as [x|] eqn:Hf.
    + intro H. injection H as <-. apply find_some in Hf. tauto.
    + apply lastItem_In.
  - apply lastItem_In.
Qed.

End HistoryLists.

Lemma pushResult_history (item : ResultItem.t) (s : State) :
  NoDup (map ResultItem.id (results s)) ->
  historyOk (Store.pushResult item s).
Proof.
  intro Hnd. unfold historyOk. rewrite pushResult_results, slice_last_snoc.
  cbn [currentResult Store.pushResult Store.setResults].
  repeat apply conj.
  - rewrite length_app. unfold Store.slice_last. rewrite length_skipn.
    cbn [length]. lia.
  - rewrite map_app. cbn [map].
    assert (Hf : NoDup (map ResultItem.id
                          (Store.slice_last 4 (Store.without_id (ResultItem.id item) (results s))))).
    { apply NoDup_map_skipn, without_id_NoDup, Hnd. }
    apply NoDup_app; [exact Hf|repeat constructor; cbn; tauto|].
    intros j Hin [<-|[]].
    unfold Store.slice_last in Hin. rewrite in_map_iff in Hin.
    destruct Hin as [x [Hx Hin]]. apply In_skipn_In in Hin.
    apply (without_id_absent (ResultItem.id item) (results s)).
    rewrite in_map_iff. exists x. tauto.
  - apply in_or_app. right. left. reflexivity.
Qed.

Lemma historyStep_ok (s s' : State) :
  historyOk s -> historyStep s s' -> historyOk s'.
Proof.
  intros (Hlen & Hnd & Hcur) [[Hr Hc]|[[item [Hr Hc]]|[[Hr Hc]|[[Hr Hc]|[Hr Hc]]]]];
    unfold historyOk; rewrite Hr.
  - rewrite Hc. repeat split; assumption.
  - destruct (pushResult_history item s Hnd) as (Hl & Hn & Hi).
    rewrite Hc. repeat split; assumption.
  - rewrite Hr in Hc. repeat split.
    + pose proof (removelast_firstn_len (results s)) as E. rewrite E, length_firstn. lia.
    + apply NoDup_map_removelast, Hnd.
    + exact Hc.
  - rewrite Hc. repeat split; [cbn; lia|constructor].
  - repeat split; assumption.
Qed.

Ltac history_cases :=
  repeat (cbn -[String.eqb Store.pushResult Store.removeLatestResult
                Store.resetHistory undoNext];
          break_inner);
  cbn -[String.eqb Store.pushResult Store.removeLatestResult
        Store.resetHistory undoNext].

Lemma removeLatestResult_cases (s : State) :
  Store.removeLatestResult s = s
  \/ (results (Store.removeLatestResult s) = removelast (results s)
      /\ currentResult (Store.removeLatestResult s)
         = Store.lastItem (removelast (results s))).
Proof.
  unfold Store.removeLatestResult. destruct (results s) as [|x tl] eqn:E.
  - left. reflexivity.
  - right. cbn [results currentResult Store.setResults].
    rewrite slice_init_removelast. split; reflexivity.
Qed.

Ltac history_projections :=
  cbn [results currentResult Store.setJobStatus Store.setCurrentResult
       Store.setResults Store.setActiveJobId Store.setBaseImage
       Store.resetHistory].

Lemma handle_historyStep (e : Event) (w : World) :
  historyStep (store w) (store (handle e w)).
Proof.
  destruct e; unfold_handlers; unfold setJobStatus, setActiveJobId, pushResult,
    setCurrentResult, removeLatestResult, setLastSketch, setBaseImage,
    requestClearSketch, setPrompt, resetHistory, setSessionId;
    history_cases; unfold historyStep;
    try (left; split; reflexivity);
    try (right; left; eexists; split; reflexivity);
    try (right; right; right; left; history_projections; split; reflexivity).
  - (* undo, body null, nothing left *)
    right; right; left. history_projections.
    rewrite removeLatestResult_results. split; [reflexivity|exact I].
  - (* undo, body null, entries left *)
    destruct (removeLatestResult_cases (store w)) as [E|[Er Ec]].
    + left. rewrite E. split; reflexivity.
    + right; right; left. history_projections. rewrite Er, Ec.
      split; [reflexivity|].
      destruct (Store.lastItem _) eqn:H; [exact (lastItem_In _ _ H)|exact I].
  - (* undo, object body *)
    right; right; left. history_projections.
    rewrite removeLatestResult_results. split; [reflexivity|].
    destruct (undoNext _ _) eqn:H; [exact (undoNext_In _ _ _ H)|exact I].
  - (* the session id *)
    left. unfold Store.setSessionId.
    destruct (ostring_eqb _ _); split; reflexivity.
Qed.

Lemma replayEffect_history (r : State) (w : World) :
  results (store (fst (replayEffect r w))) = results (store w)
  /\ currentResult (store (fst (replayEffect r w))) = currentResult (store w).
Proof.
  unfold replayEffect, executeGeneration_sync. frame_cases; split; reflexivity.
Qed.

Lemma executeGeneration_async_history (r : State) (b : BaseImage.t)
    (p : PendingGeneration.t) (w : World) :
  results (store (executeGeneration_async r b p w)) = results (store w)
  /\ currentResult (store (executeGeneration_async r b p w)) = currentResult (store w).
Proof.
  unfold executeGeneration_async. frame_cases; split; reflexivity.
Qed.

(** The effects never touch the history. *)
Lemma commit_history (w : World) :
  results (store (commit w)) = results (store w)
  /\ currentResult (store (commit w)) = currentResult (store w).
Proof.
  rewrite commit_stages.
  destruct (stage5_frame w) as (Hs5 & _).
  destruct (stage2_frame w) as (Hs2 & _).
  assert (H3 : results (store (fst (stage3 w))) = results (store w)
               /\ currentResult (store (fst (stage3 w))) = currentResult (store w)).
  { unfold stage3. destruct (_ || negb (JobStatus_eqb _ _)); cbn [fst].
    - destruct (replayEffect_history (store w) (stage2 w)) as [-> ->].
      rewrite Hs2. split; reflexivity.
    - rewrite Hs2. split; reflexivity. }
  destruct (snd (stage3 w)) as [[b p]|].
  - destruct (executeGeneration_async_history (store w) b p (stage5 w)) as [-> ->].
    rewrite Hs5. exact H3.
  - rewrite Hs5. exact H3.
Qed.

Lemma settle_history (w : World) :
  historyOk (store w) -> historyOk (store (settle w)).
Proof.
  unfold settle, historyOk.
  destruct (commit_history (commit w)) as [-> ->].
  destruct (commit_history w) as [-> ->]. tauto.
Qed.

Lemma selectHistoryItem_historyStep (resultId : string) (w : World) :
  historyStep (store w) (store (selectHistoryItem (store w) resultId w)).
Proof.
  unfold selectHistoryItem.
  destruct (find _ (results (store w))) as [next|] eqn:Hf.
  - right; right; right; right. cbn. split; [reflexivity|].
    apply find_some in Hf. tauto.
  - left. split; reflexivity.
Qed.

Lemma handleUi_frame (u : UiEvent) (w : World) :
  rendered (handleUi u w) = rendered w
  /\ pollTimer (handleUi u w) = pollTimer w
  /\ lastJobStatusRef (refs (handleUi u w)) = lastJobStatusRef (refs w).
Proof.
  destruct u as [e|resultId]; [apply handle_frame|].
  cbn [handleUi]. unfold selectHistoryItem.
  destruct (find _ _); repeat split.
Qed.

Lemma stepUi_invariant (w : World) (u : UiEvent) :
  settled w -> historyOk (store w) ->
  settled (stepUi w u) /\ historyOk (store (stepUi w u)).
Proof.
  intros Hs Hh. destruct (handleUi_frame u w) as (Hr & Ht & Hl).
  pose proof Hs as [Hr0 Ht0 Hl0].
  split.
  - unfold stepUi. apply settle_settled; congruence.
  - unfold stepUi. apply settle_history.
    apply (historyStep_ok (store w)); [exact Hh|].
    destruct u as [e|resultId]; cbn [handleUi].
    + apply handle_historyStep.
    + rewrite Hr0. apply selectHistoryItem_historyStep.
Qed.

Lemma runUi_invariant (us : list UiEvent) :
  forall w, settled w -> historyOk (store w) ->
    settled (runUi us w) /\ historyOk (store (runUi us w)).
Proof.
  induction us as [|u us IH]; intros w Hs Hh; [split; assumption|].
  cbn [runUi fold_left].
  destruct (stepUi_invariant w u Hs Hh) as [Hs1 Hh1].
  apply IH; assumption.
Qed.

(** X1. In every world reached from the mounted hook, by the controller's
    events and by selections of history entries in any order, the history
    has at most five entries, no two entries have the same id, and the
    current result, when there is one, is an entry of the history. *)
Theorem history_invariant (e : Env) (us : list UiEvent) :
  let s := store (runUi us (initialWorld e)) in
  (length (results s) <= 5)%nat
  /\ NoDup (map ResultItem.id (results s))
  /\ (forall c, currentResult s = Some c -> In c (results s)).
Proof.
  cbv zeta.
  destruct (runUi_invariant us (initialWorld e) (initialWorld_settled e))
    as [_ (Hlen & Hnd & Hcur)].
  { repeat split; [cbn; lia|constructor]. }
  repeat split; try assumption.
  intros c Hc. rewrite Hc in Hcur. exact Hcur.
Qed.

(** X2. Dropping the newest entry right after a push leaves the last four
    entries of the history without the pushed id; so when the history had at
    most four entries, none with the pushed id, [removeLatestResult] undoes
    [pushResult] on the history, and the current result becomes its last
    entry. *)
Theorem removeLatest_after_push (item : ResultItem.t) (s : State) :
  let s' := Store.removeLatestResult (Store.pushResult item s) in
  results s' = Store.slice_last 4 (Store.without_id (ResultItem.id item) (results s))
  /\ currentResult s' = Store.lastItem (results s')
  /\ (~ In (ResultItem.id item) (map ResultItem.id (results s)) ->
      (length (results s) <= 4)%nat ->
      results s' = results s).
Proof.
  cbv zeta.
  destruct (removeLatestResult_cases (Store.pushResult item s)) as [E|[Er Ec]].
  - exfalso. apply (f_equal results) in E.
    unfold Store.removeLatestResult in E.
    rewrite pushResult_results, slice_last_snoc in E.
    destruct (Store.slice_last 4 _ ++ [item]) as [|x tl] eqn:Happ.
    + destruct (Store.slice_last 4 _); discriminate.
    + cbn [results Store.setResults] in E. rewrite slice_init_removelast in E.
      rewrite <- Happ in E. rewrite removelast_last in E.
      apply (f_equal (@length _)) in E. rewrite length_app in E. cbn in E. lia.
  - assert (Hres : results (Store.removeLatestResult (Store.pushResult item s))
                   = Store.slice_last 4 (Store.without_id (ResultItem.id item) (results s))).
    { rewrite Er, pushResult_results, slice_last_snoc. apply removelast_last. }
    split; [exact Hres|]. split.
    + rewrite Ec, <- Er. reflexivity.
    + intros Hnew Hlen. rewrite Hres, (without_id_same _ _ Hnew).
      unfold Store.slice_last.
      replace (length (results s) - 4)%nat with 0%nat by lia. reflexivity.
Qed.

Lemma removeLatest_after_push_witness :
  let s := withResults (map item_of ["r1"; "r2"]) in
  results (Store.removeLatestResult (Store.pushResult (item_of "r3") s)) = results s.
Proof.
  cbv zeta.
  destruct (removeLatest_after_push (item_of "r3") (withResults (map item_of ["r1"; "r2"])))
    as (_ & _ & Hsame).
  apply Hsame.
  - cbn. intros [H|[H|[]]]; discriminate.
  - cbn. lia.
Defined.

(** ** Submitting while idle, and selecting a base image *)

(** A round of effects with nothing pending replays nothing and requests no
    cancellation. *)
Lemma commit_nothing_pending (w : World) :
  pendingGenerationRef (refs w) = None ->
  store (commit w) = store w
  /\ pendingGenerationRef (refs (commit w)) = None
  /\ env (commit w) = env w
  /\ filter (fun c => negb (isStatusQuery c)) (calls (commit w))
     = filter (fun c => negb (isStatusQuery c)) (calls w)
  /\ (activeJobId (store w) = None -> calls (commit w) = calls w).
Proof.
  intro Hp. rewrite commit_stages.
  destruct (stage2_frame w) as (Hs2 & _ & Hc2 & _ & Hp2 & _ & _ & He2).
  assert (H3 : snd (stage3 w) = None
               /\ store (fst (stage3 w)) = store w
               /\ pendingGenerationRef (refs (fst (stage3 w))) = None
               /\ calls (fst (stage3 w)) = calls w
               /\ env (fst (stage3 w)) = env w).
  { unfold stage3. destruct (_ || negb (JobStatus_eqb _ _)); cbn [fst snd].
    - destruct (replayEffect_idle (store w) (stage2 w)) as (-> & -> & -> & _).
      + unfold replayFires. rewrite Hp2, Hp. cbn [isSome]. apply andb_false_r.
      + destruct (replayEffect_frame (store w) (stage2 w))
          as (_ & _ & -> & _ & _ & _ & ->).
        repeat split; congruence.
    - repeat split; congruence. }
  destruct H3 as (-> & Hs3 & Hp3 & Hc3 & He3).
  assert (H4 : stage4 w = fst (stage3 w)).
  { unfold stage4. destruct (_ || _); [|reflexivity].
    apply cancelEffect_idle. left. exact Hp3. }
  unfold stage5. rewrite H4. destruct (_ || _).
  - destruct (pollEffect_frame (store w) (fst (stage3 w))) as (-> & _ & -> & -> & ->).
    repeat split; try congruence.
    intro Hj. rewrite pollEffect_cases. unfold pollTimerOf. rewrite Hj. exact Hc3.
  - repeat split; congruence.
Qed.

Lemma settle_nothing_pending (w : World) :
  pendingGenerationRef (refs w) = None ->
  store (settle w) = store w
  /\ pendingGenerationRef (refs (settle w)) = None
  /\ env (settle w) = env w
  /\ filter (fun c => negb (isStatusQuery c)) (calls (settle w))
     = filter (fun c => negb (isStatusQuery c)) (calls w)
  /\ (activeJobId (store w) = None -> calls (settle w) = calls w).
Proof.
  intro Hp. unfold settle.
  destruct (commit_nothing_pending w Hp) as (Hs & Hp1 & He & Hc & Hq).
  destruct (commit_nothing_pending (commit w) Hp1) as (Hs' & Hp2 & He' & Hc' & Hq').
  repeat split; try congruence.
  intro Hj. rewrite Hq' by congruence. apply Hq, Hj.
Qed.

(** X3. What a call of [submitGeneration] does is decided by the render
    that created the callback, which for the canvas is the render of 120 ms
    earlier, and not by the store.  Take a call with a non-empty sketch from
    a render [r] that has a base image.

    If [r] is not busy and the images decode, exactly one create-job call
    is issued, built from the base image and the prompt of [r], and no
    cancel call, whatever the status of the store by then; the status
    becomes [queued], nothing is pending, and the payload is recorded as the
    last sketch.

    If [r] is busy, no create-job call is issued, whatever the status of
    the store by then: the payload becomes the pending generation, the store
    is left as it is, and a cancel call is sent for the job id of [r],
    unless [r] has none or a cancellation has been requested already.

    [Submit] is the call from the last render. *)
Theorem submit_decided_by_render (w : World) (r : State) (b : BaseImage.t)
    (sketch : string) (canvas : option string) (quality : Quality)
    (seed : option Z) :
  baseImage r = Some b ->
  sketch <> "" ->
  let w' := step w (SubmitFrom r sketch canvas quality seed) in
  (forall sketchBlob canvasBlob,
      busy (jobStatus r) = false ->
      blobsOf (PendingGeneration.mk sketch canvas quality seed)
      = inr (sketchBlob, canvasBlob) ->
      filter isCreate (calls w')
      = filter isCreate (calls w)
        ++ [CreateJob (BaseImage.id b) (prompt r) (language (env w))
              quality seed sketchBlob canvasBlob]
      /\ filter isCancel (calls w') = filter isCancel (calls w)
      /\ jobStatus (store w') = queued
      /\ activeJobId (store w') = activeJobId (store w)
      /\ pendingGenerationRef (refs w') = None
      /\ lastSketchDataUrl (store w') = Some sketch
      /\ lastCanvasDataUrl (store w') = canvas)
  /\ (busy (jobStatus r) = true ->
      settled w ->
      store w' = store w
      /\ pendingGenerationRef (refs w')
         = Some (PendingGeneration.mk sketch canvas quality seed)
      /\ calls w'
         = calls w
           ++ match activeJobId r with
              | Some jobId =>
                  if truthy_string jobId && negb (cancellationRequestedRef (refs w))
                  then [CancelJob jobId]
                  else []
              | None => []
              end)
  /\ step w (Submit sketch canvas quality seed)
     = step w (SubmitFrom (rendered w) sketch canvas quality seed).
Proof.
  intros Hbase Hne. cbv zeta. apply truthy_string_true in Hne.
  split; [|split; [|reflexivity]].
  - intros sketchBlob canvasBlob Hidle Hblobs.
    unfold step. cbn [handle]. unfold submitGeneration.
    rewrite Hne, Hbase, Hidle. cbn [negb].
    rewrite (executeGeneration_start_queued r b _ sketchBlob canvasBlob
               _ Hbase Hblobs).
    match goal with |- context [settle ?x] => set (h := x) end.
    destruct (settle_nothing_pending h eq_refl) as (Hs & Hp & He & Hc & _).
    rewrite (filter_without_queries isCancel _ _ isCancel_not_query Hc).
    rewrite (filter_without_queries isCreate _ _ isCreate_not_query Hc).
    rewrite Hs, Hp. subst h. cbn -[String.eqb filter].
    rewrite !filter_app. cbn [filter isCancel isCreate]. rewrite app_nil_r.
    repeat split.
  - intros Hbusy [Hr _ _].
    unfold step. cbn [handle]. unfold submitGeneration.
    rewrite Hne, Hbase, Hbusy. cbn [negb].
    unfold requestCancellation_start.
    destruct (activeJobId r) as [jobId|].
    + cbn -[String.eqb]. destruct (truthy_string jobId); cbn [negb orb andb].
      * destruct (cancellationRequestedRef (refs w)); cbn [negb];
          (rewrite settle_current; [|exact Hr]); cbn; rewrite ?app_nil_r;
          repeat split.
      * rewrite settle_current by exact Hr. cbn. rewrite app_nil_r. repeat split.
    + rewrite settle_current by exact Hr. cbn. rewrite app_nil_r. repeat split.
Qed.

Lemma submit_decided_by_render_witness :
  let idle := step (initialWorld env0) (BaseImageSelected base0) in
  let busyRender :=
    run [Submit sketch1 None normal None; accepted "job-1"] idle in
  let finished := step busyRender (resultOf "job-1" None) in
  let fromIdle := step busyRender (SubmitFrom (store idle) sketch2 None normal None) in
  let fromBusy := step finished (SubmitFrom (store busyRender) sketch2 None normal None) in
  (filter isCreate (calls fromIdle)
   = filter isCreate (calls busyRender)
     ++ [CreateJob (BaseImage.id base0) (prompt (store idle)) (language (env busyRender))
           normal None (mkBlob "data:image/png;base64" "BBBB") None]
   /\ filter isCancel (calls fromIdle) = filter isCancel (calls busyRender))
  /\ (store fromBusy = store finished
      /\ pendingGenerationRef (refs fromBusy)
         = Some (PendingGeneration.mk sketch2 None normal None)
      /\ calls fromBusy = calls finished ++ [CancelJob "job-1"]).
Proof.
  cbv zeta.
  assert (Hbase : baseImage (store (step (initialWorld env0) (BaseImageSelected base0)))
                  = Some base0) by (vm_compute; reflexivity).
  assert (Hne : sketch2 <> EmptyString) by discriminate.
  assert (Hidle : busy (jobStatus (store (step (initialWorld env0)
                                            (BaseImageSelected base0)))) = false)
    by (vm_compute; reflexivity).
  assert (Hblobs : blobsOf (PendingGeneration.mk sketch2 None normal None)
                   = inr (mkBlob "data:image/png;base64" "BBBB", None))
    by (vm_compute; reflexivity).
  assert (Hbase' : baseImage
                     (store (run [Submit sketch1 None normal None; accepted "job-1"]
                               (step (initialWorld env0) (BaseImageSelected base0))))
                   = Some base0) by (vm_compute; reflexivity).
  assert (Hbusy : busy (jobStatus
                          (store (run [Submit sketch1 None normal None; accepted "job-1"]
                                    (step (initialWorld env0)
                                       (BaseImageSelected base0))))) = true)
    by (vm_compute; reflexivity).
  assert (Hs : settled
                 (step (run [Submit sketch1 None normal None; accepted "job-1"]
                          (step (initialWorld env0) (BaseImageSelected base0)))
                    (resultOf "job-1" None)))
    by (constructor; vm_compute; reflexivity).
  split.
  - destruct (submit_decided_by_render
                (run [Submit sketch1 None normal None; accepted "job-1"]
                   (step (initialWorld env0) (BaseImageSelected base0)))
                (store (step (initialWorld env0) (BaseImageSelected base0)))
                base0 sketch2 None normal None Hbase Hne) as (H & _).
    destruct (H _ _ Hidle Hblobs) as (Hcre & Hcan & _).
    split; assumption.
  - destruct (submit_decided_by_render
                (step (run [Submit sketch1 None normal None; accepted "job-1"]
                         (step (initialWorld env0) (BaseImageSelected base0)))
                   (resultOf "job-1" None))
                (store (run [Submit sketch1 None normal None; accepted "job-1"]
                          (step (initialWorld env0) (BaseImageSelected base0))))
                base0 sketch2 None normal None Hbase' Hne) as (_ & H & _).
    destruct (H Hbusy Hs) as (Hst & Hp & Hc).
    split; [exact Hst|]. split; [exact Hp|].
    rewrite Hc.
    assert (E : activeJobId
                  (store (run [Submit sketch1 None normal None; accepted "job-1"]
                            (step (initialWorld env0) (BaseImageSelected base0))))
                = Some "job-1") by (vm_compute; reflexivity).
    assert (F : cancellationRequestedRef
                  (refs (step (run [Submit sketch1 None normal None; accepted "job-1"]
                                 (step (initialWorld env0) (BaseImageSelected base0)))
                           (resultOf "job-1" None))) = false)
      by (vm_compute; reflexivity).
    rewrite E, F. reflexivity.
Defined.

(** X4. Selecting a base image when nothing is pending resets the history
    and the job (status [idle], no active job id, no results, no last
    sketch) without any remote call and leaves no polling interval;
    [regenerate] and [improve] then do nothing until a new submission. *)
Theorem base_image_selected_resets (w : World) (b : BaseImage.t) :
  settled w ->
  pendingGenerationRef (refs w) = None ->
  let w' := step w (BaseImageSelected b) in
  store w' = Store.resetHistory (Store.setBaseImage (Some b) (store w))
  /\ calls w' = calls w
  /\ pollTimer w' = None
  /\ step w' Regenerate = w'
  /\ step w' Improve = w'.
Proof.
  intros Hs Hp. cbv zeta.
  pose proof (step_settled w (BaseImageSelected b) Hs) as [Hr' Ht' _].
  assert (Hstore : store (step w (BaseImageSelected b))
                   = Store.resetHistory (Store.setBaseImage (Some b) (store w))
                   /\ calls (step w (BaseImageSelected b)) = calls w).
  { unfold step. cbn [handle].
    destruct (settle_nothing_pending (w |> setBaseImage (Some b) |> resetHistory) Hp)
      as (Hst & _ & _ & _ & Hq).
    split; [exact Hst|]. apply Hq. reflexivity. }
  destruct Hstore as [Hstore Hcalls].
  repeat split; try assumption.
  - rewrite Ht', Hr', Hstore. reflexivity.
  - unfold step at 1. cbn [handle]. unfold regenerate.
    rewrite Hr', Hstore. cbn [lastSketchDataUrl Store.resetHistory].
    apply settle_current, Hr'.
  - unfold step at 1. cbn [handle]. unfold improve.
    rewrite Hr', Hstore. cbn [lastSketchDataUrl Store.resetHistory truthy_ostring negb orb].
    apply settle_current, Hr'.
Qed.

Lemma base_image_selected_resets_witness :
  let w := run (BaseImageSelected base0 :: jobCycle sketch1 "job-1" (Some 7%Z))
             (initialWorld env0) in
  let w' := step w (BaseImageSelected base0) in
  results (store w') = [] /\ calls w' = calls w /\ step w' Regenerate = w'.
Proof.
  cbv zeta.
  assert (Hs : settled (run (BaseImageSelected base0 :: jobCycle sketch1 "job-1" (Some 7%Z))
                          (initialWorld env0)))
    by (constructor; vm_compute; reflexivity).
  assert (Hp : pendingGenerationRef
                 (refs (run (BaseImageSelected base0
                               :: jobCycle sketch1 "job-1" (Some 7%Z))
                          (initialWorld env0))) = None)
    by (vm_compute; reflexivity).
  destruct (base_image_selected_resets _ base0 Hs Hp) as (Hst & Hc & _ & Hreg & _).
  rewrite Hst. split; [reflexivity|]. split; assumption.
Defined.

(** X5. Selecting a base image while a job is busy and a generation is
    pending ends the busy period (the reset sets the status to [idle]), so
    the pending generation is dispatched at once: exactly one create-job
    call goes out, for the newly selected base image and with the pending
    payload, the history is empty and the status is [queued] again. *)
Theorem base_image_selected_replays_pending (w : World) (b : BaseImage.t)
    (p : PendingGeneration.t) (sketchBlob : Blob) (canvasBlob : option Blob) :
  settled w ->
  busy (jobStatus (store w)) = true ->
  pendingGenerationRef (refs w) = Some p ->
  blobsOf p = inr (sketchBlob, canvasBlob) ->
  let w' := step w (BaseImageSelected b) in
  filter isCreate (calls w')
  = filter isCreate (calls w)
    ++ [CreateJob (BaseImage.id b) (prompt (store w)) (language (env w))
          (PendingGeneration.quality p) (PendingGeneration.seed p)
          sketchBlob canvasBlob]
  /\ filter isCancel (calls w') = filter isCancel (calls w)
  /\ jobStatus (store w') = queued
  /\ activeJobId (store w') = None
  /\ results (store w') = []
  /\ pendingGenerationRef (refs w') = None.
Proof.
  intros [Hr _ Hl] Hbusy Hp Hblobs. cbv zeta.
  unfold step. cbn [handle].
  set (h := w |> setBaseImage (Some b) |> resetHistory).
  destruct (commit_replay b p sketchBlob canvasBlob h)
    as (Hst & Hcalls & Hp3 & Hf3 & He3); try reflexivity; try assumption.
  { change (rendered h) with (rendered w). rewrite Hr. exact Hbusy. }
  { change (lastJobStatusRef (refs h)) with (lastJobStatusRef (refs w)).
    rewrite Hl, Hr. exact Hbusy. }
  destruct (commit_busy_store (commit h)) as (Hst4 & Hp4 & Hf4 & He4 & Hc4).
  { rewrite Hst. reflexivity. }
  { left. exact Hp3. }
  unfold settle.
  rewrite (filter_without_queries isCancel _ _ isCancel_not_query Hc4).
  rewrite (filter_without_queries isCreate _ _ isCreate_not_query Hc4).
  rewrite Hst4, Hp4, Hst, Hcalls, !filter_app.
  cbn [filter isCancel isCreate]. rewrite app_nil_r.
  repeat split. exact Hp3.
Qed.

Lemma base_image_selected_replays_pending_witness :
  let w := run scenarioB_events scenarioB_running in
  let other := BaseImage.mk "img-2" "/uploads/img-2.png" None in
  let w' := step w (BaseImageSelected other) in
  filter isCreate (calls w')
  = filter isCreate (calls w)
    ++ [CreateJob "img-2" (prompt (store w)) (language (env w)) normal None
          (mkBlob "data:image/png;base64" "CCCC") None]
  /\ jobStatus (store w') = queued.
Proof.
  cbv zeta.
  assert (Hs : settled (run scenarioB_events scenarioB_running))
    by (constructor; vm_compute; reflexivity).
  assert (Hb : busy (jobStatus (store (run scenarioB_events scenarioB_running))) = true)
    by (vm_compute; reflexivity).
  assert (Hp : pendingGenerationRef (refs (run scenarioB_events scenarioB_running))
               = Some (PendingGeneration.mk sketch3 None normal None))
    by (vm_compute; reflexivity).
  assert (Hblobs : blobsOf (PendingGeneration.mk sketch3 None normal None)
                   = inr (mkBlob "data:image/png;base64" "CCCC", None))
    by (vm_compute; reflexivity).
  destruct (base_image_selected_replays_pending _
              (BaseImage.mk "img-2" "/uploads/img-2.png" None)
              (PendingGeneration.mk sketch3 None normal None)
              (mkBlob "data:image/png;base64" "CCCC") None Hs Hb Hp Hblobs)
    as (Hcre & _ & Hq & _).
  split; assumption.
Defined.

(** ** The subscriptions sent on the socket *)

Section SocketFrames.

Variables (r : State) (w : World).

Lemma replayEffect_socket :
  wsSent (fst (replayEffect r w)) = wsSent w
  /\ pendingJobRef (refs (fst (replayEffect r w))) = pendingJobRef (refs w).
Proof. unfold replayEffect, executeGeneration_sync. frame_cases; repeat split. Qed.

Lemma cancelEffect_socket :
  wsSent (cancelEffect r w) = wsSent w
  /\ pendingJobRef (refs (cancelEffect r w)) = pendingJobRef (refs w).
Proof.
  unfold cancelEffect, requestCancellation_start. frame_cases; repeat split.
Qed.

Lemma pollEffect_socket : wsSent (pollEffect r w) = wsSent w.
Proof. unfold pollEffect, poll_start. frame_cases; reflexivity. Qed.

Lemma executeGeneration_async_socket (b : BaseImage.t) (p : PendingGeneration.t) :
  wsSent (executeGeneration_async r b p w) = wsSent w.
Proof. unfold executeGeneration_async. frame_cases; reflexivity. Qed.

End SocketFrames.

Lemma sidOf_ok (s : State) : sidOf s <> Some "".
Proof.
  unfold sidOf. destruct (sessionId s) as [sid|]; [|discriminate].
  destruct (truthy_string sid) eqn:H; [|discriminate].
  intro E. injection E as ->. discriminate.
Qed.

Lemma stage1_socket (w : World) :
  wsSent (stage1 w) = wsSent w
  /\ pendingJobRef (refs (stage1 w)) = pendingJobRef (refs w)
  /\ wsOpen (refs (stage1 w))
     = (if negb (ostring_eqb (sidOf (rendered w)) (sidOf (store w)))
        then false else wsOpen (refs w)).
Proof.
  unfold stage1, socketEffect. cbv zeta.
  destruct (negb (ostring_eqb (activeJobId _) _) || _),
    (negb (ostring_eqb (sidOf _) _)); repeat split.
Qed.

(** After the subscribe effect the other effects of the round leave the
    socket alone. *)
Lemma commit_wsSent (w : World) : wsSent (commit w) = wsSent (stage2 w).
Proof.
  rewrite commit_stages.
  assert (H5 : wsSent (stage5 w) = wsSent (stage2 w)).
  { unfold stage5, stage4, stage3.
    repeat match goal with
           | |- context [if ?c then _ else _] => destruct c
           end; cbn [fst];
      rewrite ?pollEffect_socket;
      rewrite ?(proj1 (cancelEffect_socket _ _));
      rewrite ?(proj1 (replayEffect_socket _ _)); reflexivity. }
  destruct (snd (stage3 w)) as [[b p]|]; [|exact H5].
  rewrite executeGeneration_async_socket. exact H5.
Qed.

Lemma commit_wsOpen (w : World) :
  wsOpen (refs (commit w)) = wsOpen (refs (stage1 w)).
Proof.
  rewrite commit_stages.
  assert (H2 : wsOpen (refs (stage2 w)) = wsOpen (refs (stage1 w))).
  { unfold stage2. destruct (negb _); [|reflexivity].
    apply (subscribeEffect_frame (store w) (stage1 w)). }
  assert (H3 : wsOpen (refs (fst (stage3 w))) = wsOpen (refs (stage1 w))).
  { unfold stage3. destruct (_ || _); cbn [fst]; [|exact H2].
    destruct (replayEffect_frame (store w) (stage2 w)) as (_ & _ & _ & -> & _).
    exact H2. }
  assert (H4 : wsOpen (refs (stage4 w)) = wsOpen (refs (stage1 w))).
  { unfold stage4. destruct (_ || _); [|exact H3].
    destruct (cancelEffect_frame (store w) (fst (stage3 w))) as (_ & _ & _ & -> & _).
    exact H3. }
  assert (H5 : wsOpen (refs (stage5 w)) = wsOpen (refs (stage1 w))).
  { unfold stage5. destruct (_ || _); [|exact H4].
    destruct (pollEffect_frame (store w) (stage4 w)) as (_ & _ & -> & _).
    exact H4. }
  destruct (snd (stage3 w)) as [[b p]|]; [|exact H5].
  destruct (executeGeneration_async_frame (store w) (stage5 w) b p)
    as (_ & _ & -> & _).
  exact H5.
Qed.

(** What a round of effects sends: nothing, or one well-formed message,
    and only on an open socket. *)
Lemma commit_sends (w : World) :
  wsSent (commit w) = wsSent w
  \/ (wsOpen (refs w) = true
      /\ exists m, subscribeOk m /\ wsSent (commit w) = wsSent w ++ [m]).
Proof.
  rewrite commit_wsSent.
  destruct (stage1_socket w) as (Hs & _ & Ho).
  unfold stage2. destruct (negb (ostring_eqb (activeJobId _) _)); [|left; exact Hs].
  unfold subscribeEffect.
  destruct (wsOpen (refs (stage1 w))) eqn:Hopen; cbn [negb]; [|left; exact Hs].
  destruct (activeJobId (store w)) as [j|]; [|left; exact Hs].
  destruct (truthy_string j) eqn:Hj; cbn [andb]; [|left; exact Hs].
  destruct (negb (ostring_eqb (pendingJobRef _) _)); [|left; exact Hs].
  right. split.
  - destruct (negb (ostring_eqb (sidOf _) _)); congruence.
  - eexists. split; [|cbn; rewrite Hs; reflexivity].
    split; cbn; [|apply sidOf_ok].
    intros ->. discriminate.
Qed.

Lemma handle_sends (e : Event) (w : World) :
  wsSent (handle e w) = wsSent w
  \/ (e = WsOpened
      /\ exists m, subscribeOk m /\ wsSent (handle e w) = wsSent w ++ [m]).
Proof.
  destruct e; try (left; unfold_handlers; frame_cases; reflexivity).
  cbn [handle]. unfold onopen. cbn -[String.eqb].
  destruct (activeJobId (store w)) as [j|]; [|left; reflexivity].
  destruct (truthy_string j) eqn:Hj; [|left; reflexivity].
  right. split; [reflexivity|]. eexists. split; [|reflexivity].
  split; cbn; [|apply sidOf_ok]. intros ->. discriminate.
Qed.

Lemma handle_stays_closed (e : Event) (w : World) :
  e <> WsOpened -> wsOpen (refs w) = false ->
  wsOpen (refs (handle e w)) = false.
Proof.
  intros Hne Hc. destruct e; try contradiction;
    unfold_handlers; frame_cases; try assumption; try reflexivity;
    discriminate.
Qed.

Lemma commit_stays_closed (w : World) :
  wsOpen (refs w) = false ->
  wsOpen (refs (commit w)) = false /\ wsSent (commit w) = wsSent w.
Proof.
  intro Hc. split.
  - rewrite commit_wsOpen. destruct (stage1_socket w) as (_ & _ & ->).
    destruct (negb _); [reflexivity|exact Hc].
  - destruct (commit_sends w) as [H|[H _]]; [exact H|congruence].
Qed.

(** X6. Nothing is sent on a socket that is not open: until [onopen]
    runs, every event, with the effects it triggers, leaves the list of
    sent messages as it was and the socket closed. *)
Theorem closed_socket_sends_nothing (w : World) (e : Event) :
  wsOpen (refs w) = false ->
  e <> WsOpened ->
  wsSent (step w e) = wsSent w /\ wsOpen (refs (step w e)) = false.
Proof.
  intros Hc Hne. unfold step, settle.
  pose proof (handle_stays_closed e w Hne Hc) as H0.
  destruct (commit_stays_closed _ H0) as [H1 S1].
  destruct (commit_stays_closed _ H1) as [H2 S2].
  split; [|exact H2].
  rewrite S2, S1.
  destruct (handle_sends e w) as [H|[H _]]; [exact H|contradiction].
Qed.

Lemma closed_socket_sends_nothing_witness :
  let w := run [BaseImageSelected base0; Submit sketch1 None normal None]
             (initialWorld env0) in
  wsSent (step w (accepted "job-1")) = wsSent w
  /\ wsOpen (refs (step w (accepted "job-1"))) = false.
Proof.
  cbv zeta.
  assert (Hc : wsOpen (refs (run [BaseImageSelected base0;
                                  Submit sketch1 None normal None]
                               (initialWorld env0))) = false)
    by (vm_compute; reflexivity).
  assert (Hne : accepted "job-1" <> WsOpened) by discriminate.
  exact (closed_socket_sends_nothing _ _ Hc Hne).
Defined.

Lemma step_sends (w : World) (e : Event) :
  Forall subscribeOk (wsSent w) -> Forall subscribeOk (wsSent (step w e)).
Proof.
  intro H. unfold step, settle.
  assert (H0 : Forall subscribeOk (wsSent (handle e w))).
  { destruct (handle_sends e w) as [->|(_ & m & Hm & ->)]; [exact H|].
    apply Forall_app. split; [exact H|]. constructor; [exact Hm|constructor]. }
  assert (Hc : forall x, Forall subscribeOk (wsSent x) ->
                         Forall subscribeOk (wsSent (commit x))).
  { intros x Hx. destruct (commit_sends x) as [->|(_ & m & Hm & ->)]; [exact Hx|].
    apply Forall_app. split; [exact Hx|]. constructor; [exact Hm|constructor]. }
  apply Hc, Hc, H0.
Qed.

(** X7. Every subscribe message the controller ever sends names a job:
    in any run from the initial world, each message has a non-empty
    [job_id], and its [sid], when present, is non-empty. *)
Theorem subscriptions_name_a_job (e : Env) (es : list Event) :
  Forall subscribeOk (wsSent (run es (initialWorld e))).
Proof.
  unfold run.
  assert (H : forall w, Forall subscribeOk (wsSent w) ->
                        Forall subscribeOk (wsSent (fold_left step es w))).
  { induction es as [|x xs IH]; intros w Hw; [exact Hw|].
    cbn [fold_left]. apply IH, step_sends, Hw. }
  apply H. constructor.
Qed.

Lemma ostring_eqb_neq (a b : option string) : a <> b -> ostring_eqb a b = false.
Proof.
  intro H. destruct (ostring_eqb a b) eqn:E; [|reflexivity].
  apply ostring_eqb_eq in E. contradiction.
Qed.

(** A round of effects on a busy store replays nothing: the store and the
    subscribed job id are the ones the subscribe effect left. *)
Lemma commit_busy_socket (w : World) :
  busy (jobStatus (store w)) = true ->
  store (commit w) = store w
  /\ pendingJobRef (refs (commit w)) = pendingJobRef (refs (stage2 w)).
Proof.
  intro Hb. rewrite commit_stages.
  destruct (stage2_frame w) as (Hs2 & _).
  assert (H3 : snd (stage3 w) = None
               /\ store (fst (stage3 w)) = store w
               /\ pendingJobRef (refs (fst (stage3 w)))
                  = pendingJobRef (refs (stage2 w))).
  { unfold stage3. destruct (_ || negb (JobStatus_eqb _ _)); cbn [fst snd].
    - destruct (replayEffect_idle (store w) (stage2 w)) as (-> & -> & _).
      + unfold replayFires. rewrite Hb. cbn [negb]. rewrite andb_false_r. reflexivity.
      + repeat split; [assumption|]. apply replayEffect_socket.
    - repeat split. assumption. }
  destruct H3 as (-> & Hs3 & Hj3).
  assert (H4 : store (stage4 w) = store w
               /\ pendingJobRef (refs (stage4 w)) = pendingJobRef (refs (stage2 w))).
  { unfold stage4. destruct (_ || _); [|split; assumption].
    destruct (cancelEffect_frame (store w) (fst (stage3 w))) as (-> & _).
    destruct (cancelEffect_socket (store w) (fst (stage3 w))) as (_ & ->).
    split; assumption. }
  destruct H4 as [Hs4 Hj4].
  unfold stage5. destruct (_ || _); [|split; assumption].
  destruct (pollEffect_frame (store w) (stage4 w)) as (-> & _ & -> & _).
  split; assumption.
Qed.

(** X8. With the socket open, the acceptance of a create-job call subscribes
    the new job exactly once: one message [{action: "subscribe", job_id,
    sid}] is sent, with the session id of the store when it is not empty,
    and the job is remembered as subscribed. *)
Theorem accepted_job_subscribed (w : World) (status : nat) (em : option string)
    (st : option string) (degraded : bool) (j : string) :
  settled w ->
  wsOpen (refs w) = true ->
  busy (jobStatus (store w)) = true ->
  ok status = true ->
  j <> "" ->
  st <> Some "skipped" ->
  activeJobId (store w) <> Some j ->
  pendingJobRef (refs w) <> Some j ->
  let w' := step w (GenerateResponse
                      (Response status
                         (Parsed em (mkGenerateData (Some j) st degraded)))) in
  wsSent w' = wsSent w ++ [mkSubscribe j (sidOf (store w))]
  /\ pendingJobRef (refs w') = Some j
  /\ activeJobId (store w') = Some j.
Proof.
  intros [Hr _ _] Hopen Hbusy Hok Hj Hst Hact Hpj. cbv zeta.
  apply truthy_string_true in Hj.
  unfold step. cbn [handle executeGeneration_resume]. unfold redirectIfUnauthorized.
  rewrite (ok_not_401 _ Hok), Hok.
  cbn [negb g_status g_job_id g_quality_degraded].
  assert (Hskip : match st with Some s => s =? "skipped" | None => false end = false).
  { destruct st as [s|]; [|reflexivity].
    destruct (String.eqb_spec s "skipped"); [congruence|reflexivity]. }
  rewrite Hskip.
  match goal with |- context [settle ?x] => set (h := x) end.
  assert (Hh : rendered h = store w /\ activeJobId (store h) = Some j
               /\ sidOf (store h) = sidOf (store w)
               /\ busy (jobStatus (store h)) = true
               /\ wsOpen (refs h) = true
               /\ pendingJobRef (refs h) = pendingJobRef (refs w)
               /\ wsSent h = wsSent w).
  { subst h. destruct degraded; cbn; repeat split; assumption. }
  destruct Hh as (Hhr & Hhj & Hhs & Hhb & Hho & Hhp & Hhw).
  destruct (stage1_socket h) as (H1s & H1p & H1o).
  destruct (stage1_frame h) as (H1st & _).
  rewrite Hhr, Hhs, ostring_eqb_refl in H1o. cbn [negb] in H1o.
  assert (H2 : stage2 h = stage1 h
                 |> wsSend (mkSubscribe j (sidOf (store w)))
                 |> onRefs (set_pendingJobRef (Some j))).
  { unfold stage2. rewrite Hhr, Hhj, (ostring_eqb_neq _ _ Hact). cbn [negb].
    unfold subscribeEffect.
    rewrite H1o, Hho, Hhj, Hj, H1p, Hhp, (ostring_eqb_neq _ _ Hpj), H1st, Hhs.
    reflexivity. }
  destruct (commit_busy_socket h Hhb) as [Hcs Hcp].
  assert (Hcur : rendered (commit h) = store (commit h))
    by (rewrite commit_rendered; symmetry; exact Hcs).
  unfold settle. rewrite (commit_current _ Hcur).
  rewrite commit_wsSent, Hcs, Hcp, H2. cbn. rewrite H1s, Hhw.
  repeat split. exact Hhj.
Qed.

Lemma accepted_job_subscribed_witness :
  let w := run [BaseImageSelected base0; WsOpened; Submit sketch1 None normal None]
             (initialWorld env0) in
  let w' := step w (GenerateResponse
                      (Response 200
                         (Parsed None (mkGenerateData (Some "job-1") None false)))) in
  wsSent w' = wsSent w ++ [mkSubscribe "job-1" (sidOf (store w))]
  /\ pendingJobRef (refs w') = Some "job-1"
  /\ activeJobId (store w') = Some "job-1".
Proof.
  cbv zeta.
  assert (Hs : settled (run [BaseImageSelected base0; WsOpened;
                             Submit sketch1 None normal None] (initialWorld env0)))
    by (constructor; vm_compute; reflexivity).
  assert (Ho : wsOpen (refs (run [BaseImageSelected base0; WsOpened;
                                  Submit sketch1 None normal None]
                               (initialWorld env0))) = true)
    by (vm_compute; reflexivity).
  assert (Hb : busy (jobStatus (store (run [BaseImageSelected base0; WsOpened;
                                            Submit sketch1 None normal None]
                                         (initialWorld env0)))) = true)
    by (vm_compute; reflexivity).
  assert (Hok : ok 200 = true) by reflexivity.
  assert (Hj : "job-1" <> EmptyString) by discriminate.
  assert (Hst : @None string <> Some "skipped") by discriminate.
  assert (Ha : activeJobId (store (run [BaseImageSelected base0; WsOpened;
                                        Submit sketch1 None normal None]
                                     (initialWorld env0))) <> Some "job-1")
    by (vm_compute; discriminate).
  assert (Hp : pendingJobRef (refs (run [BaseImageSelected base0; WsOpened;
                                         Submit sketch1 None normal None]
                                      (initialWorld env0))) <> Some "job-1")
    by (vm_compute; discriminate).
  exact (accepted_job_subscribed _ 200 None None false "job-1"
           Hs Ho Hb Hok Hj Hst Ha Hp).
Defined.

(** ** The actions of the result panel *)

Lemma settle_history_eq (w : World) :
  results (store (settle w)) = results (store w)
  /\ currentResult (store (settle w)) = currentResult (store w).
Proof.
  unfold settle.
  destruct (commit_history (commit w)) as [-> ->]. apply commit_history.
Qed.

Lemma replayEffect_image (r : State) (w : World) :
  baseImage (store (fst (replayEffect r w))) = baseImage (store w)
  /\ clearSketchVersion (store (fst (replayEffect r w))) = clearSketchVersion (store w).
Proof.
  unfold replayEffect, executeGeneration_sync. frame_cases; split; reflexivity.
Qed.

Lemma executeGeneration_async_image (r : State) (b : BaseImage.t)
    (p : PendingGeneration.t) (w : World) :
  baseImage (store (executeGeneration_async r b p w)) = baseImage (store w)
  /\ clearSketchVersion (store (executeGeneration_async r b p w))
     = clearSketchVersion (store w).
Proof.
  unfold executeGeneration_async. frame_cases; split; reflexivity.
Qed.

(** The effects never touch the base image or the request to clear the
    sketch. *)
Lemma commit_image (w : World) :
  baseImage (store (commit w)) = baseImage (store w)
  /\ clearSketchVersion (store (commit w)) = clearSketchVersion (store w).
Proof.
  rewrite commit_stages.
  destruct (stage5_frame w) as (Hs5 & _).
  destruct (stage2_frame w) as (Hs2 & _).
  assert (H3 : baseImage (store (fst (stage3 w))) = baseImage (store w)
               /\ clearSketchVersion (store (fst (stage3 w)))
                  = clearSketchVersion (store w)).
  { unfold stage3. destruct (_ || negb (JobStatus_eqb _ _)); cbn [fst].
    - destruct (replayEffect_image (store w) (stage2 w)) as [-> ->].
      rewrite Hs2. split; reflexivity.
    - rewrite Hs2. split; reflexivity. }
  destruct (snd (stage3 w)) as [[b p]|].
  - destruct (executeGeneration_async_image (store w) b p (stage5 w)) as [-> ->].
    rewrite Hs5. exact H3.
  - rewrite Hs5. exact H3.
Qed.

Lemma settle_image (w : World) :
  baseImage (store (settle w)) = baseImage (store w)
  /\ clearSketchVersion (store (settle w)) = clearSketchVersion (store w).
Proof.
  unfold settle.
  destruct (commit_image (commit w)) as [-> ->]. apply commit_image.
Qed.

(** X9. The response to [POST /canvas/apply-result] never touches the
    history or the current result.  A 2xx response with an object body
    installs the returned image as base image (without a template slot) and
    asks the canvas to clear the sketch once; every other response leaves
    base image and sketch as they are.  When no generation is pending, the
    last sketch and the active job id are left as they are too, and the
    status ends as [idle] after the 2xx response with an object body and
    after a 401, and as [error] after every other response.  (With a
    generation pending the change of status can set off its replay.) *)
Theorem apply_response_outcomes (w : World) (resp : Fetched ApplyData) :
  let s := store w in
  let s' := store (step w (ApplyResponse resp)) in
  (results s' = results s
   /\ currentResult s' = currentResult s
   /\ match resp with
      | Response status (Parsed _ data) =>
          if ok status
          then baseImage s' = Some (BaseImage.mk (a_image_id data) (a_url data) None)
               /\ clearSketchVersion s' = clearSketchVersion s + 1
          else baseImage s' = baseImage s
               /\ clearSketchVersion s' = clearSketchVersion s
      | _ =>
          baseImage s' = baseImage s
          /\ clearSketchVersion s' = clearSketchVersion s
      end)
  /\ (pendingGenerationRef (refs w) = None ->
      lastSketchDataUrl s' = lastSketchDataUrl s
      /\ activeJobId s' = activeJobId s
      /\ jobStatus s'
         = match resp with
           | Response status (Parsed _ _) =>
               if ok status || (status =? 401)%nat then idle else error
           | Response status _ => if (status =? 401)%nat then idle else error
           | Rejected _ => error
           end).
Proof.
  cbv zeta. unfold step. split.
  - destruct (settle_history_eq (handle (ApplyResponse resp) w)) as [-> ->].
    destruct (settle_image (handle (ApplyResponse resp) w)) as [-> ->].
    cbn [handle]. unfold applyResultToCanvas_resume, redirectIfUnauthorized.
    destruct resp as [message|status body]; [cbn; repeat split|].
    destruct (status =? 401)%nat eqn:E401.
    + apply Nat.eqb_eq in E401. subst status.
      destruct body; cbn; repeat split.
    + destruct (ok status) eqn:Hok; destruct body; cbn; repeat split.
  - intro Hp.
    assert (Hp' : pendingGenerationRef (refs (handle (ApplyResponse resp) w)) = None).
    { cbn [handle]. unfold applyResultToCanvas_resume, redirectIfUnauthorized.
      frame_cases; assumption. }
    destruct (settle_nothing_pending _ Hp') as (-> & _).
    cbn [handle]. unfold applyResultToCanvas_resume, redirectIfUnauthorized.
    destruct resp as [message|status body]; [cbn; repeat split|].
    destruct (status =? 401)%nat eqn:E401.
    + apply Nat.eqb_eq in E401. subst status.
      destruct body; cbn; repeat split.
    + destruct (ok status) eqn:Hok; destruct body; cbn; repeat split.
Qed.

Lemma apply_response_outcomes_witness :
  let w := run (BaseImageSelected base0 :: jobCycle sketch1 "job-1" (Some 7%Z))
             (initialWorld env0) in
  let s' := store (step w (ApplyResponse
                             (Response 200 (Parsed None (mkApplyData "img-9" "/u/9.png"))))) in
  results s' = results (store w)
  /\ baseImage s' = Some (BaseImage.mk "img-9" "/u/9.png" None)
  /\ clearSketchVersion s' = clearSketchVersion (store w) + 1
  /\ lastSketchDataUrl s' = lastSketchDataUrl (store w)
  /\ jobStatus s' = idle.
Proof.
  cbv zeta.
  assert (Hp : pendingGenerationRef
                 (refs (run (BaseImageSelected base0
                               :: jobCycle sketch1 "job-1" (Some 7%Z))
                          (initialWorld env0))) = None)
    by (vm_compute; reflexivity).
  pose proof (apply_response_outcomes
                (run (BaseImageSelected base0 :: jobCycle sketch1 "job-1" (Some 7%Z))
                   (initialWorld env0))
                (Response 200 (Parsed None (mkApplyData "img-9" "/u/9.png"))))
    as H.
  cbv zeta in H. destruct H as ((Hr & _ & H) & H').
  change (ok 200) with true in H. cbv iota in H. destruct H as (Hb & Hc).
  destruct (H' Hp) as (Hsk & _ & Hst).
  change (ok 200 || (200 =? 401)%nat) with true in Hst. cbv iota in Hst.
  split; [exact Hr|]. split; [exact Hb|]. split; [exact Hc|].
  split; [exact Hsk|exact Hst].
Defined.

(** The address [downloadCurrent] starts from is the one the panel shows. *)
Lemma absoluteUrl_origin (origin rel : string) :
  origin <> "" ->
  absoluteUrl (Some origin) rel
  = if String.prefix "http" rel then rel else String.append origin rel.
Proof.
  intro H. unfold absoluteUrl. rewrite (proj2 (truthy_string_true _) H). reflexivity.
Qed.

(** X10. After a result message that carries a download token, with a
    non-empty API origin, the download button is enabled and
    [downloadCurrent] opens the address the panel shows for the new current
    result, extended by [?t=<token>], or by [&t=<token>] when that address
    already has a query. *)
Theorem download_opens_shown_url (w : World) (job_id : string)
    (result_url : option string) (seed : option Z) (q : option Quality)
    (degraded : bool) (token origin : string) :
  apiOrigin (env w) = Some origin ->
  origin <> "" ->
  token <> "" ->
  let w' := step w (WsReceived (WsResult job_id result_url seed q degraded
                                  (Some token))) in
  exists c,
    currentResult (store w') = Some c
    /\ ResultItem.id c = job_id
    /\ downloadDisabled (store w') = false
    /\ downloadCurrent (Some origin) (store w')
       = Some (String.append (ResultItem.url c)
                 (String.append (if includes "?" (ResultItem.url c) then "&" else "?")
                    (String.append "t=" token))).
Proof.
  intros Ho Hne Ht. cbv zeta. unfold step.
  destruct (settle_history_eq
              (handle (WsReceived (WsResult job_id result_url seed q degraded
                                     (Some token))) w)) as [_ Hc].
  unfold downloadDisabled, downloadCurrent. rewrite Hc.
  cbn [handle onmessage]. rewrite Ho.
  eexists. split; [reflexivity|].
  cbn -[String.eqb absoluteUrl includes String.prefix String.append].
  rewrite (proj2 (truthy_string_true _) Hne), (proj2 (truthy_string_true _) Ht).
  cbn [negb orb]. repeat split.
  rewrite (absoluteUrl_origin origin _ Hne). reflexivity.
Qed.

Lemma download_opens_shown_url_witness :
  exists c,
    currentResult (store (step (initialWorld env0)
                           (WsReceived (WsResult "job-1" (Some "/r/1.png?v=2") None None
                                          false (Some "tok"))))) = Some c
    /\ ResultItem.id c = "job-1"
    /\ downloadDisabled (store (step (initialWorld env0)
                           (WsReceived (WsResult "job-1" (Some "/r/1.png?v=2") None None
                                          false (Some "tok"))))) = false
    /\ downloadCurrent (Some "http://localhost:8000")
         (store (step (initialWorld env0)
                   (WsReceived (WsResult "job-1" (Some "/r/1.png?v=2") None None
                                  false (Some "tok")))))
       = Some (String.append (ResultItem.url c)
                 (String.append (if includes "?" (ResultItem.url c) then "&" else "?")
                    (String.append "t=" "tok"))).
Proof.
  apply (download_opens_shown_url (initialWorld env0) "job-1" (Some "/r/1.png?v=2")
           None None false "tok" "http://localhost:8000");
    [reflexivity|discriminate|discriminate].
Defined.

(** X11. The download button and [downloadCurrent] agree when the API
    origin is not empty: the callback opens an address exactly when the
    button is enabled.  Without an origin the callback never opens
    anything, whatever the button shows. *)
Theorem download_button_agrees (r : State) (origin : string) :
  (origin <> "" ->
   (downloadCurrent (Some origin) r = None <-> downloadDisabled r = true))
  /\ downloadCurrent None r = None
  /\ downloadCurrent (Some "") r = None.
Proof.
  unfold downloadCurrent, downloadDisabled.
  split; [|split].
  - intro H. apply truthy_string_true in H.
    destruct (currentResult r) as [c|]; [|split; reflexivity].
    cbn [truthy_ostring]. rewrite H. cbn [negb]. rewrite orb_false_r.
    destruct (ResultItem.downloadToken c) as [t|]; cbn [truthy_ostring negb];
      [|split; reflexivity].
    destruct (truthy_string t); cbn [negb]; split; intro; (reflexivity || discriminate).
  - destruct (currentResult r) as [c|]; [|reflexivity].
    cbn [truthy_ostring negb]. rewrite orb_true_r. reflexivity.
  - destruct (currentResult r) as [c|]; [|reflexivity].
    cbn. rewrite orb_true_r. reflexivity.
Qed.

Lemma length_removelast_pred {A} (l : list A) :
  length (removelast l) = Nat.pred (length l).
Proof.
  rewrite removelast_firstn_len, length_firstn. lia.
Qed.

Lemma lastItem_nonempty (l : list ResultItem.t) :
  l <> [] -> exists c, Store.lastItem l = Some c.
Proof.
  intro H. destruct (Store.lastItem l) as [c|] eqn:E; [exists c; reflexivity|].
  unfold Store.lastItem in E. apply nth_error_None in E.
  destruct l; [contradiction|]. cbn [length] in E. lia.
Qed.

(** X12. The undo button is enabled only with at least two history
    entries, so an undo started from the button never empties the history:
    after the 2xx response one entry less remains and the current result
    is one of the remaining entries. *)
Theorem undo_enabled_keeps_a_result (w : World) (status : nat)
    (em : option string) (data : UndoData) :
  ResultView.undoDisabled (store w) = false ->
  ok status = true ->
  let s' := store (step w (UndoResponse (Response status (Parsed em data)))) in
  S (length (results s')) = length (results (store w))
  /\ exists c, currentResult s' = Some c /\ In c (results s').
Proof.
  intros Hen Hok. cbv zeta. unfold step.
  destruct (settle_history_eq
              (handle (UndoResponse (Response status (Parsed em data))) w))
    as [-> ->].
  cbn [handle undo_resume]. unfold redirectIfUnauthorized.
  rewrite (ok_not_401 _ Hok), Hok. cbn -[undoNext Store.removeLatestResult].
  rewrite removeLatestResult_results.
  unfold ResultView.undoDisabled in Hen.
  apply orb_false_iff in Hen as [_ Hlen]. apply Nat.leb_gt in Hlen.
  assert (Hrest : removelast (results (store w)) <> []).
  { intro E. apply (f_equal (@length _)) in E.
    rewrite length_removelast_pred in E. cbn [length] in E. lia. }
  split.
  - rewrite length_removelast_pred. lia.
  - destruct (lastItem_nonempty _ Hrest) as [c Hc].
    destruct (undoNext (removelast (results (store w))) (u_result_id data))
      as [n|] eqn:Hn.
    + exists n. split; [reflexivity|]. apply undoNext_In in Hn. exact Hn.
    + unfold undoNext in Hn.
      destruct (match u_result_id data with Some _ => _ | None => _ end);
        congruence.
Qed.

Lemma undo_enabled_keeps_a_result_witness :
  let w := worldOf (withResults [item_of "r1"; item_of "r2"]) in
  let s' := store (step w (UndoResponse
                             (Response 200 (Parsed None (mkUndoData (Some "r1")))))) in
  S (length (results s')) = length (results (store w))
  /\ exists c, currentResult s' = Some c /\ In c (results s').
Proof.
  cbv zeta.
  assert (Hen : ResultView.undoDisabled
                  (store (worldOf (withResults [item_of "r1"; item_of "r2"])))
                = false) by (vm_compute; reflexivity).
  assert (Hok : ok 200 = true) by reflexivity.
  exact (undo_enabled_keeps_a_result _ 200 None (mkUndoData (Some "r1")) Hen Hok).
Defined.

(** ** The strokes of the canvas *)

Section SketchProperties.

Context {number : Type}.

Lemma Forall_skipn_keep {A} (P : A -> Prop) (n : nat) (l : list A) :
  Forall P l -> Forall P (skipn n l).
Proof.
  intro H. apply Forall_forall. intros x Hx.
  rewrite Forall_forall in H. apply H.
  rewrite <- (firstn_skipn n l). apply in_or_app. right. exact Hx.
Qed.

Lemma Forall_removelast_keep {A} (P : A -> Prop) (l : list A) :
  Forall P l -> Forall P (removelast l).
Proof.
  intro H. rewrite removelast_firstn_len.
  apply Forall_forall. intros x Hx. rewrite Forall_forall in H. apply H.
  rewrite <- (firstn_skipn (Nat.pred (length l)) l). apply in_or_app. left. exact Hx.
Qed.

Lemma onPointerIn_strokesOk (seen : bool) (c : @Sketch.Canvas number)
    (e : @Sketch.PointerEvent number) :
  strokesOk c -> strokesOk (Sketch.onPointerIn seen c e).
Proof.
  intros [Hlen Hall].
  destruct e as [position|position| | |id|]; cbn [Sketch.onPointerIn].
  - unfold Sketch.handlePointerDown. destruct position as [[x y]|]; [|split; assumption].
    unfold strokesOk. cbn -[Nat.ltb Nat.sub skipn].
    assert (Hnew : Forall (fun s => Nat.Even (length (Sketch.points s))
                                    /\ (2 <= length (Sketch.points s))%nat)
                     (Sketch.strokes c
                      ++ [Sketch.mkStroke (Sketch.currentTool c) [x; y]
                            (Sketch.currentColor c) (Sketch.strokeWidth c)])).
    { apply Forall_app. split; [exact Hall|].
      constructor; [|constructor]. cbn. split; [exists 1; reflexivity|lia]. }
    match goal with
    | |- context [Nat.ltb 50 ?n] => destruct (Nat.ltb_spec 50 n) as [Hgt|Hle]
    end.
    + split; [|apply Forall_skipn_keep, Hnew].
      rewrite length_skipn. lia.
    + split; [exact Hle|exact Hnew].
  - unfold Sketch.handlePointerMove.
    destruct seen; cbn [negb]; [|split; assumption].
    destruct position as [[x y]|]; [|split; assumption].
    unfold strokesOk. cbn.
    destruct (rev (Sketch.strokes c)) as [|lastStroke earlier] eqn:Hrev;
      [split; assumption|].
    assert (Hs : Sketch.strokes c = rev earlier ++ [lastStroke]).
    { rewrite <- (rev_involutive (Sketch.strokes c)), Hrev. reflexivity. }
    rewrite Hs in Hlen, Hall. rewrite length_app in *. cbn [length] in *.
    apply Forall_app in Hall as [Hearlier Hlast].
    split; [exact Hlen|].
    apply Forall_app. split; [exact Hearlier|].
    constructor; [|constructor]. cbn.
    apply Forall_inv in Hlast as [[k Hk] Hge].
    rewrite length_app. cbn [length]. split; [exists (S k); lia|lia].
  - unfold Sketch.finishStroke.
    destruct seen; cbn [negb]; [|split; assumption].
    unfold strokesOk.
    cbn -[removelast]. destruct (Sketch.didDrawRef c); cbn -[removelast];
      [split; assumption|].
    split; [|apply Forall_removelast_keep, Hall].
    rewrite length_removelast_pred. lia.
  - split; cbn; [lia|constructor].
  - unfold Sketch.timerFired. destruct (existsb _ _); split; assumption.
  - split; assumption.
Qed.

(** X13. The canvas never keeps more than fifty strokes, and the points
    of every stroke come in pairs, at least one pair per stroke: both hold
    after any sequence of pointer events and clearings, from a canvas where
    they hold, whatever render each handler was created in. *)
Theorem strokes_invariant (es : list (bool * @Sketch.PointerEvent number))
    (c : @Sketch.Canvas number) :
  strokesOk c -> strokesOk (Sketch.pointerRunIn es c).
Proof.
  unfold Sketch.pointerRunIn. revert c.
  induction es as [|e es IH]; intros c Hc; [exact Hc|].
  cbn [fold_left]. apply IH, onPointerIn_strokesOk, Hc.
Qed.

(** X14. A pointer-down followed by a pointer-up with no move in between,
    the component rendering after each, schedules no generation and removes
    the stroke it started; the sketch is as before, except that with fifty
    strokes already there the oldest one is lost. *)
Theorem click_without_move (x y : number) (c : @Sketch.Canvas number) :
  let c' := Sketch.pointerRun [Sketch.PointerDown (Some (x, y)); Sketch.PointerUp] c in
  Sketch.scheduled c' = Sketch.scheduled c
  /\ Sketch.isDrawing c' = false
  /\ Sketch.strokes c'
     = if (length (Sketch.strokes c) <? 50)%nat then Sketch.strokes c
       else skipn (length (Sketch.strokes c) - 49) (Sketch.strokes c).
Proof.
  cbv zeta. cbn -[Nat.ltb Nat.sub skipn removelast]. repeat split.
  rewrite length_app. cbn [length].
  destruct (Nat.ltb_spec 50 (length (Sketch.strokes c) + 1)) as [Hgt|Hle].
  - destruct (Nat.ltb_spec (length (Sketch.strokes c)) 50) as [Hlt|Hge]; [lia|].
    replace (length (Sketch.strokes c) + 1 - 50) with (length (Sketch.strokes c) - 49)
      by lia.
    rewrite skipn_app.
    replace (length (Sketch.strokes c) - 49 - length (Sketch.strokes c)) with 0 by lia.
    cbn [skipn]. apply removelast_last.
  - destruct (Nat.ltb_spec (length (Sketch.strokes c)) 50) as [Hlt|Hge]; [|lia].
    apply removelast_last.
Qed.

Lemma onPointer_scheduled (c : @Sketch.Canvas number) (e : @Sketch.PointerEvent number) :
  Sketch.scheduled (Sketch.onPointer c e)
  + (if Sketch.isDrawing (Sketch.onPointer c e) then 1 else 0)
  <= Sketch.scheduled c + (if Sketch.isDrawing c then 1 else 0)
     + (if startsStroke e then 1 else 0).
Proof.
  unfold Sketch.onPointer.
  destruct e as [[[x y]|]|[[x y]|]| | |id|]; cbn [Sketch.onPointerIn startsStroke];
    unfold Sketch.handlePointerDown, Sketch.handlePointerMove, Sketch.finishStroke,
      Sketch.clearSketch, Sketch.timerFired, Sketch.timerSettled;
    try destruct (existsb _ _);
    destruct (Sketch.isDrawing c) eqn:Hd; cbn;
    try destruct (Sketch.didDrawRef c); cbn; rewrite ?Hd; lia.
Qed.

(** X15. Each stroke schedules at most one generation when the component
    renders after every event: from a canvas on which nothing is being
    drawn, the number of scheduled generations grows by at most the number
    of pointer-down events that started a stroke. *)
Theorem scheduled_at_most_once_per_stroke (es : list (@Sketch.PointerEvent number)) (c : @Sketch.Canvas number) :
  Sketch.isDrawing c = false ->
  Sketch.scheduled (Sketch.pointerRun es c)
  <= Sketch.scheduled c + length (filter startsStroke es).
Proof.
  intro Hd.
  assert (H : forall es (c : @Sketch.Canvas number),
             Sketch.scheduled (Sketch.pointerRun es c)
             + (if Sketch.isDrawing (Sketch.pointerRun es c) then 1 else 0)
             <= Sketch.scheduled c + (if Sketch.isDrawing c then 1 else 0)
                + length (filter startsStroke es)).
  { clear. unfold Sketch.pointerRun.
    induction es as [|e es IH]; intro c; [cbn; lia|].
    cbn [fold_left filter].
    pose proof (IH (Sketch.onPointer c e)) as H1.
    pose proof (onPointer_scheduled c e) as H2.
    destruct (startsStroke e); cbn [length]; lia. }
  specialize (H es c). rewrite Hd in H. lia.
Qed.

Lemma clearTimeout_incl (ref : option nat) (live : list nat) (x : nat) :
  In x (Sketch.clearTimeout ref live) -> In x live.
Proof.
  unfold Sketch.clearTimeout. destruct ref as [id|]; [|exact (fun H => H)].
  destruct (id =? 0)%nat; [exact (fun H => H)|].
  intro H. apply in_remove in H. tauto.
Qed.

Lemma finishStroke_drawing (c : @Sketch.Canvas number) :
  Sketch.finishStroke true c
  = if Sketch.didDrawRef c
    then Sketch.scheduleGeneration (Sketch.setIsDrawing false c)
    else Sketch.setStrokes (fun prev => removelast prev) (Sketch.setIsDrawing false c).
Proof.
  unfold Sketch.finishStroke. cbn [negb Sketch.didDrawRef Sketch.setIsDrawing].
  destruct (Sketch.didDrawRef c); reflexivity.
Qed.

(** X24. [finishStroke] is guarded by the [isDrawing] of the render it
    was created in, not by the current one: called twice from the render
    of a stroke in progress, as the stage and the window listener can, it
    acts twice.  After a click the stroke it started and the one before it
    are removed.  After a stroke with a move [scheduleGeneration] is called
    twice, but the second call clears the timeout the first one set: the
    timeouts that were set before minus the one in the ref, and one new
    timeout, are left to fire, not two new ones. *)
Theorem finishStroke_twice_in_one_render (c : @Sketch.Canvas number) :
  let c' := Sketch.pointerRunIn [(true, Sketch.PointerUp); (true, Sketch.PointerUp)] c in
  Sketch.isDrawing c' = false
  /\ Sketch.fired c' = Sketch.fired c
  /\ if Sketch.didDrawRef c
     then Sketch.scheduled c' = S (S (Sketch.scheduled c))
          /\ Sketch.strokes c' = Sketch.strokes c
          /\ Sketch.generationTimerRef c' = Some (S (Sketch.nextTimer c))
          /\ (Sketch.nextTimer c <> 0 ->
              ~ In (Sketch.nextTimer c) (Sketch.timers c) ->
              Sketch.timers c'
              = Sketch.clearTimeout (Sketch.generationTimerRef c) (Sketch.timers c)
                ++ [S (Sketch.nextTimer c)])
     else Sketch.scheduled c' = Sketch.scheduled c
          /\ Sketch.strokes c' = removelast (removelast (Sketch.strokes c))
          /\ Sketch.generationTimerRef c' = Sketch.generationTimerRef c
          /\ Sketch.timers c' = Sketch.timers c.
Proof.
  cbv zeta. unfold Sketch.pointerRunIn. cbn [fold_left fst snd Sketch.onPointerIn].
  rewrite (finishStroke_drawing c).
  destruct (Sketch.didDrawRef c) eqn:Hd; rewrite finishStroke_drawing;
    cbn [Sketch.didDrawRef Sketch.scheduleGeneration Sketch.setIsDrawing
           Sketch.setStrokes]; rewrite Hd;
    cbn -[removelast Sketch.clearTimeout];
    (split; [reflexivity|]); (split; [reflexivity|]);
    repeat (split; [reflexivity|]); [|reflexivity].
  intros Hne Hfresh.
  unfold Sketch.clearTimeout at 1.
  destruct (Nat.eqb_spec (Sketch.nextTimer c) 0) as [E|_]; [contradiction|].
  rewrite remove_app. cbn [remove].
  destruct (Nat.eq_dec (Sketch.nextTimer c) (Sketch.nextTimer c)) as [_|N];
    [|contradiction N; reflexivity].
  rewrite app_nil_r, notin_remove; [reflexivity|].
  intro H. apply Hfresh. apply (clearTimeout_incl _ _ _ H).
Qed.

End SketchProperties.

Lemma strokes_invariant_witness :
  strokesOk (Sketch.pointerRunIn
               [(false, Sketch.PointerDown (Some (1%Z, 2%Z)));
                (true, Sketch.PointerMove (Some (3%Z, 4%Z)));
                (true, Sketch.PointerUp); (true, Sketch.PointerUp)]
               (Sketch.mkCanvas [] false false Sketch.brush "#000" 4%Z 0 None [] 1 0)).
Proof.
  apply strokes_invariant. split; [cbn; lia|constructor].
Defined.

Lemma scheduled_at_most_once_per_stroke_witness :
  Sketch.scheduled
    (Sketch.pointerRun
       [Sketch.PointerDown (Some (1%Z, 2%Z)); Sketch.PointerMove (Some (3%Z, 4%Z));
        Sketch.PointerUp; Sketch.PointerUp]
       (Sketch.mkCanvas [] false false Sketch.brush "#000" 4%Z 0 None [] 1 0))
  <= 0 + 1.
Proof.
  apply (scheduled_at_most_once_per_stroke
           [Sketch.PointerDown (Some (1%Z, 2%Z)); Sketch.PointerMove (Some (3%Z, 4%Z));
            Sketch.PointerUp; Sketch.PointerUp]
           (Sketch.mkCanvas [] false false Sketch.brush "#000" 4%Z 0 None [] 1 0)).
  reflexivity.
Defined.

(** ** The session watcher and the login form *)

Lemma spaced_snoc (l : list Z) (a b : Z) :
  spaced (l ++ [a]) -> (AuthWatcher.REFRESH_THROTTLE_MS <= b - a)%Z ->
  spaced ((l ++ [a]) ++ [b]).
Proof.
  induction l as [|x l IH]; intros H Hab.
  - cbn. tauto.
  - destruct l as [|y l].
    + cbn in *. tauto.
    + cbn [app spaced] in *. destruct H as [Hxy H]. split; [exact Hxy|].
      apply IH; assumption.
Qed.

(** The last refresh is the last time sent. *)
Lemma interactions_invariant (evs : list (AuthWatcher.Target * Z))
    (s : AuthWatcher.Refresher) :
  spaced (AuthWatcher.sentAt s) ->
  (AuthWatcher.sentAt s = []
   \/ exists l, AuthWatcher.sentAt s = l ++ [AuthWatcher.lastRefresh s]) ->
  spaced (AuthWatcher.sentAt (AuthWatcher.interactions evs s)).
Proof.
  unfold AuthWatcher.interactions. revert s.
  induction evs as [|[target now] evs IH]; intros s Hs Hlast; [exact Hs|].
  cbn [fold_left fst snd]. apply IH.
  - unfold AuthWatcher.handleInteraction, AuthWatcher.sendRefresh.
    destruct target as [|[|]]; cbn [negb]; try exact Hs.
    destruct (Z.ltb_spec (now - AuthWatcher.lastRefresh s)
                AuthWatcher.REFRESH_THROTTLE_MS) as [Hlt|Hge]; [exact Hs|].
    cbn [AuthWatcher.sentAt].
    destruct Hlast as [E|[l E]]; rewrite E in *; [exact I|].
    apply spaced_snoc; assumption.
  - unfold AuthWatcher.handleInteraction, AuthWatcher.sendRefresh.
    destruct target as [|[|]]; cbn [negb]; try exact Hlast.
    destruct (Z.ltb_spec (now - AuthWatcher.lastRefresh s)
                AuthWatcher.REFRESH_THROTTLE_MS) as [Hlt|Hge]; [exact Hlast|].
    right. eexists. reflexivity.
Qed.

(** X16. The refresh request is throttled whatever the clock does: any
    two consecutive refresh requests the watcher sends are at least
    [REFRESH_THROTTLE_MS] (15 s) apart by the clock readings they were sent
    at, and a request goes out only at a pointer-down inside a button. *)
Theorem refresh_throttled (evs : list (AuthWatcher.Target * Z)) :
  let sent := AuthWatcher.sentAt
                (AuthWatcher.interactions evs AuthWatcher.initialRefresher) in
  spaced sent
  /\ Forall (fun t => In (AuthWatcher.Element true, t) evs) sent.
Proof.
  cbv zeta. split.
  - apply interactions_invariant; [exact I|left; reflexivity].
  - assert (H : forall (s : AuthWatcher.Refresher) pre,
               Forall (fun t => In (AuthWatcher.Element true, t) (pre ++ evs))
                 (AuthWatcher.sentAt s) ->
               Forall (fun t => In (AuthWatcher.Element true, t) (pre ++ evs))
                 (AuthWatcher.sentAt (AuthWatcher.interactions evs s))).
    { unfold AuthWatcher.interactions.
      induction evs as [|[target now] evs IH]; intros s pre Hs; [exact Hs|].
      cbn [fold_left fst snd].
      replace (pre ++ (target, now) :: evs) with ((pre ++ [(target, now)]) ++ evs) in *
        by (rewrite <- app_assoc; reflexivity).
      apply IH.
      unfold AuthWatcher.handleInteraction, AuthWatcher.sendRefresh.
      destruct target as [|[|]]; cbn [negb]; try exact Hs.
      destruct (_ <? _)%Z; [exact Hs|]. cbn [AuthWatcher.sentAt].
      apply Forall_app. split; [exact Hs|].
      constructor; [|constructor].
      apply in_or_app. left. apply in_or_app. right. left. reflexivity. }
    apply (H AuthWatcher.initialRefresher []). constructor.
Qed.

(** X17. What the session check does, case by case.  Nothing of the store
    but the session id ever changes.  A cancelled check, a failed request,
    a response that is neither 401 nor 2xx, and a 2xx response whose body
    is unreadable, [null] or carries no string [sid] change nothing at all.
    On 401 (not cancelled) the session id is cleared and the page is, or
    becomes, [/login] where there is a window.  On a 2xx response (not
    cancelled) whose body carries a string [sid], the session id becomes
    that [sid] and the page stays.  So the session id changes only to [null]
    on a 401 or to the [sid] of a 2xx body, and the page changes only on a
    401. *)
Theorem check_outcomes (cancelled : bool) (resp : Fetched AuthWatcher.AuthData)
    (s : State) (location : option string) :
  let s' := fst (AuthWatcher.check cancelled resp s location) in
  let location' := snd (AuthWatcher.check cancelled resp s location) in
  s' = Store.setSessionId (sessionId s') s
  /\ sessionId s'
     = (if cancelled then sessionId s
        else match resp with
             | Response status body =>
                 if (status =? 401)%nat then None
                 else if ok status then
                   match body with
                   | Parsed _ data =>
                       match AuthWatcher.sid data with
                       | Some v => Some v
                       | None => sessionId s
                       end
                   | _ => sessionId s
                   end
                 else sessionId s
             | Rejected _ => sessionId s
             end)
  /\ location'
     = (if cancelled then location
        else match resp with
             | Response status _ =>
                 if (status =? 401)%nat
                 then match location with
                      | Some _ => Some "/login"
                      | None => None
                      end
                 else location
             | Rejected _ => location
             end)
  /\ (sessionId s' <> sessionId s ->
      cancelled = false
      /\ exists status body,
           resp = Response status body
           /\ ((status = 401 /\ sessionId s' = None)
               \/ (ok status = true
                   /\ exists em data v,
                        body = Parsed em data
                        /\ AuthWatcher.sid data = Some v
                        /\ sessionId s' = Some v)))
  /\ (location' <> location ->
      cancelled = false /\ exists body, resp = Response 401 body).
Proof.
  cbv zeta.
  assert (Hset : forall v, sessionId (Store.setSessionId v s) = v).
  { intro v. unfold Store.setSessionId.
    destruct (ostring_eqb (sessionId s) v) eqn:E; [|reflexivity].
    apply ostring_eqb_eq, E. }
  assert (Hsame : s = Store.setSessionId (sessionId s) s).
  { unfold Store.setSessionId. rewrite ostring_eqb_refl. reflexivity. }
  assert (Hloc : forall l, AuthWatcher.redirectToLogin l
                           = match l with Some _ => Some "/login" | None => None end).
  { intros [p|]; [|reflexivity]. unfold AuthWatcher.redirectToLogin.
    destruct (String.eqb_spec p "/login"); [subst; reflexivity|reflexivity]. }
  assert (Hnone : forall l : option string,
             s = Store.setSessionId (sessionId s) s
             /\ sessionId s = sessionId s
             /\ l = l
             /\ (sessionId s <> sessionId s ->
                 false = false
                 /\ exists status body,
                      resp = Response status body
                      /\ ((status = 401 /\ sessionId s = None)
                          \/ (ok status = true
                              /\ exists em data v,
                                   body = Parsed em data
                                   /\ AuthWatcher.sid data = Some v
                                   /\ sessionId s = Some v)))
             /\ (l <> l -> false = false /\ exists body, resp = Response 401 body)).
  { intro l. split; [exact Hsame|]. split; [reflexivity|]. split; [reflexivity|].
    split; intro H; contradiction H; reflexivity. }
  unfold AuthWatcher.check.
  destruct cancelled.
  { cbn [fst snd].
    split; [destruct resp; exact Hsame|]. split; [destruct resp; reflexivity|].
    split; [destruct resp; reflexivity|].
    split; intro H; contradiction H; destruct resp; reflexivity. }
  destruct resp as [m|status body]; [apply Hnone|].
  destruct (Nat.eqb_spec status 401) as [->|H401].
  { cbn [fst snd]. rewrite Hset, Hloc.
    split; [reflexivity|]. split; [reflexivity|]. split; [reflexivity|]. split.
    - intros _. split; [reflexivity|]. exists 401, body. split; [reflexivity|].
      left. split; reflexivity.
    - intros _. split; [reflexivity|]. exists body. reflexivity. }
  destruct (ok status) eqn:Hok; [|apply Hnone].
  destruct body as [m| |em data]; try apply Hnone.
  destruct (AuthWatcher.sid data) as [v|] eqn:Hsid; [|apply Hnone].
  cbn [fst snd]. rewrite Hset.
  split; [reflexivity|]. split; [reflexivity|]. split; [reflexivity|]. split.
  - intros _. split; [reflexivity|]. exists status, (Parsed em data).
    split; [reflexivity|]. right.
    split; [exact Hok|]. exists em, data, v. repeat split. exact Hsid.
  - intro H. contradiction H. reflexivity.
Qed.

(** X18. [handleSubmit] of the login form always ends with [loading]
    false.  It navigates to [/app] exactly on a 2xx response, and then the
    error is [null], whatever it was before.  Every other outcome does not
    navigate and sets the error: to the network message when the request
    fails; on a response that is not 2xx to the invalid-credentials message
    when the body's error code is [INVALID_CREDENTIALS], whatever the
    status; otherwise to the unreachable-API message when the status is 404;
    otherwise to the message of the body's error when it has one, else to
    the generic message.  The page shows the error as an alert only when it
    is a non-empty text. *)
Theorem login_submit_outcomes (t : Login.Messages) (resp : Fetched Login.LoginData)
    (f : Login.Form) :
  let f' := Login.handleSubmit t resp f in
  let message :=
    match resp with
    | Rejected _ => Some (Login.network t)
    | Response status body =>
        if ok status then None
        else Some (if Login.invalidCredentials body then Login.invalid_credentials t
                   else if (status =? 404)%nat then Login.api_unreachable t
                   else errorMessageOr body (Login.generic t))
    end in
  Login.loading f' = false
  /\ Login.error f' = message
  /\ Login.pushed f'
     = Login.pushed f
       ++ match resp with
          | Response status _ => if ok status then ["/app"] else []
          | Rejected _ => []
          end
  /\ Login.alert f'
     = match message with
       | Some m => if m =? "" then None else Some m
       | None => None
       end.
Proof.
  cbv zeta. unfold Login.alert, Login.handleSubmit, Login.handleSubmit_resume,
    Login.handleSubmit_start.
  assert (Ht : forall m, (if truthy_string m then Some m else None)
                         = (if m =? "" then None else Some m)).
  { intros [|c m]; reflexivity. }
  split; [reflexivity|].
  destruct resp as [m|status body].
  { cbn. rewrite app_nil_r, Ht. repeat split. }
  destruct (ok status) eqn:Hok; cbn [negb].
  { cbn. repeat split. }
  destruct (Login.invalidCredentials body).
  { cbn. rewrite app_nil_r, Ht. repeat split. }
  destruct (status =? 404)%nat; cbn; rewrite app_nil_r, Ht; repeat split.
Qed.

(** ** Addresses and texts *)

Section Strings.

Lemma append_nil_r (s : string) : String.append s "" = s.
Proof. induction s as [|c s IH]; cbn; [reflexivity|rewrite IH; reflexivity]. Qed.

Lemma append_assoc (a b c : string) :
  String.append (String.append a b) c = String.append a (String.append b c).
Proof. induction a as [|x a IH]; cbn; [reflexivity|rewrite IH; reflexivity]. Qed.

Lemma length_append (a b : string) :
  String.length (String.append a b) = String.length a + String.length b.
Proof. induction a as [|x a IH]; cbn; [reflexivity|rewrite IH; reflexivity]. Qed.

Lemma prefix_drop (sep s : string) :
  String.prefix sep s = true ->
  s = String.append sep (Hero.drop (String.length sep) s).
Proof.
  revert s. induction sep as [|c sep IH]; intros s H; [reflexivity|].
  destruct s as [|d s]; [discriminate|]. cbn in H.
  destruct (ascii_dec c d) as [->|]; [|discriminate].
  cbn. f_equal. apply IH, H.
Qed.

Lemma splitFirst_spec (sep s a b : string) :
  Hero.splitFirst sep s = Some (a, b) ->
  s = String.append a (String.append sep b).
Proof.
  revert a b. induction s as [|c s IH]; intros a b; cbn [Hero.splitFirst].
  - destruct (String.prefix sep "") eqn:Hp; [|discriminate].
    intro H. injection H as <- <-. apply prefix_drop, Hp.
  - destruct (String.prefix sep (String c s)) eqn:Hp.
    + intro H. injection H as <- <-. apply prefix_drop, Hp.
    + destruct (Hero.splitFirst sep s) as [[a' b']|]; [|discriminate].
      intro H. injection H as <- <-. cbn. f_equal. apply IH. reflexivity.
Qed.

Lemma splitFirst_includes (sep s : string) :
  includes sep s = isSome (Hero.splitFirst sep s).
Proof.
  induction s as [|c s IH]; cbn [includes Hero.splitFirst].
  - destruct (String.prefix sep ""); reflexivity.
  - destruct (String.prefix sep (String c s)); [reflexivity|].
    cbn [orb]. rewrite IH. destruct (Hero.splitFirst sep s) as [[a b]|]; reflexivity.
Qed.

Lemma splitFirst_nonempty (sep s a b : string) :
  sep <> "" -> Hero.splitFirst sep s = Some (a, b) -> (1 <= String.length s)%nat.
Proof.
  intros Hne H. apply splitFirst_spec in H. subst s.
  rewrite !length_append. destruct sep; [contradiction|]. cbn. lia.
Qed.

End Strings.

(** X19. What [HeroCard] shows.  Without a highlight the paragraph is the
    text.  With a highlight that does not occur in the text the highlight
    is appended to it.  With a highlight that occurs exactly once the
    paragraph reads as the text; when it occurs again, the paragraph stops
    before the second occurrence. *)
Theorem hero_paragraph (text highlight : string) :
  (highlight = "" -> Hero.paragraph text highlight = text)
  /\ (highlight <> "" -> includes highlight text = false ->
      Hero.paragraph text highlight = String.append text highlight)
  /\ (forall a b, highlight <> "" ->
      Hero.splitFirst highlight text = Some (a, b) ->
      includes highlight b = false ->
      Hero.parts text highlight = (a, b)
      /\ Hero.paragraph text highlight = text)
  /\ (forall a b c d, highlight <> "" ->
      Hero.splitFirst highlight text = Some (a, b) ->
      Hero.splitFirst highlight b = Some (c, d) ->
      Hero.paragraph text highlight
      = String.append a (String.append highlight c)).
Proof.
  unfold Hero.paragraph, Hero.parts.
  split; [|split; [|split]].
  - intros ->. cbn. apply append_nil_r.
  - intros Hne Hno. rewrite (proj2 (truthy_string_true _) Hne), Hno. cbn.
    rewrite append_nil_r. reflexivity.
  - intros a b Hne Hsplit Hno.
    rewrite (proj2 (truthy_string_true _) Hne), splitFirst_includes, Hsplit.
    cbn [isSome negb orb].
    pose proof (splitFirst_nonempty _ _ _ _ Hne Hsplit) as Hlen.
    unfold Hero.split. destruct (String.length text) as [|n]; [lia|].
    cbn [Hero.splitFuel]. rewrite Hsplit.
    rewrite splitFirst_includes in Hno.
    assert (Hrest : Hero.splitFuel n highlight b = [b]).
    { destruct n; cbn [Hero.splitFuel]; [reflexivity|].
      destruct (Hero.splitFirst highlight b) as [[x y]|]; [discriminate|reflexivity]. }
    rewrite Hrest. split; [reflexivity|].
    symmetry. apply splitFirst_spec, Hsplit.
  - intros a b c d Hne Hsplit Hsplit2.
    rewrite (proj2 (truthy_string_true _) Hne), splitFirst_includes, Hsplit.
    cbn [isSome negb orb].
    pose proof (splitFirst_nonempty _ _ _ _ Hne Hsplit2) as Hlen2.
    pose proof (splitFirst_spec _ _ _ _ Hsplit) as Htext.
    assert (Hlen : (2 <= String.length text)%nat).
    { rewrite Htext, !length_append. destruct highlight; [contradiction|]. cbn. lia. }
    unfold Hero.split. destruct (String.length text) as [|[|n]]; try lia.
    cbn [Hero.splitFuel]. rewrite Hsplit, Hsplit2. reflexivity.
Qed.

Lemma stripTrailingSlash_slash (s : string) :
  ApiConfig.stripTrailingSlash (String.append s "/") = s.
Proof.
  induction s as [|c s IH]; [reflexivity|].
  cbn [String.append ApiConfig.stripTrailingSlash].
  destruct (String.append s "/") as [|d rest] eqn:E.
  - destruct s; discriminate E.
  - rewrite IH. reflexivity.
Qed.

Lemma stripTrailingSlash_other (s : string) :
  (s = String.append (ApiConfig.stripTrailingSlash s) "/"
   /\ (ApiConfig.stripTrailingSlash s = "" -> s = "/"))
  \/ (s = ApiConfig.stripTrailingSlash s).
Proof.
  induction s as [|c s IH]; [right; reflexivity|].
  cbn [ApiConfig.stripTrailingSlash]. destruct s as [|d s].
  - destruct (Ascii.eqb_spec c "/"%char) as [->|Hne]; [left|right]; [|reflexivity].
    split; reflexivity.
  - destruct IH as [[IH _]|IH].
    + left. split; [|discriminate]. cbn [String.append]. f_equal. exact IH.
    + right. f_equal. exact IH.
Qed.

(** X20. [API_BASE] is the raw base with exactly one trailing slash
    removed: a raw base [s ++ "/"] gives [s], whatever [s] ends in, and a raw
    base that does not end in a slash is left as it is.  It is empty only
    for the raw bases [""] and ["/"].  With a non-empty base [buildApiUrl]
    is indifferent to the leading slash of the path; with an empty base it
    returns the path as it is. *)
Theorem api_base_normalisation (raw path : string) :
  (forall s, ApiConfig.API_BASE (String.append s "/") = s)
  /\ ((forall s, raw <> String.append s "/") -> ApiConfig.API_BASE raw = raw)
  /\ (ApiConfig.API_BASE raw = "" <-> raw = "" \/ raw = "/")
  /\ (ApiConfig.API_BASE raw <> "" ->
      ApiConfig.buildApiUrl raw (String.append "/" path)
      = String.append (ApiConfig.API_BASE raw) (String.append "/" path)
      /\ (String.prefix "/" path = false ->
          ApiConfig.buildApiUrl raw path
          = ApiConfig.buildApiUrl raw (String.append "/" path)))
  /\ (ApiConfig.API_BASE raw = "" -> ApiConfig.buildApiUrl raw path = path).
Proof.
  unfold ApiConfig.API_BASE, ApiConfig.buildApiUrl, ApiConfig.API_BASE.
  split; [|split; [|split; [|split]]].
  - apply stripTrailingSlash_slash.
  - intro Hno. destruct (stripTrailingSlash_other raw) as [[H _]|H];
      [exfalso; apply (Hno _ H)|symmetry; exact H].
  - split.
    + intro E. destruct (stripTrailingSlash_other raw) as [[_ H]|H];
        [right; apply H, E|left; congruence].
    + intros [->| ->]; reflexivity.
  - intro Hne. rewrite (proj2 (truthy_string_true _) Hne). cbn [negb].
    assert (Hpre : String.prefix "/" (String.append "/" path) = true)
      by (destruct path; reflexivity).
    rewrite Hpre. split; [reflexivity|]. intros ->. reflexivity.
  - intros ->. reflexivity.
Qed.

(** ** The image shown by the panels *)

Lemma templatePreview_truthy (slot preview : string) :
  templatePreview slot = Some preview -> truthy_string preview = true.
Proof.
  unfold templatePreview, TEMPLATE_SLOTS. cbn [find fst snd].
  repeat match goal with
         | |- context [if ?c then _ else _] => destruct c
         end; intro H; try discriminate; injection H as <-; reflexivity.
Qed.

Lemma append_truthy (a b : string) :
  truthy_string b = true -> truthy_string (String.append a b) = true.
Proof.
  intro H. apply truthy_string_true. apply truthy_string_true in H.
  destruct a; [exact H|discriminate].
Qed.

(** X21. The result panel always has an image to show when there is no
    current result: its fallback is never the empty address.  For a base
    image without a template slot it is the address the canvas draws, or the
    default preview when the canvas has none; for a base image with one of
    the four template slots it is that template's preview, whatever the
    image's own address, while the canvas prefers the image's address. *)
Theorem fallback_image (apiOrigin : string) (b : BaseImage.t) :
  ResultView.fallbackImageUrl apiOrigin (Some b) <> ResultView.Address ""
  /\ ResultView.fallbackImageUrl apiOrigin None
     = ResultView.Address "/assets/pattern1.png"
  /\ (BaseImage.placeholderSlot b = None ->
      ResultView.fallbackImageUrl apiOrigin (Some b)
      = match CanvasView.baseImageUrl apiOrigin (Some b) with
        | Some u => ResultView.Address u
        | None => ResultView.Address ResultView.DEFAULT_TEMPLATE_PREVIEW
        end)
  /\ (forall slot preview,
      BaseImage.placeholderSlot b = Some slot ->
      templatePreview slot = Some preview ->
      ResultView.fallbackImageUrl apiOrigin (Some b) = ResultView.Address preview
      /\ (BaseImage.url b = "" ->
          CanvasView.baseImageUrl apiOrigin (Some b) = Some preview)
      /\ (String.prefix "http" (BaseImage.url b) = true ->
          CanvasView.baseImageUrl apiOrigin (Some b) = Some (BaseImage.url b))).
Proof.
  split; [|split; [reflexivity|split]].
  - unfold ResultView.fallbackImageUrl.
    destruct (match BaseImage.placeholderSlot b with Some _ => _ | None => _ end)
      as [src|] eqn:Hslot.
    + destruct (BaseImage.placeholderSlot b) as [slot|]; [|discriminate].
      destruct (truthy_string slot); [|discriminate].
      unfold ResultView.lookupPreview in Hslot.
      destruct (templatePreview slot) as [preview|] eqn:Hp.
      * destruct (truthy_string preview) eqn:Ht; [|discriminate].
        injection Hslot as <-. intro E. injection E as ->. discriminate.
      * destruct (existsb _ _); [|discriminate].
        injection Hslot as <-. discriminate.
    + destruct (truthy_string (BaseImage.url b)) eqn:Hu; cbn [negb]; [|discriminate].
      destruct (String.prefix "http" (BaseImage.url b)).
      * intro E. injection E as E. rewrite E in Hu. discriminate.
      * destruct (truthy_string apiOrigin).
        -- intro E. injection E as E.
           pose proof (append_truthy apiOrigin _ Hu) as H. rewrite E in H. discriminate.
        -- intro E. injection E as E. rewrite E in Hu. discriminate.
  - intro Hslot. unfold ResultView.fallbackImageUrl, CanvasView.baseImageUrl.
    rewrite Hslot.
    destruct (truthy_string (BaseImage.url b)); cbn [negb]; [|reflexivity].
    destruct (String.prefix "http" (BaseImage.url b)); [reflexivity|].
    destruct (truthy_string apiOrigin); reflexivity.
  - intros slot preview Hslot Hp.
    pose proof (templatePreview_truthy _ _ Hp) as Ht.
    assert (Hs : truthy_string slot = true).
    { destruct slot; [discriminate Hp|reflexivity]. }
    unfold ResultView.fallbackImageUrl, CanvasView.baseImageUrl, ResultView.lookupPreview.
    rewrite Hslot, Hs, Hp, Ht.
    split; [reflexivity|]. split.
    + intros ->. reflexivity.
    + intro Hh. rewrite Hh.
      destruct (BaseImage.url b); [discriminate Hh|reflexivity].
Qed.

(** ** Sketches that do not decode *)

Lemma split_comma_no_comma (s : string) :
  includes "," s = false -> split_comma s = [s].
Proof.
  induction s as [|c s IH]; [reflexivity|].
  cbn [includes split_comma]. intro H. apply orb_false_iff in H as [Hp Hin].
  destruct (Ascii.eqb_spec c ","%char) as [->|Hne].
  - destruct s; discriminate Hp.
  - rewrite (IH Hin). reflexivity.
Qed.

Lemma dataUrlToBlob_no_comma (s : string) :
  includes "," s = false -> dataUrlToBlob s = inl "Invalid data URL".
Proof.
  intro H. unfold dataUrlToBlob. rewrite (split_comma_no_comma _ H). reflexivity.
Qed.

Lemma split_comma_nonempty (s : string) :
  exists x xs, split_comma s = x :: xs.
Proof.
  induction s as [|c s (x & xs & IH)]; [eexists; eexists; reflexivity|].
  cbn [split_comma]. destruct (Ascii.eqb c ","%char); [eexists; eexists; reflexivity|].
  rewrite IH. eexists; eexists; reflexivity.
Qed.

Lemma split_comma_comma (s : string) :
  includes "," s = true ->
  exists header payload rest, split_comma s = header :: payload :: rest.
Proof.
  induction s as [|c s IH]; [discriminate|].
  cbn [includes split_comma]. intro H.
  destruct (Ascii.eqb_spec c ","%char) as [->|Hne].
  - destruct (split_comma_nonempty s) as (x & xs & ->).
    eexists; eexists; eexists; reflexivity.
  - assert (Hp : String.prefix "," (String c s) = false).
    { change (String.prefix "," (String c s))
        with (if ascii_dec ","%char c then String.prefix "" s else false).
      destruct (ascii_dec "," c) as [E|_]; [|reflexivity].
      exfalso. apply Hne. symmetry. exact E. }
    rewrite Hp in H. cbn [orb] in H.
    destruct (IH H) as (h & p & rest & ->).
    eexists; eexists; eexists; reflexivity.
Qed.

(** [dataUrlToBlob] throws exactly on a text without a comma and on a text
    whose second piece [atob] does not accept. *)
Lemma dataUrlToBlob_rejects (s m : string) :
  dataUrlToBlob s = inl m <->
  (includes "," s = false /\ m = "Invalid data URL")
  \/ (exists header payload rest,
        split_comma s = header :: payload :: rest
        /\ atob_accepts payload = false /\ m = atob_error_message).
Proof.
  unfold dataUrlToBlob. destruct (includes "," s) eqn:Hc.
  - destruct (split_comma_comma s Hc) as (h & p & rest & E). rewrite E.
    cbn [firstn]. split.
    + destruct (atob_accepts p) eqn:Ha; [discriminate|].
      intro H. injection H as <-. right. exists h, p, rest. repeat split; assumption.
    + intros [[H _]|(h' & p' & rest' & E' & Ha & ->)]; [discriminate|].
      injection E' as <- <- <-. rewrite Ha. reflexivity.
  - rewrite (split_comma_no_comma s Hc). cbn [firstn]. split.
    + intro H. injection H as <-. left. split; reflexivity.
    + intros [[_ ->]|(h' & p' & rest' & E' & _)]; [reflexivity|discriminate].
Qed.

(** X22. An image that [dataUrlToBlob] rejects is never sent.  A call of
    [submitGeneration] from a render that is not busy and has a base image,
    with a non-empty sketch, issues no remote call when the sketch, or a
    non-empty canvas image after a sketch that decodes, is rejected with
    message [m]: the status becomes [error] with that message, no job is
    active, nothing is pending and the last sketch is not replaced.
    [dataUrlToBlob] rejects exactly the texts without a comma (["Invalid
    data URL"]) and the texts whose second piece [atob] does not accept; it
    does not look at the header, so a text like ["hello,AAAA"] is sent. *)
Theorem rejected_image_never_sent (w : World) (r : State) (b : BaseImage.t)
    (sketch : string) (canvas : option string) (quality : Quality)
    (seed : option Z) :
  baseImage r = Some b ->
  busy (jobStatus r) = false ->
  sketch <> "" ->
  let p := PendingGeneration.mk sketch canvas quality seed in
  let w' := step w (SubmitFrom r sketch canvas quality seed) in
  (forall m, blobsOf p = inl m ->
      calls w' = calls w
      /\ jobStatus (store w') = error
      /\ jobMessage (store w') = Some m
      /\ activeJobId (store w') = None
      /\ pendingGenerationRef (refs w') = None
      /\ lastSketchDataUrl (store w') = lastSketchDataUrl (store w))
  /\ (forall m,
      blobsOf p = inl m <->
      dataUrlToBlob sketch = inl m
      \/ (exists sketchBlob c,
            dataUrlToBlob sketch = inr sketchBlob
            /\ canvas = Some c /\ c <> "" /\ dataUrlToBlob c = inl m))
  /\ (forall s m,
      dataUrlToBlob s = inl m <->
      (includes "," s = false /\ m = "Invalid data URL")
      \/ (exists header payload rest,
            split_comma s = header :: payload :: rest
            /\ atob_accepts payload = false /\ m = atob_error_message))
  /\ blobsOf (PendingGeneration.mk "hello,AAAA" None quality seed)
     = inr (mkBlob "hello" "AAAA", None).
Proof.
  intros Hbase Hidle Hne. cbv zeta. apply truthy_string_true in Hne.
  split; [|split; [|split; [apply dataUrlToBlob_rejects|reflexivity]]].
  - intros m Hblobs.
    unfold step. cbn [handle]. unfold submitGeneration.
    rewrite Hne, Hbase, Hidle. cbn [negb].
    unfold executeGeneration_start, executeGeneration_sync. rewrite Hbase.
    unfold executeGeneration_async. rewrite Hblobs.
    match goal with |- context [settle ?x] => set (h := x) end.
    destruct (settle_nothing_pending h eq_refl) as (Hs & Hp & _ & _ & Hq).
    rewrite Hs, Hp, (Hq eq_refl). subst h. repeat split.
  - intro m. unfold blobsOf. cbn [PendingGeneration.sketchDataUrl
                                    PendingGeneration.canvasDataUrl].
    destruct (dataUrlToBlob sketch) as [m'|sb] eqn:Hs.
    + split.
      * intro H. left. congruence.
      * intros [H|(sb' & c & H & _)]; [congruence|discriminate].
    + destruct canvas as [c|].
      * destruct (truthy_string c) eqn:Hc.
        -- destruct (dataUrlToBlob c) as [m''|cb] eqn:Hcb.
           ++ split.
              ** intro H. right. exists sb, c. repeat split; try congruence.
                 apply truthy_string_true, Hc.
              ** intros [H|(sb' & c' & _ & E & _ & H)]; [discriminate|].
                 injection E as <-. rewrite Hcb in H. congruence.
           ++ split; [discriminate|].
              intros [H|(sb' & c' & _ & E & _ & H)]; [discriminate|].
              injection E as <-. rewrite Hcb in H. discriminate.
        -- split; [discriminate|].
           intros [H|(sb' & c' & _ & E & Hn & _)]; [discriminate|].
           injection E as <-. apply truthy_string_true in Hn. congruence.
      * split; [discriminate|].
        intros [H|(sb' & c' & _ & E & _)]; discriminate.
Qed.

Lemma rejected_image_never_sent_witness :
  let w := step (initialWorld env0) (BaseImageSelected base0) in
  let w' := step w (SubmitFrom (store w) "not a data url" None normal None) in
  calls w' = calls w
  /\ jobStatus (store w') = error
  /\ jobMessage (store w') = Some "Invalid data URL"
  /\ activeJobId (store w') = None
  /\ pendingGenerationRef (refs w') = None
  /\ lastSketchDataUrl (store w') = lastSketchDataUrl (store w).
Proof.
  cbv zeta.
  assert (Hbase : baseImage (store (step (initialWorld env0) (BaseImageSelected base0)))
                  = Some base0) by (vm_compute; reflexivity).
  assert (Hidle : busy (jobStatus (store (step (initialWorld env0)
                                            (BaseImageSelected base0)))) = false)
    by (vm_compute; reflexivity).
  assert (Hne : "not a data url" <> EmptyString) by discriminate.
  assert (Hblobs : blobsOf (PendingGeneration.mk "not a data url" None normal None)
                   = inl "Invalid data URL") by (vm_compute; reflexivity).
  destruct (rejected_image_never_sent
              (step (initialWorld env0) (BaseImageSelected base0))
              (store (step (initialWorld env0) (BaseImageSelected base0)))
              base0 "not a data url" None normal None Hbase Hidle Hne) as (H & _).
  exact (H _ Hblobs).
Defined.

(** X23. A change of the session id that changes the socket's address
    closes the socket: after the event the socket is not open, nothing has
    been sent, and the store holds the new session id. *)
Theorem session_change_closes_socket (w : World) (sid : option string) :
  settled w ->
  sidOf (Store.setSessionId sid (store w)) <> sidOf (store w) ->
  let w' := step w (SessionChanged sid) in
  wsOpen (refs w') = false
  /\ wsSent w' = wsSent w
  /\ sessionId (store w') = sid.
Proof.
  intros [Hr _ Hl] Hsid. cbv zeta. unfold step. cbn [handle].
  set (h := w |> setSessionId sid).
  assert (H1 : wsOpen (refs (commit h)) = false).
  { rewrite commit_wsOpen. destruct (stage1_socket h) as (_ & _ & ->).
    subst h. cbn [rendered store onStore setSessionId]. rewrite Hr.
    rewrite ostring_eqb_neq by (intro E; apply Hsid; symmetry; exact E).
    reflexivity. }
  assert (S1 : wsSent (commit h) = wsSent w).
  { destruct (commit_sends h) as [->|(_ & m & _ & E)]; [reflexivity|].
    exfalso.
    rewrite commit_wsSent in E. unfold stage2 in E.
    subst h. cbn [rendered store onStore setSessionId] in E.
    rewrite Hr in E.
    assert (Hj : activeJobId (Store.setSessionId sid (store w)) = activeJobId (store w)).
    { unfold Store.setSessionId.
      destruct (ostring_eqb (sessionId (store w)) sid); reflexivity. }
    rewrite ?Hj, ?ostring_eqb_refl in E. cbn [negb] in E.
    destruct (stage1_socket (w |> setSessionId sid)) as (E1 & _).
    rewrite E1 in E. cbn [wsSent onStore setSessionId] in E.
    apply (f_equal (@length _)) in E. rewrite length_app in E. cbn [length] in E. lia. }
  destruct (commit_stays_closed _ H1) as [H2 S2].
  unfold settle. split; [exact H2|]. split; [congruence|].
  assert (Hstore : forall x, sessionId (store (commit x)) = sessionId (store x)).
  { intro x. rewrite commit_stages.
    destruct (stage5_frame x) as (Hs5 & _).
    destruct (stage2_frame x) as (Hs2 & _).
    assert (H3 : sessionId (store (fst (stage3 x))) = sessionId (store x)).
    { unfold stage3. destruct (_ || _); cbn [fst]; [|congruence].
      rewrite <- Hs2. unfold replayEffect, executeGeneration_sync.
      frame_cases; reflexivity. }
    destruct (snd (stage3 x)) as [[b p]|].
    - unfold executeGeneration_async. frame_cases; congruence.
    - congruence. }
  rewrite !Hstore. subst h. cbn [store onStore setSessionId].
  unfold Store.setSessionId.
  destruct (ostring_eqb (sessionId (store w)) sid) eqn:E; [|reflexivity].
  apply ostring_eqb_eq, E.
Qed.

Lemma session_change_closes_socket_witness :
  let w := run [WsOpened] (initialWorld env0) in
  let w' := step w (SessionChanged (Some "s-1")) in
  wsOpen (refs w') = false
  /\ wsSent w' = wsSent w
  /\ sessionId (store w') = Some "s-1".
Proof.
  cbv zeta.
  assert (Hs : settled (run [WsOpened] (initialWorld env0)))
    by (constructor; vm_compute; reflexivity).
  assert (Hsid : sidOf (Store.setSessionId (Some "s-1")
                          (store (run [WsOpened] (initialWorld env0))))
                 <> sidOf (store (run [WsOpened] (initialWorld env0))))
    by (vm_compute; discriminate).
  exact (session_change_closes_socket _ (Some "s-1") Hs Hsid).
Defined.
